(** * Vibe Security Checker: pattern scanner, dependency checker, report

    A shallow embedding of the scripts [scan_security.py],
    [check_dependencies.py] and [generate_report.py], and of the table
    lookups and recommendations of [detect_project.py], followed by the
    properties their specification states about them.

    Conventions of the embedding:
    - decoded file text (a Python [str] read from disk) is a list of
      Unicode code points, [text]; source literals (rule ids, category
      names, package names, patterns) are Rocq [string]s;
    - file contents on disk are [list byte];
    - Python [int]s that count things are [nat]; the enum values of
      [Severity] and the counts travelling through JSON are [Z];
    - mutation of [self.result] / [self.findings] is explicit state
      passing;
    - an exception is an explicit [option] result;
    - what lies outside the scripts is an input: the file tree, the
      manifests and the findings of the audit tools, how a script
      started as a sub-process ends, whether a file can be written;
    - [re.finditer] is a parameter of the scanner: the general results
      hold for every engine, the examples run on the engine of module
      [Regex];
    - letter case ([str.lower], [re.IGNORECASE]) and [\w] are those of
      ASCII, which is all the tables of the program contain. *)

From Stdlib Require Import ZArith NArith Ascii String Strings.Byte.
From stdpp Require Import base decidable option numbers list strings pretty.

Local Open Scope string_scope.
Local Open Scope nat_scope.
Local Open Scope list_scope.

(** ** Text *)

Module Text.

(** A decoded Python [str]: a sequence of code points. *)
Abbreviation text := (list N).

Definition of_ascii (a : ascii) : N := N_of_ascii a.

(** A source literal as text. *)
Definition txt (s : string) : text := of_ascii <$> list_ascii_of_string s.

Definition NL : N := 10.
Definition CR : N := 13.

(** [str.lower()] of one code point, on the ASCII letters.  (Python
    lowers every cased code point; the tables of this program are ASCII
    only.) *)
Definition lower_cp (c : N) : N :=
  if (65 <=? c)%N && (c <=? 90)%N then (c + 32)%N else c.

Definition upper_cp (c : N) : N :=
  if (97 <=? c)%N && (c <=? 122)%N then (c - 32)%N else c.

Definition lower_ascii (a : ascii) : ascii := ascii_of_N (lower_cp (N_of_ascii a)).

(** [s.lower()] on a source-level string. *)
Fixpoint lower (s : string) : string :=
  match s with
  | EmptyString => EmptyString
  | String a s' => String (lower_ascii a) (lower s')
  end.

(** [str.isspace()] of one code point: the characters Python strips and
    that [\s] matches in a [str] pattern. *)
Definition isspace (c : N) : bool :=
  ((9 <=? c) && (c <=? 13) || (28 <=? c) && (c <=? 32)
   || (c =? 133) || (c =? 160) || (c =? 5760)
   || (8192 <=? c) && (c <=? 8202)
   || (c =? 8232) || (c =? 8233) || (c =? 8239) || (c =? 8287)
   || (c =? 12288))%N.

Fixpoint lstrip (s : text) : text :=
  match s with
  | c :: s' => if isspace c then lstrip s' else s
  | [] => []
  end.

Definition rstrip (s : text) : text := rev (lstrip (rev s)).

(** [s.strip()] *)
Definition strip (s : text) : text := rstrip (lstrip s).

(** [s.count('\n')] *)
Definition count_nl (s : text) : nat := length (filter (λ c, c = NL) s).

(** [s.split('\n')]: never empty, one more piece than newlines. *)
Fixpoint split_nl (s : text) : list text :=
  match s with
  | [] => [[]]
  | c :: s' =>
      if (c =? NL)%N then [] :: split_nl s'
      else match split_nl s' with
           | l :: ls => (c :: l) :: ls
           | [] => [[c]]
           end
  end.

(** ['\n'.join(lines)] *)
Fixpoint join_nl (ls : list text) : text :=
  match ls with
  | [] => []
  | [l] => l
  | l :: ls' => l ++ NL :: join_nl ls'
  end.

(** [s.startswith(p)] on source-level strings. *)
Fixpoint startswith (p s : string) : bool :=
  match p, s with
  | EmptyString, _ => true
  | String a p', String b s' => if Ascii.eqb a b then startswith p' s' else false
  | String _ _, EmptyString => false
  end.

(** [x in xs] for a list or set of string literals. *)
Definition str_in (x : string) (xs : list string) : bool :=
  bool_decide (x ∈ xs).

End Text.

Import Text.

(** ** Codec: [bytes.decode('utf-8', errors=...)] and text-mode reading *)

Module Codec.

Inductive errors := Strict | Ignore.

Definition is_cont (b : N) : bool := ((128 <=? b) && (b <=? 191))%N.

(** What the decoder finds at the head of the input. *)
Inductive step :=
| Char (c : N) (used : nat)     (* a well-formed sequence of [used] bytes *)
| Bad (skip : nat)              (* an ill-formed prefix of [skip] bytes *)
| Truncated.                    (* a sequence cut off by the end of the data *)

(** One step of CPython's UTF-8 decoder: the well-formed ranges are those
    of the Unicode standard (no overlong forms, no surrogates, nothing
    above U+10FFFF); an error covers the maximal ill-formed prefix. *)
Definition decode_step (bs : list N) : option step :=
  match bs with
  | [] => None
  | b0 :: r =>
    Some (
    if (b0 <? 128)%N then Char b0 1
    else if (b0 <? 194)%N then Bad 1
    else if (b0 <? 224)%N then
      match r with
      | [] => Truncated
      | b1 :: _ =>
          if is_cont b1 then Char ((b0 - 192) * 64 + (b1 - 128))%N 2 else Bad 1
      end
    else if (b0 <? 240)%N then
      match r with
      | [] => Truncated
      | b1 :: r1 =>
          if negb (is_cont b1)
             || (b0 =? 224)%N && (b1 <? 160)%N
             || (b0 =? 237)%N && (160 <=? b1)%N
          then Bad 1
          else match r1 with
               | [] => Truncated
               | b2 :: _ =>
                   if is_cont b2
                   then Char ((b0 - 224) * 4096 + (b1 - 128) * 64 + (b2 - 128))%N 3
                   else Bad 2
               end
      end
    else if (b0 <? 245)%N then
      match r with
      | [] => Truncated
      | b1 :: r1 =>
          if negb (is_cont b1)
             || (b0 =? 240)%N && (b1 <? 144)%N
             || (b0 =? 244)%N && (144 <=? b1)%N
          then Bad 1
          else match r1 with
               | [] => Truncated
               | b2 :: r2 =>
                   if negb (is_cont b2) then Bad 2
                   else match r2 with
                        | [] => Truncated
                        | b3 :: _ =>
                            if is_cont b3
                            then Char ((b0 - 240) * 262144 + (b1 - 128) * 4096
                                       + (b2 - 128) * 64 + (b3 - 128))%N 4
                            else Bad 3
                        end
               end
      end
    else Bad 1)
  end.

(** The decoding loop.  [Strict] raises ([None]) at the first error;
    [Ignore] drops the offending bytes and goes on.  The fuel is the
    number of bytes: every step consumes at least one. *)
Fixpoint decode_loop (fuel : nat) (e : errors) (bs : list N) : option text :=
  match fuel with
  | O => Some []
  | S fuel' =>
      match decode_step bs with
      | None => Some []
      | Some (Char c n) => (c ::.) <$> decode_loop fuel' e (drop n bs)
      | Some (Bad n) =>
          match e with
          | Strict => None
          | Ignore => decode_loop fuel' e (drop n bs)
          end
      | Some Truncated =>
          match e with
          | Strict => None
          | Ignore => Some []
          end
      end
  end.

Definition utf8_decode (e : errors) (data : list byte) : option text :=
  let bs := Byte.to_N <$> data in decode_loop (length bs) e bs.

(** Universal newlines of text-mode reading: [\r\n] and a lone [\r]
    both become [\n]. *)
Fixpoint universal_newlines (s : text) : text :=
  match s with
  | [] => []
  | c :: s' =>
      if (c =? CR)%N then
        match s' with
        | d :: s'' => if (d =? NL)%N then NL :: universal_newlines s''
                      else NL :: universal_newlines s'
        | [] => [NL]
        end
      else c :: universal_newlines s'
  end.

End Codec.

(** ** Regex: the fragment of Python's [re] the rule tables use

    [re.finditer(pattern, content, re.IGNORECASE | re.MULTILINE)] is
    library code.  The scanner below takes the engine as a parameter;
    this module is one engine, a backtracking matcher in the manner of
    [sre], for the syntax the rule tables are written in: literals,
    [.], [\s \w \d], escaped punctuation, [\n], sets with ranges and
    negation, groups, [(?:...)], [(?!...)], alternation and the
    quantifiers [* + ? {n} {n,} {n,m}] with their lazy forms.  Case is
    folded on the ASCII letters. *)

Module Regex.

Inductive cls := CSpace | CWord | CDigit.

Inductive set_item :=
| SIChar (c : N)
| SIRange (lo hi : N)
| SIClass (k : cls).

Inductive regex :=
| Eps
| Lit (c : N)
| Dot
| Cls (k : cls)
| CSet (neg : bool) (items : list set_item)
| Cat (a b : regex)
| Alt (a b : regex)
| Rep (lo : nat) (hi : option nat) (greedy : bool) (r : regex)
| NegLook (r : regex).

(** *** Parsing a pattern *)

Definition is_digit (a : ascii) : bool :=
  let n := N_of_ascii a in ((48 <=? n) && (n <=? 57))%N.

Definition digit_val (a : ascii) : nat := N.to_nat (N_of_ascii a - 48).

Definition is_alnum (a : ascii) : bool :=
  let n := N_of_ascii a in
  ((48 <=? n) && (n <=? 57) || (65 <=? n) && (n <=? 90) || (97 <=? n) && (n <=? 122))%N.

(** What a backslash escape denotes. *)
Inductive esc := EClass (k : cls) | EChar (c : N).

Definition parse_escape (a : ascii) : option esc :=
  match a with
  | "s"%char => Some (EClass CSpace)
  | "w"%char => Some (EClass CWord)
  | "d"%char => Some (EClass CDigit)
  | "n"%char => Some (EChar 10%N)
  | "t"%char => Some (EChar 9%N)
  | "r"%char => Some (EChar 13%N)
  | _ => if is_alnum a then None else Some (EChar (N_of_ascii a))
  end.

Fixpoint parse_nat (acc : nat) (s : list ascii) : nat * list ascii :=
  match s with
  | a :: s' => if is_digit a then parse_nat (10 * acc + digit_val a) s' else (acc, s)
  | [] => (acc, s)
  end.

(** The items of a set, after the opening bracket and the optional [^];
    stops after the closing bracket. *)
Fixpoint parse_set (fuel : nat) (first : bool) (s : list ascii)
  : option (list set_item * list ascii) :=
  match fuel with
  | O => None
  | S fuel' =>
      let item (i : set_item) (rest : list ascii) :=
        '(its, rest') ← parse_set fuel' false rest; Some (i :: its, rest') in
      let single (c : N) (rest : list ascii) :=
        match rest with
        | "-"%char :: "]"%char :: _ => item (SIChar c) rest
        | "-"%char :: "\"%char :: e :: rest' =>
            match parse_escape e with
            | Some (EChar hi) => item (SIRange c hi) rest'
            | _ => None
            end
        | "-"%char :: hi :: rest' => item (SIRange c (N_of_ascii hi)) rest'
        | _ => item (SIChar c) rest
        end in
      match s with
      | [] => None
      | "]"%char :: rest => if first then single 93%N rest else Some ([], rest)
      | "\"%char :: e :: rest =>
          match parse_escape e with
          | Some (EClass k) => item (SIClass k) rest
          | Some (EChar c) => single c rest
          | None => None
          end
      | a :: rest => single (N_of_ascii a) rest
      end
  end.

(** A quantifier, if one follows: bounds and greediness. *)
Definition parse_quant (s : list ascii)
  : option (nat * option nat * bool * list ascii) :=
  let lazy (lo : nat) (hi : option nat) (rest : list ascii) :=
    match rest with
    | "?"%char :: rest' => Some (lo, hi, false, rest')
    | _ => Some (lo, hi, true, rest)
    end in
  match s with
  | "*"%char :: rest => lazy 0 None rest
  | "+"%char :: rest => lazy 1 None rest
  | "?"%char :: rest => lazy 0 (Some 1) rest
  | "{"%char :: d :: rest =>
      if is_digit d then
        let '(lo, rest1) := parse_nat 0 (d :: rest) in
        match rest1 with
        | "}"%char :: rest2 => lazy lo (Some lo) rest2
        | ","%char :: "}"%char :: rest2 => lazy lo None rest2
        | ","%char :: d2 :: rest2 =>
            if is_digit d2 then
              let '(hi, rest3) := parse_nat 0 (d2 :: rest2) in
              match rest3 with
              | "}"%char :: rest4 => lazy lo (Some hi) rest4
              | _ => None
              end
            else None
        | _ => None
        end
      else None
  | _ => None
  end.

Definition quantify (r : regex) (s : list ascii) : regex * list ascii :=
  match parse_quant s with
  | Some (lo, hi, g, rest) => (Rep lo hi g r, rest)
  | None => (r, s)
  end.

(** Recursive descent: alternatives, sequences, atoms.  Each returns
    the expression and the unread rest; [None] is [re.error] (or syntax
    outside the fragment). *)
Fixpoint parse_alt (fuel : nat) (s : list ascii) : option (regex * list ascii) :=
  match fuel with
  | O => None
  | S fuel' =>
      '(a, rest) ← parse_seq fuel' s;
      match rest with
      | "|"%char :: rest' =>
          '(b, rest'') ← parse_alt fuel' rest'; Some (Alt a b, rest'')
      | _ => Some (a, rest)
      end
  end
with parse_seq (fuel : nat) (s : list ascii) : option (regex * list ascii) :=
  match fuel with
  | O => None
  | S fuel' =>
      match s with
      | [] => Some (Eps, s)
      | "|"%char :: _ => Some (Eps, s)
      | ")"%char :: _ => Some (Eps, s)
      | _ =>
          '(a, rest) ← parse_atom fuel' s;
          let '(a', rest') := quantify a rest in
          '(b, rest'') ← parse_seq fuel' rest';
          Some (match b with Eps => a' | _ => Cat a' b end, rest'')
      end
  end
with parse_atom (fuel : nat) (s : list ascii) : option (regex * list ascii) :=
  match fuel with
  | O => None
  | S fuel' =>
      let group (body : list ascii) (wrap : regex → regex) :=
        '(r, rest) ← parse_alt fuel' body;
        match rest with
        | ")"%char :: rest' => Some (wrap r, rest')
        | _ => None
        end in
      match s with
      | [] => None
      | "("%char :: "?"%char :: ":"%char :: body => group body id
      | "("%char :: "?"%char :: "!"%char :: body => group body NegLook
      | "("%char :: "?"%char :: _ => None
      | "("%char :: body => group body id
      | "["%char :: "^"%char :: body =>
          '(its, rest) ← parse_set (S (length body)) true body; Some (CSet true its, rest)
      | "["%char :: body =>
          '(its, rest) ← parse_set (S (length body)) true body; Some (CSet false its, rest)
      | "\"%char :: e :: rest =>
          match parse_escape e with
          | Some (EClass k) => Some (Cls k, rest)
          | Some (EChar c) => Some (Lit c, rest)
          | None => None
          end
      | "."%char :: rest => Some (Dot, rest)
      | "^"%char :: _ | "$"%char :: _ | "*"%char :: _ | "+"%char :: _
      | "?"%char :: _ | "\"%char :: _ => None
      | a :: rest => Some (Lit (N_of_ascii a), rest)
      end
  end.

(** [re.compile(pattern)] *)
Definition compile (pattern : string) : option regex :=
  let s := list_ascii_of_string pattern in
  match parse_alt (3 * length s + 3) s with
  | Some (r, []) => Some r
  | _ => None
  end.

(** *** Matching *)

Definition in_cls (k : cls) (c : N) : bool :=
  match k with
  | CSpace => isspace c
  | CDigit => ((48 <=? c) && (c <=? 57))%N
  | CWord =>
      ((48 <=? c) && (c <=? 57) || (65 <=? c) && (c <=? 90)
       || (97 <=? c) && (c <=? 122) || (c =? 95))%N
  end.

Definition in_item (i : set_item) (c : N) : bool :=
  match i with
  | SIChar x => (lower_cp c =? lower_cp x)%N
  | SIRange lo hi =>
      ((lo <=? c) && (c <=? hi)
       || (lo <=? lower_cp c) && (lower_cp c <=? hi)
       || (lo <=? upper_cp c) && (upper_cp c <=? hi))%N
  | SIClass k => in_cls k c
  end.

Definition orelse {A} (x : option A) (y : option A) : option A :=
  match x with Some _ => x | None => y end.

(** [rmatch r s k]: match [r] at the head of [s], then hand what is left
    to the continuation [k]; the first success in backtracking order
    wins.  The result is the text left after the whole match. *)
Fixpoint rmatch (r : regex) (s : text) (k : text → option text) {struct r}
  : option text :=
  match r with
  | Eps => k s
  | Lit c =>
      match s with
      | x :: s' => if (lower_cp x =? lower_cp c)%N then k s' else None
      | [] => None
      end
  | Dot =>
      match s with
      | x :: s' => if (x =? NL)%N then None else k s'
      | [] => None
      end
  | Cls c =>
      match s with
      | x :: s' => if in_cls c x then k s' else None
      | [] => None
      end
  | CSet neg items =>
      match s with
      | x :: s' => if xorb neg (existsb (λ i, in_item i x) items) then k s' else None
      | [] => None
      end
  | Cat a b => rmatch a s (λ s', rmatch b s' k)
  | Alt a b => orelse (rmatch a s k) (rmatch b s k)
  | Rep lo hi greedy r' =>
      (fix rep (fuel lo : nat) (hi : option nat) (s : text) {struct fuel}
         : option text :=
         match fuel with
         | O => None
         | S fuel' =>
             let more :=
               rmatch r' s (λ s',
                 if (lo =? 0)%nat && (length s' =? length s)%nat then None
                 else rep fuel' (pred lo) (pred <$> hi) s') in
             match hi with
             | Some O => k s
             | _ =>
                 if negb (lo =? 0)%nat then more
                 else if greedy then orelse more (k s)
                 else orelse (k s) more
             end
         end) (S (lo + length s)) lo hi s
  | NegLook r' =>
      match rmatch r' s Some with
      | Some _ => None
      | None => k s
      end
  end.

(** A match object: [m.start()] and [m.end()]. *)
Record Match := { m_start : nat; m_end : nat }.

(** The scan of [finditer]: leftmost match from the current position,
    then on from its end.  After an empty match the next attempt at the
    same position must consume something ([must_advance]). *)
Fixpoint scan_matches (fuel : nat) (r : regex) (pos : nat) (must_advance : bool)
    (s : text) : list Match :=
  match fuel with
  | O => []
  | S fuel' =>
      let final (rest : text) :=
        if must_advance && (length rest =? length s)%nat then None else Some rest in
      match rmatch r s final with
      | Some rest =>
          let e := pos + (length s - length rest) in
          {| m_start := pos; m_end := e |}
            :: scan_matches fuel' r e (e =? pos)%nat rest
      | None =>
          match s with
          | [] => []
          | _ :: s' => scan_matches fuel' r (S pos) false s'
          end
      end
  end.

(** [re.finditer(pattern, content, re.IGNORECASE | re.MULTILINE)] as a
    list.  The rule tables hold patterns that compile; a pattern that
    does not yields nothing here. *)
Definition finditer (pattern : string) (content : text) : list Match :=
  match compile pattern with
  | Some r => scan_matches (2 * length content + 2) r 0 false content
  | None => []
  end.

End Regex.

(** ** scan_security.py *)

Module Scanner.

Import Regex.

(** The double-quote character, for literals that contain it. *)
Definition DQ : string := String "034"%char EmptyString.

(** [class Severity(Enum)] *)
Inductive Severity := CRITICAL | HIGH | MEDIUM | LOW.

#[global] Instance Severity_eq_dec : EqDecision Severity.
Proof. solve_decision. Defined.

(** [severity.value] *)
Definition value (s : Severity) : Z :=
  match s with CRITICAL => 4 | HIGH => 3 | MEDIUM => 2 | LOW => 1 end.

(** [severity.name] *)
Definition name (s : Severity) : string :=
  match s with
  | CRITICAL => "CRITICAL" | HIGH => "HIGH" | MEDIUM => "MEDIUM" | LOW => "LOW"
  end.

(** [@dataclass class Finding] *)
Record Finding := {
  rule_id : string;
  severity : Severity;
  category : string;
  description : string;
  file_path : string;
  line_number : nat;
  code_snippet : text;
  remediation : string;
}.

(** [@dataclass class ScanResult] *)
Record ScanResult := {
  findings : list Finding;
  files_scanned : nat;
}.

Definition new_result : ScanResult := {| findings := []; files_scanned := 0 |}.

(** [ScanResult.add] *)
Definition add (r : ScanResult) (f : Finding) : ScanResult :=
  {| findings := findings r ++ [f]; files_scanned := files_scanned r |}.

(** [ScanResult.get_by_severity] *)
Definition get_by_severity (r : ScanResult) (s : Severity) : list Finding :=
  filter (λ f, severity f = s) (findings r).

(** [ScanResult.has_critical] *)
Definition has_critical (r : ScanResult) : bool :=
  bool_decide (0 < length (get_by_severity r CRITICAL)).

(** *** Detection patterns: rows [(pattern, rule_id, description)] *)

Abbreviation Rule := (string * string * string)%type.

Definition SECRETS_PATTERNS : list Rule :=
  [
    ("[" +:+ DQ +:+ "\'](?:sk|pk)[-_](?:live|test)[-_][a-zA-Z0-9]{24,}[" +:+ DQ +:+ "\']",
     "SEC-001", "Stripe API key");
    ("[" +:+ DQ +:+ "\']AIza[a-zA-Z0-9_-]{35}[" +:+ DQ +:+ "\']",
     "SEC-002", "Google API key");
    ("[" +:+ DQ +:+ "\']AKIA[A-Z0-9]{16}[" +:+ DQ +:+ "\']",
     "SEC-003", "AWS Access Key ID");
    ("[" +:+ DQ +:+ "\']ghp_[a-zA-Z0-9]{36}[" +:+ DQ +:+ "\']",
     "SEC-004", "GitHub Personal Access Token");
    ("[" +:+ DQ +:+ "\']xox[baprs]-[a-zA-Z0-9-]{10,}[" +:+ DQ +:+ "\']",
     "SEC-005", "Slack Token");
    ("[" +:+ DQ +:+ "\']eyJ[a-zA-Z0-9_-]*\.eyJ[a-zA-Z0-9_-]*\.[a-zA-Z0-9_-]*[" +:+ DQ +:+ "\']",
     "SEC-006", "JWT Token");
    ("[" +:+ DQ +:+ "\']your[-_]?256[-_]?bit[-_]?secret[" +:+ DQ +:+ "\']",
     "SEC-007", "AI-generated placeholder secret");
    ("[" +:+ DQ +:+ "\']secret[" +:+ DQ +:+ "\']",
     "SEC-008", "Hardcoded " +:+ DQ +:+ "secret" +:+ DQ +:+ " value");
    ("[" +:+ DQ +:+ "\']password123[" +:+ DQ +:+ "\']",
     "SEC-009", "Weak hardcoded password");
    ("[" +:+ DQ +:+ "\']admin@example\.com[" +:+ DQ +:+ "\']",
     "SEC-010", "AI-generated test credential");
    ("[" +:+ DQ +:+ "\']changeme[" +:+ DQ +:+ "\']",
     "SEC-011", "Placeholder password");
    ("password\s*=\s*[" +:+ DQ +:+ "\'][^" +:+ DQ +:+ "\']+[" +:+ DQ +:+ "\']",
     "SEC-012", "Hardcoded password assignment");
    ("api[_-]?key\s*=\s*[" +:+ DQ +:+ "\'][a-zA-Z0-9]{16,}[" +:+ DQ +:+ "\']",
     "SEC-013", "Hardcoded API key");
    ("mongodb(?:\+srv)?://[^" +:+ DQ +:+ "\'\s]+:[^" +:+ DQ +:+ "\'\s]+@",
     "SEC-014", "MongoDB connection with credentials");
    ("postgres(?:ql)?://[^" +:+ DQ +:+ "\'\s]+:[^" +:+ DQ +:+ "\'\s]+@",
     "SEC-015", "PostgreSQL connection with credentials");
    ("mysql://[^" +:+ DQ +:+ "\'\s]+:[^" +:+ DQ +:+ "\'\s]+@",
     "SEC-016", "MySQL connection with credentials")
  ].

Definition INJECTION_PATTERNS : list (string * list Rule) :=
  [
    ("sql",
      [
        ("execute\s*\(\s*[" +:+ DQ +:+ "\'].*?\%s.*?[" +:+ DQ +:+ "\'].*?\%",
         "INJ-001", "SQL string formatting (use parameterized queries)");
        ("execute\s*\(\s*f[" +:+ DQ +:+ "\']",
         "INJ-002", "SQL f-string injection risk");
        ("execute\s*\(\s*[" +:+ DQ +:+ "\'].*?\+",
         "INJ-003", "SQL string concatenation");
        ("cursor\.execute\s*\([^,)]*\+",
         "INJ-004", "Cursor execute with concatenation");
        ("\.query\s*\(\s*[`" +:+ DQ +:+ "\'].*?\$\{",
         "INJ-005", "SQL template literal injection");
        ("SELECT.*FROM.*WHERE.*\+.*\+",
         "INJ-006", "Raw SQL with concatenation")
      ]);
    ("command",
      [
        ("os\.system\s*\(",
         "INJ-010", "os.system() is dangerous");
        ("subprocess\.[a-z]+\s*\([^)]*shell\s*=\s*True",
         "INJ-011", "subprocess with shell=True");
        ("eval\s*\(\s*(?:request|req|input|user)",
         "INJ-012", "eval() with user input");
        ("exec\s*\(\s*(?:request|req|input|user)",
         "INJ-013", "exec() with user input");
        ("child_process\.exec\s*\(",
         "INJ-014", "Node.js exec() command injection risk")
      ]);
    ("xss",
      [
        ("innerHTML\s*=\s*(?![\'" +:+ DQ +:+ "]\s*[\'" +:+ DQ +:+ "])",
         "INJ-020", "innerHTML assignment (XSS risk)");
        ("document\.write\s*\(",
         "INJ-021", "document.write() XSS risk");
        ("\.html\s*\(\s*(?:req|request|user|data)",
         "INJ-022", "jQuery .html() with user data");
        ("dangerouslySetInnerHTML",
         "INJ-023", "React dangerouslySetInnerHTML");
        ("v-html\s*=",
         "INJ-024", "Vue v-html directive (XSS risk)");
        ("\{\{\{.*\}\}\}",
         "INJ-025", "Handlebars unescaped output")
      ]);
    ("nosql",
      [
        ("\.find\s*\(\s*(?:req\.body|request\.body)",
         "INJ-030", "NoSQL injection via req.body");
        ("\.findOne\s*\(\s*(?:req\.body|request\.body)",
         "INJ-031", "NoSQL injection via req.body");
        ("\$where.*(?:req|request|user)",
         "INJ-032", "MongoDB $where injection")
      ])
  ].

Definition AUTH_PATTERNS : list Rule :=
  [
    ("hashlib\.md5\s*\(",
     "AUTH-001", "MD5 for password hashing (use bcrypt/Argon2)");
    ("hashlib\.sha1\s*\(",
     "AUTH-002", "SHA1 for password hashing (use bcrypt/Argon2)");
    ("crypto\.createHash\s*\(\s*[" +:+ DQ +:+ "\']md5",
     "AUTH-003", "Node.js MD5 hashing");
    ("crypto\.createHash\s*\(\s*[" +:+ DQ +:+ "\']sha1",
     "AUTH-004", "Node.js SHA1 hashing");
    ("localStorage\.setItem\s*\(\s*[" +:+ DQ +:+ "\'](?:token|jwt|auth)",
     "AUTH-010", "Token in localStorage (use HttpOnly cookies)");
    ("sessionStorage\.setItem\s*\(\s*[" +:+ DQ +:+ "\'](?:token|jwt|auth)",
     "AUTH-011", "Token in sessionStorage");
    ("@app\.route\s*\([^)]*\)\s*\ndef\s+\w+\s*\([^)]*\):",
     "AUTH-020", "Flask route without auth decorator (verify manually)");
    ("router\.(get|post|put|delete|patch)\s*\([^)]*,\s*(?:async\s+)?\([^)]*\)\s*=>",
     "AUTH-021", "Express route (verify auth middleware)")
  ].

Definition CRYPTO_PATTERNS : list Rule :=
  [
    ("DES\s*\(",
     "CRYPTO-001", "DES encryption (use AES-256)");
    ("Blowfish\s*\(",
     "CRYPTO-002", "Blowfish (use AES-256)");
    ("RC4\s*\(",
     "CRYPTO-003", "RC4 encryption (use AES-256)");
    ("random\.randint\s*\(.*(?:token|key|secret|password)",
     "CRYPTO-010", "Insecure random for security (use secrets module)");
    ("Math\.random\s*\(\).*(?:token|key|secret|id)",
     "CRYPTO-011", "Math.random() for security tokens");
    ("random\.choice\s*\(.*(?:token|key|secret)",
     "CRYPTO-012", "random.choice for security (use secrets.choice)")
  ].

Definition CLOUD_PATTERNS : list Rule :=
  [
    ("\.ref\s*\(\s*[" +:+ DQ +:+ "\'][" +:+ DQ +:+ "\'\s]*\)\.set",
     "CLOUD-001", "Firebase write without path validation");
    ("supabase\s*=\s*createClient\s*\([^)]*anon[^)]*\)",
     "CLOUD-002", "Supabase anon key in client (expected but verify RLS)");
    ("service[_-]?role[_-]?key",
     "CLOUD-003", "Supabase service role key exposure");
    ("cors\s*\(\s*\{\s*origin\s*:\s*[" +:+ DQ +:+ "\']?\*[" +:+ DQ +:+ "\']?",
     "CLOUD-010", "CORS allows all origins");
    ("Access-Control-Allow-Origin.*\*",
     "CLOUD-011", "CORS header allows all origins");
    ("res\.setHeader\s*\(\s*['\" +:+ DQ +:+ "]Access-Control-Allow-Origin['\" +:+ DQ +:+ "]\s*,\s*['\" +:+ DQ +:+ "]\\*['\" +:+ DQ +:+ "]",
     "CLOUD-012", "Wildcard CORS header");
    ("ACL\s*[=:]\s*[" +:+ DQ +:+ "\']public-read",
     "CLOUD-020", "S3 public read ACL");
    ("BlockPublicAccess.*false",
     "CLOUD-021", "S3 public access enabled")
  ].

Definition DATA_PATTERNS : list Rule :=
  [
    ("pickle\.loads?\s*\(",
     "DATA-001", "Unsafe pickle deserialization");
    ("yaml\.load\s*\([^)]*(?!Loader)",
     "DATA-002", "YAML load without safe loader");
    ("torch\.load\s*\([^)]*(?!weights_only)",
     "DATA-003", "PyTorch load without weights_only=True");
    ("json\.loads?\s*\(.*request",
     "DATA-010", "JSON parse of request (verify schema validation)")
  ].

Definition SCANNABLE_EXTENSIONS : list string :=
  [".py"; ".js"; ".ts"; ".jsx"; ".tsx"; ".vue"; ".svelte";
   ".java"; ".kt"; ".go"; ".rs"; ".rb"; ".php";
   ".html"; ".htm"; ".json"; ".yaml"; ".yml"; ".toml";
   ".env"; ".config"; ".conf"].

Definition SKIP_DIRS : list string :=
  ["node_modules"; ".git"; "__pycache__"; ".next"; ".nuxt";
   "dist"; "build"; ".venv"; "venv"; "env"; ".env";
   "vendor"; "target"; ".idea"; ".vscode"].

(** *** The file tree under the scanned path *)

(** What opening a file gives: an error, or its bytes.  The tree holds
    plain files and directories that can be listed; [os.walk] does not
    descend into symbolic links and skips directories it cannot list. *)
Inductive FileData :=
| Unreadable
| Bytes (data : list byte).

#[warnings="-register-all"]
Inductive FsNode :=
| FsFile (fname : string) (data : FileData)
| FsDir (dname : string) (entries : list FsNode).

(** A path below the root, by components. *)
Abbreviation RelPath := (list string).

(** [str(file_path.relative_to(self.root))] *)
Definition rel_str (p : RelPath) : string := String.concat "/" p.

(** Index of the last ['.'] of a name: [name.rfind('.')]. *)
Fixpoint rfind_dot (s : string) : option nat :=
  match s with
  | EmptyString => None
  | String a s' =>
      match rfind_dot s' with
      | Some i => Some (S i)
      | None => if Ascii.eqb a "."%char then Some 0 else None
      end
  end.

(** [Path.suffix]: the final component from its last dot on, unless
    that dot is the first or the last character. *)
Definition suffix (fname : string) : string :=
  match rfind_dot fname with
  | Some i =>
      if (0 <? i)%nat && (i <? String.length fname - 1)%nat
      then substring i (String.length fname - i) fname
      else EmptyString
  | None => EmptyString
  end.

(** The test of [_get_files] on one file name. *)
Definition is_candidate (fname : string) : bool :=
  str_in (lower (suffix fname)) SCANNABLE_EXTENSIONS || startswith ".env" fname.

(** The candidate files directly in a directory, in listing order. *)
Definition files_here (prefix : RelPath) (entries : list FsNode)
  : list (RelPath * FileData) :=
  omap (λ n, match n with
             | FsFile f d => if is_candidate f then Some (prefix ++ [f], d) else None
             | FsDir _ _ => None
             end) entries.

(** [os.walk] below a directory entry, top-down, pruning [SKIP_DIRS]. *)
Fixpoint walk (prefix : RelPath) (n : FsNode) : list (RelPath * FileData) :=
  match n with
  | FsFile _ _ => []
  | FsDir d entries =>
      if str_in d SKIP_DIRS then []
      else files_here (prefix ++ [d]) entries
           ++ flat_map (walk (prefix ++ [d])) entries
  end.

(** [SecurityScanner._get_files]: the files yielded for a root.  The
    root's own name is not tested against [SKIP_DIRS]; a root that is
    not a directory yields nothing. *)
Definition _get_files (root : FsNode) : list (RelPath * FileData) :=
  match root with
  | FsFile _ _ => []
  | FsDir _ entries => files_here [] entries ++ flat_map (walk []) entries
  end.

(** [file_path.read_text(encoding='utf-8', errors='ignore')]: [None]
    when the file cannot be opened or read. *)
Definition read_text (d : FileData) : option text :=
  match d with
  | Unreadable => None
  | Bytes data => Codec.universal_newlines <$> Codec.utf8_decode Codec.Ignore data
  end.

(** [not checks or c in checks] *)
Definition wants (c : string) (checks : option (list string)) : bool :=
  match checks with
  | None => true
  | Some [] => true
  | Some cs => str_in c cs
  end.

(** *** The scanner, over a regex engine *)

Section Engine.

(** [finditer pattern content]: the matches of
    [re.finditer(pattern, content, re.IGNORECASE | re.MULTILINE)]. *)
Variable finditer : string → text → list Match.

(** The [Finding] built for one match in [_check_patterns]. *)
Definition finding_of (file : RelPath) (lines : list text) (content : text)
    (rule : Rule) (cat : string) (sev : Severity) (remedy : string) (m : Match)
  : Finding :=
  let '(_, rid, descr) := rule in
  let line_num := count_nl (take (m_start m) content) + 1 in
  let snippet :=
    if decide (line_num ≤ length lines)%nat
    then strip (default [] (lines !! (line_num - 1)))
    else [] in
  {| rule_id := rid;
     severity := sev;
     category := cat;
     description := descr;
     file_path := rel_str file;
     line_number := line_num;
     code_snippet := take 100 snippet;
     remediation := remedy |}.

(** [SecurityScanner._check_patterns] *)
Definition _check_patterns (file : RelPath) (lines : list text)
    (patterns : list Rule) (cat : string) (sev : Severity) (remedy : string)
    (st : ScanResult) : ScanResult :=
  let content := join_nl lines in
  foldl (λ st rule,
           foldl (λ st m, add st (finding_of file lines content rule cat sev remedy m))
                 st (finditer rule.1.1 content))
        st patterns.

(** The injection block of [_scan_file]: every sub-category in turn. *)
Definition check_injection (file : RelPath) (lines : list text) (st : ScanResult)
  : ScanResult :=
  foldl (λ st '(cat, patterns),
           let sev := if str_in cat ["sql"; "command"] then CRITICAL else HIGH in
           _check_patterns file lines patterns ("Injection (" +:+ cat +:+ ")") sev
             "Use parameterized queries/safe APIs" st)
        st INJECTION_PATTERNS.

Definition when (b : bool) (f : ScanResult → ScanResult) (st : ScanResult)
  : ScanResult := if b then f st else st.

(** [SecurityScanner._scan_file]; an exception ends the scan of the
    file and is swallowed. *)
Definition _scan_file (file : RelPath) (d : FileData)
    (checks : option (list string)) (st : ScanResult) : ScanResult :=
  match read_text d with
  | None => st
  | Some content =>
      let lines := split_nl content in
      let st := when (wants "secrets" checks)
        (_check_patterns file lines SECRETS_PATTERNS "Secrets" CRITICAL
           "Move secrets to environment variables or a secrets manager") st in
      let st := when (wants "injection" checks) (check_injection file lines) st in
      let st := when (wants "auth" checks)
        (_check_patterns file lines AUTH_PATTERNS "Authentication" HIGH
           "See references/auth.md for secure patterns") st in
      let st := when (wants "crypto" checks)
        (_check_patterns file lines CRYPTO_PATTERNS "Cryptography" HIGH
           "Use modern algorithms (AES-256, SHA-256, bcrypt)") st in
      let st := when (wants "cloud" checks)
        (_check_patterns file lines CLOUD_PATTERNS "Cloud/Infrastructure" HIGH
           "See references/infrastructure.md") st in
      let st := when (wants "data" checks)
        (_check_patterns file lines DATA_PATTERNS "Data Handling" HIGH
           "Use safe deserialization methods") st in
      st
  end.

(** [SecurityScanner.scan]: each yielded file is scanned, then the
    generator resumes and counts it. *)
Definition scan (root : FsNode) (checks : option (list string)) : ScanResult :=
  foldl (λ st '(file, d),
           let st := _scan_file file d checks st in
           {| findings := findings st; files_scanned := files_scanned st + 1 |})
        new_result (_get_files root).

(** *** Output and the command line *)

(** One entry of ['findings'] in the JSON output. *)
Record FindingJson := {
  j_rule_id : string;
  j_severity : string;
  j_category : string;
  j_description : string;
  j_file : string;
  j_line : Z;
  j_snippet : text;
  j_remediation : string;
}.

(** The JSON document of [print_results(result, json_output=True)]. *)
Record ScanJson := {
  j_files_scanned : Z;
  j_total_findings : Z;
  j_critical : Z;
  j_high : Z;
  j_medium : Z;
  j_low : Z;
  j_findings : list FindingJson;
}.

Definition finding_json (f : Finding) : FindingJson :=
  {| j_rule_id := rule_id f;
     j_severity := name (severity f);
     j_category := category f;
     j_description := description f;
     j_file := file_path f;
     j_line := Z.of_nat (line_number f);
     j_snippet := code_snippet f;
     j_remediation := remediation f |}.

Definition scan_json (r : ScanResult) : ScanJson :=
  {| j_files_scanned := Z.of_nat (files_scanned r);
     j_total_findings := Z.of_nat (length (findings r));
     j_critical := Z.of_nat (length (get_by_severity r CRITICAL));
     j_high := Z.of_nat (length (get_by_severity r HIGH));
     j_medium := Z.of_nat (length (get_by_severity r MEDIUM));
     j_low := Z.of_nat (length (get_by_severity r LOW));
     j_findings := finding_json <$> findings r |}.

(** What a [print] writes: a line of text, the JSON document, or the
    console rendering of a result. *)
Inductive Output :=
| Line (s : string)
| Json (j : ScanJson)
| Console (r : ScanResult).

(** [print_results] *)
Definition print_results (r : ScanResult) (json_output : bool) : Output :=
  if json_output then Json (scan_json r) else Console r.

(** The effects of a run, in order. *)
Inductive Event :=
| Printed (o : Output)
| Scanned (root : FsNode) (checks : option (list string)).

Record Run := { events : list Event; exit_code : Z }.

(** The parsed command line.  [argparse] restricts [--severity] to the
    four names, which [Severity[args.severity.upper()]] maps to the
    members; [check] is [None] unless [--check] was given. *)
Record Args := {
  path : string;
  check : option (list string);
  full : bool;
  json : bool;
  min_severity : option Severity;
  fail_on_findings : bool;
}.

(** The values [argparse] accepts for [--check]. *)
Definition CHECK_CHOICES : list string :=
  ["secrets"; "injection"; "auth"; "crypto"; "cloud"; "data"; "xss"].

(** The comprehension that filters [result.findings] by severity. *)
Definition filter_severity (min : Severity) (fs : list Finding) : list Finding :=
  filter (λ f, (value min ≤ value (severity f))%Z) fs.

(** [main]; [fs p] is what lies at path [p], if anything. *)
Definition main (fs : string → option FsNode) (args : Args) : Run :=
  match fs (path args) with
  | None =>
      {| events := [Printed (Line ("Error: Path '" +:+ path args +:+ "' does not exist"))];
         exit_code := 1 |}
  | Some root =>
      let checks := if full args then None else check args in
      let result := scan root checks in
      let result :=
        match min_severity args with
        | Some min => {| findings := filter_severity min (findings result);
                         files_scanned := files_scanned result |}
        | None => result
        end in
      {| events := [Scanned root checks; Printed (print_results result (json args))];
         exit_code :=
           if fail_on_findings args && bool_decide (findings result ≠ [])
           then 1 else 0 |}
  end.

End Engine.

End Scanner.

(** ** check_dependencies.py *)

Module Deps.

Definition DQ : string := Scanner.DQ.

(** A [dict] with string keys, in insertion order. *)
Abbreviation dict V := (list (string * V)).

(** [d[key]], with the empty value standing for a missing key (the
    keys used below are all present). *)
Fixpoint item {V} (dflt : V) (d : dict V) (key : string) : V :=
  match d with
  | [] => dflt
  | (k, v) :: d' => if String.eqb k key then v else item dflt d' key
  end.

(** [key in d] *)
Definition has_key {V} (d : dict V) (key : string) : bool :=
  str_in key (fst <$> d).

(** Known hallucinated packages, a set of names per ecosystem. *)
Definition HALLUCINATED_PACKAGES : dict (list string) :=
  [ ("python",
      ["huggingface-cli"; "flask-security-utils"; "django-rest-utils";
       "pytorch-utils"; "tensorflow-utils"; "numpy-tools"; "pandas-utils";
       "scikit-utils"; "aws-sdk"; "google-cloud-utils"; "openai-utils";
       "langchain-utils"]);
    ("npm",
      ["react-utils"; "vue-utils"; "next-utils"; "express-utils"; "node-utils";
       "typescript-utils"; "mongodb-utils"; "postgres-utils"; "aws-sdk-utils";
       "stripe-utils"]) ].

(** Packages with known vulnerabilities: per ecosystem, per name, the
    advisories by version-range label. *)
Definition VULNERABLE_PACKAGES : dict (dict (dict string)) :=
  [ ("python",
      [ ("pyyaml", [("< 5.4", "CVE-2020-14343 - Arbitrary code execution")]);
        ("urllib3", [("< 1.26.5", "CVE-2021-33503 - ReDoS")]);
        ("requests", [("< 2.31.0", "CVE-2023-32681 - Header injection")]);
        ("cryptography", [("< 41.0.0", "Multiple CVEs")]);
        ("pillow", [("< 10.0.1", "CVE-2023-44271 - DoS")]);
        ("django", [("< 4.2.4", "Multiple security fixes")]);
        ("flask", [("< 2.3.2", "Security updates")]);
        ("jinja2", [("< 3.1.2", "XSS vulnerability")]);
        ("werkzeug", [("< 2.3.7", "Security updates")]);
        ("numpy", [("< 1.22.0", "Buffer overflow")]) ]);
    ("npm",
      [ ("lodash", [("< 4.17.21", "CVE-2021-23337 - Command injection")]);
        ("axios", [("< 1.6.0", "SSRF vulnerability")]);
        ("express", [("< 4.18.2", "Multiple security fixes")]);
        ("jsonwebtoken", [("< 9.0.0", "Multiple CVEs")]);
        ("mongoose", [("< 6.10.0", "Prototype pollution")]);
        ("sequelize", [("< 6.29.0", "SQL injection")]);
        ("minimist", [("< 1.2.6", "Prototype pollution")]);
        ("node-fetch", [("< 3.3.0", "Security updates")]);
        ("got", [("< 11.8.5", "Security updates")]);
        ("ws", [("< 8.11.0", "ReDoS")]) ]) ].

(** [@dataclass class DependencyFinding]; [version] is [None] when the
    manifest gives none. *)
Record DependencyFinding := {
  package : string;
  version : option string;
  issue_type : string;
  severity : string;
  description : string;
  file_path : string;
  remediation : string;
}.

(** The state [self.findings] of a [DependencyChecker]. *)
Abbreviation Findings := (list DependencyFinding).

Definition hallucinated_finding (pkg : string) (ver : option string)
    (file remedy : string) : DependencyFinding :=
  {| package := pkg;
     version := ver;
     issue_type := "hallucinated";
     severity := "CRITICAL";
     description :=
       "Package " +:+ DQ +:+ pkg +:+ DQ
       +:+ " is commonly hallucinated by AI and may not exist";
     file_path := file;
     remediation := remedy |}.

Definition vulnerable_finding (pkg : string) (ver : option string)
    (file remedy : string) (advisory : string * string) : DependencyFinding :=
  {| package := pkg;
     version := ver;
     issue_type := "vulnerable";
     severity := "HIGH";
     description := pkg +:+ " " +:+ advisory.1 +:+ ": " +:+ advisory.2;
     file_path := file;
     remediation := remedy |}.

Definition suspicious_finding (pkg v file : string) : DependencyFinding :=
  {| package := pkg;
     version := Some v;
     issue_type := "suspicious";
     severity := "MEDIUM";
     description :=
       "Package " +:+ DQ +:+ pkg +:+ DQ
       +:+ " uses unpinned version " +:+ DQ +:+ v +:+ DQ;
     file_path := file;
     remediation := "Pin to specific version: npm install pkg@x.y.z --save-exact" |}.

(** [DependencyChecker._check_python_package] *)
Definition _check_python_package (pkg : string) (ver : option string)
    (file : string) (st : Findings) : Findings :=
  let pkg_lower := lower pkg in
  let st :=
    if str_in pkg_lower (item [] HALLUCINATED_PACKAGES "python")
    then st ++ [hallucinated_finding pkg ver file
                  "Verify package exists on PyPI: pip search or visit pypi.org"]
    else st in
  if has_key (item [] VULNERABLE_PACKAGES "python") pkg_lower
  then foldl (λ st adv,
                st ++ [vulnerable_finding pkg ver file
                         ("Update " +:+ pkg +:+ " to latest version") adv])
             st (item [] (item [] VULNERABLE_PACKAGES "python") pkg_lower)
  else st.

(** [DependencyChecker._check_npm_package]; a JSON [null] version is
    [None]. *)
Definition _check_npm_package (pkg : string) (ver : option string)
    (file : string) (st : Findings) : Findings :=
  let pkg_lower := lower pkg in
  let st :=
    if str_in pkg_lower (item [] HALLUCINATED_PACKAGES "npm")
    then st ++ [hallucinated_finding pkg ver file
                  "Verify package exists on npm: npm view or visit npmjs.com"]
    else st in
  let st :=
    if has_key (item [] VULNERABLE_PACKAGES "npm") pkg_lower
    then foldl (λ st adv,
                  st ++ [vulnerable_finding pkg ver file
                           ("Run: npm update " +:+ pkg) adv])
               st (item [] (item [] VULNERABLE_PACKAGES "npm") pkg_lower)
    else st in
  match ver with
  | Some v =>
      if str_in v ["*"; "latest"; EmptyString]
      then st ++ [suspicious_finding pkg v file]
      else st
  | None => st
  end.

(** The value a [package.json] holds under a dependency key: an object
    that maps package names to versions, or any other JSON value
    ([null], a string, a list, a number). *)
Inductive DepTable :=
| Object (deps : dict (option string))
| NotObject.

(** A parsed [package.json] whose top level is an object: what it
    holds under the two dependency keys, when they are present. *)
Record PackageJson := {
  dependencies : option DepTable;
  devDependencies : option DepTable;
}.

(** What the checker finds below a root: the findings the two audit
    subprocesses contribute, and the manifests by relative path, each
    parsed ([_parse_requirements_txt], [_parse_pyproject], [json.loads])
    or skipped ([None]) because reading or parsing raised, or because
    the top level of a [package.json] is not an object and the lookup
    of a dependency key in it finds nothing or raises. *)
Record Manifests := {
  pip_audit : Findings;
  npm_audit : Findings;
  requirements : list (string * option (dict (option string)));
  package_jsons : list (string * option PackageJson);
}.

(** [DependencyChecker._check_requirements_files] *)
Definition _check_requirements_files (m : Manifests) (st : Findings) : Findings :=
  foldl (λ st '(file, parsed),
           match parsed with
           | Some packages =>
               foldl (λ st '(pkg, ver), _check_python_package pkg ver file st)
                     st packages
           | None => st
           end)
        st (requirements m).

(** The loop of [_check_package_json] over the dependency keys of one
    manifest.  A key that is absent is passed over.  A value that is
    not an object has no [items]: the call raises, the [except] of the
    manifest swallows it, and the keys that remain are not looked at;
    the findings appended so far stay. *)
Fixpoint check_tables (file : string) (tables : list (option DepTable))
    (st : Findings) : Findings :=
  match tables with
  | [] => st
  | None :: rest => check_tables file rest st
  | Some (Object deps) :: rest =>
      check_tables file rest
        (foldl (λ st '(pkg, ver), _check_npm_package pkg ver file st) st deps)
  | Some NotObject :: _ => st
  end.

(** [DependencyChecker._check_package_json] *)
Definition _check_package_json (m : Manifests) (st : Findings) : Findings :=
  foldl (λ st '(file, parsed),
           match parsed with
           | Some content =>
               check_tables file [dependencies content; devDependencies content] st
           | None => st
           end)
        st (package_jsons m).

(** [DependencyChecker._check_python_deps] and [_check_npm_deps]: the
    findings of the audit tools, none when a tool is missing or fails. *)
Definition _check_python_deps (m : Manifests) (st : Findings) : Findings :=
  st ++ pip_audit m.

Definition _check_npm_deps (m : Manifests) (st : Findings) : Findings :=
  st ++ npm_audit m.

(** [DependencyChecker.check] *)
Definition check (m : Manifests) : Findings :=
  let st := _check_python_deps m [] in
  let st := _check_npm_deps m st in
  let st := _check_requirements_files m st in
  let st := _check_package_json m st in
  st.

(** One entry of ['findings'] in the JSON output. *)
Record DepFindingJson := {
  j_package : string;
  j_version : option string;
  j_type : string;
  j_severity : string;
  j_description : string;
  j_file : string;
  j_remediation : string;
}.

(** The JSON document of [print_results(findings, json_output=True)]. *)
Record DepJson := {
  j_total_findings : Z;
  j_findings : list DepFindingJson;
}.

Definition finding_json (f : DependencyFinding) : DepFindingJson :=
  {| j_package := package f;
     j_version := version f;
     j_type := issue_type f;
     j_severity := severity f;
     j_description := description f;
     j_file := file_path f;
     j_remediation := remediation f |}.

Definition deps_json (fs : Findings) : DepJson :=
  {| j_total_findings := Z.of_nat (length fs);
     j_findings := finding_json <$> fs |}.

Inductive Output :=
| Line (s : string)
| Json (j : DepJson)
| Console (fs : Findings).

(** [print_results] *)
Definition print_results (fs : Findings) (json_output : bool) : Output :=
  if json_output then Json (deps_json fs) else Console fs.

Inductive Event :=
| Printed (o : Output)
| Checked (m : Manifests).

Record Run := { events : list Event; exit_code : Z }.

Record Args := {
  path : string;
  json : bool;
  fail_on_findings : bool;
}.

(** [main]; [world p] is what the checker would find at path [p], if
    the path exists. *)
Definition main (world : string → option Manifests) (args : Args) : Run :=
  match world (path args) with
  | None =>
      {| events := [Printed (Line ("Error: Path '" +:+ path args +:+ "' does not exist"))];
         exit_code := 1 |}
  | Some m =>
      let findings := check m in
      {| events := [Checked m; Printed (print_results findings (json args))];
         exit_code :=
           if fail_on_findings args && bool_decide (findings ≠ []) then 1 else 0 |}
  end.

End Deps.

(** ** generate_report.py *)

Module Report.

(** The value stored under one key of [results]: [None], a dict that
    only carries ['error'], or the JSON document of the sub-check. *)
Inductive SubResult (A : Type) :=
| Absent
| Errored (msg : string)
| Value (a : A).

Arguments Absent {A}.
Arguments Errored {A} msg.
Arguments Value {A} a.

(** The JSON of [detect_project.py], consumed as it comes. *)
Record ProjectInfo := {
  project_type : string;
  frameworks : list string;
  languages : list string;
  databases : list string;
  cloud_services : list string;
  ai_tool_indicators : list string;
  recommended_checks : list string;
}.

(** The [results] dict of [run_all_checks]. *)
Record Results := {
  scan_date : string;
  project_path : string;
  project_info : SubResult ProjectInfo;
  security_findings : SubResult Scanner.ScanJson;
  dependency_findings : SubResult Deps.DepJson;
}.

(** [d.get(key, dflt)] on such a value; on [None] the attribute lookup
    raises ([AttributeError], here [None]). *)
Definition get {A V} (d : SubResult A) (field : A → V) (dflt : V) : option V :=
  match d with
  | Absent => None
  | Errored _ => Some dflt
  | Value a => Some (field a)
  end.

(** The deployment-gate verdict: which of the four headline lines the
    executive summary carries. *)
Inductive Verdict := BLOCKED | ACTION_REQUIRED | REVIEW | PASSED.

#[global] Instance Verdict_eq_dec : EqDecision Verdict.
Proof. solve_decision. Defined.

(** The numbers and the verdict of the executive summary. *)
Record Summary := {
  verdict : Verdict;
  critical : Z;
  high : Z;
  medium : Z;
  low : Z;
  dep_total : Z;
}.

(** The executive summary of [generate_markdown_report]: the counts
    read from [results] and the branch taken on them. *)
Definition executive_summary (results : Results) : option Summary :=
  let sec := security_findings results in
  let dep := dependency_findings results in
  critical ← get sec Scanner.j_critical 0%Z;
  high ← get sec Scanner.j_high 0%Z;
  medium ← get sec Scanner.j_medium 0%Z;
  low ← get sec Scanner.j_low 0%Z;
  dep_total ← get dep Deps.j_total_findings 0%Z;
  let verdict :=
    if (0 <? critical)%Z then BLOCKED
    else if (0 <? high)%Z then ACTION_REQUIRED
    else if (0 <? medium)%Z then REVIEW
    else PASSED in
  Some {| verdict := verdict; critical := critical; high := high;
          medium := medium; low := low; dep_total := dep_total |}.

(** The headline appended for a summary (without its leading emoji). *)
Definition headline (s : Summary) : string :=
  match verdict s with
  | BLOCKED =>
      "**DEPLOYMENT BLOCKED:** " +:+ pretty (critical s)
      +:+ " critical vulnerabilities found"
  | ACTION_REQUIRED =>
      "**ACTION REQUIRED:** " +:+ pretty (high s)
      +:+ " high-severity issues need attention"
  | REVIEW =>
      "**REVIEW NEEDED:** " +:+ pretty (medium s)
      +:+ " medium-severity issues found"
  | PASSED => "**PASSED:** No critical or high-severity issues found"
  end.

(** The severities the dependency section has an icon for; any other
    raises [KeyError]. *)
Definition DEP_ICONS : list string := ["CRITICAL"; "HIGH"; "MEDIUM"].

(** The report of [generate_markdown_report], before it is laid out as
    lines: the summary, then the sections that are present. *)
Record Markdown := {
  summary : Summary;
  project_section : option ProjectInfo;
  security_section : list (string * list Scanner.FindingJson);
  dependency_section : list Deps.DepFindingJson;
  fix_critical_first : bool;
  address_high_next : bool;
}.

(** [generate_markdown_report]; [None] when it raises. *)
Definition generate_markdown_report (results : Results) : option Markdown :=
  s ← executive_summary results;
  let proj :=
    match project_info results with
    | Value p => Some p
    | _ => None
    end in
  let sec_findings :=
    match security_findings results with
    | Value j => Scanner.j_findings j
    | _ => []
    end in
  let by_severity :=
    omap (λ sev,
            let fs := filter (λ f, Scanner.j_severity f = sev) sec_findings in
            if bool_decide (fs = []) then None else Some (sev, fs))
         ["CRITICAL"; "HIGH"; "MEDIUM"; "LOW"] in
  let dep_findings :=
    match dependency_findings results with
    | Value j => Deps.j_findings j
    | _ => []
    end in
  if forallb (λ f, str_in (Deps.j_severity f) DEP_ICONS) dep_findings then
    Some {| summary := s;
            project_section := proj;
            security_section := by_severity;
            dependency_section := dep_findings;
            fix_critical_first := (0 <? critical s)%Z;
            address_high_next := (0 <? high s)%Z |}
  else None.

(** One rule and one result of the SARIF document. *)
Record SarifRule := { sr_id : string; sr_name : string; sr_level : string }.
Record SarifResult := {
  res_rule : string; res_level : string; res_message : string;
  res_uri : string; res_line : Z;
}.

Definition sarif_level (sev : string) : string :=
  if str_in sev ["CRITICAL"; "HIGH"] then "error" else "warning".

(** [generate_sarif_report]: a rule the first time its id is seen, a
    result for every finding. *)
Definition generate_sarif_report (results : Results)
  : option (list SarifRule * list SarifResult) :=
  fs ← get (security_findings results) Scanner.j_findings [];
  let step (acc : list string * list SarifRule * list SarifResult)
           (f : Scanner.FindingJson) :=
    let '(seen, rules, out) := acc in
    let id := Scanner.j_rule_id f in
    let lvl := sarif_level (Scanner.j_severity f) in
    let res := {| res_rule := id; res_level := lvl;
                  res_message := Scanner.j_description f;
                  res_uri := Scanner.j_file f; res_line := Scanner.j_line f |} in
    if str_in id seen then (seen, rules, out ++ [res])
    else (seen ++ [id],
          rules ++ [{| sr_id := id; sr_name := Scanner.j_description f;
                       sr_level := lvl |}],
          out ++ [res]) in
  let '(_, rules, out) := foldl step ([], [], []) fs in
  Some (rules, out).

(** How a script started with [subprocess.run] on a path ended.
    - [Completed]: its [main] ran with the path as its positional
      argument and finished within the timeout;
    - [Failed]: it returned a non-zero code without running its [main]
      to the end: [argparse] rejected the command line (a path that
      starts with ['-'] is read as an option), or the script crashed;
    - [Raised]: [subprocess.run] raised (the timeout expired, there is
      no [python3]), or the script returned 0 and its output is no
      JSON. *)
Inductive Launch :=
| Completed
| Failed
| Raised (msg : string).

(** The world a run sees: the file tree at a path, what the dependency
    checker finds there, what project detection answers, how the
    scanner and the dependency checker end when started on a path,
    whether the report can be written to its destination (the file
    given with [--output], or standard output when there is none: a
    directory may be missing or read-only, an encoding may reject the
    characters of the report), the clock. *)
Record World := {
  fs : string → option Scanner.FsNode;
  manifests : string → Deps.Manifests;
  detect : string → SubResult ProjectInfo;
  scan_launch : string → Launch;
  deps_launch : string → Launch;
  writable : option string → bool;
  now : string;
}.

Definition deps_world (w : World) (p : string) : option Deps.Manifests :=
  match fs w p with
  | Some _ => Some (manifests w p)
  | None => None
  end.

Inductive Format := markdown | json | sarif.

Inductive Document :=
| MarkdownDoc (m : Markdown)
| SarifDoc (rules : list SarifRule) (out : list SarifResult)
| JsonDoc (r : Results).

(** The effects of a run: a printed line, the three sub-checks being
    run on a path, the report printed or written to a file. *)
Inductive Event :=
| Printed (s : string)
| RanChecks (p : string)
| Emitted (doc : Document) (dest : option string).

Record Run := { events : list Event; exit_code : Z }.

Record Args := {
  path : string;
  format : Format;
  output : option string;
}.

Section Engine.

Variable finditer : string → text → list Regex.Match.

(** What [json.loads(result.stdout)] gives for a scanner run that
    returned 0: stdout is the one JSON document it printed; anything
    else does not parse, and the exception leaves an ['error'] dict. *)
Definition scanner_stdout (r : Scanner.Run) : SubResult Scanner.ScanJson :=
  match omap (λ e, match e with Scanner.Printed o => Some o | _ => None end)
             (Scanner.events r) with
  | [Scanner.Json j] => Value j
  | _ => Errored "JSONDecodeError"
  end.

Definition deps_stdout (r : Deps.Run) : SubResult Deps.DepJson :=
  match omap (λ e, match e with Deps.Printed o => Some o | _ => None end)
             (Deps.events r) with
  | [Deps.Json j] => Value j
  | _ => Errored "JSONDecodeError"
  end.

(** What [run_all_checks] stores for one script: the parsed output for
    return code 0, [None] left in place for any other code, an
    ['error'] dict when the [try] block raised. *)
Definition stored {A} (launch : Launch) (code : Z) (stdout : SubResult A)
  : SubResult A :=
  match launch with
  | Completed => if (code =? 0)%Z then stdout else Absent
  | Failed => Absent
  | Raised msg => Errored msg
  end.

(** [run_all_checks]: the three scripts run as subprocesses on the
    path. *)
Definition run_all_checks (w : World) (project_path : string) : Results :=
  let scan_run :=
    Scanner.main finditer (fs w)
      {| Scanner.path := project_path; Scanner.check := None;
         Scanner.full := true; Scanner.json := true;
         Scanner.min_severity := None; Scanner.fail_on_findings := false |} in
  let deps_run :=
    Deps.main (deps_world w)
      {| Deps.path := project_path; Deps.json := true;
         Deps.fail_on_findings := false |} in
  {| scan_date := now w;
     project_path := project_path;
     project_info := detect w project_path;
     security_findings :=
       stored (scan_launch w project_path)
         (Scanner.exit_code scan_run) (scanner_stdout scan_run);
     dependency_findings :=
       stored (deps_launch w project_path)
         (Deps.exit_code deps_run) (deps_stdout deps_run) |}.

(** [main]: a missing path is reported and the function returns; an
    exception out of report generation, or out of writing the report
    to the file given with [--output] or to standard output, ends the
    process with code 1. *)
Definition main (w : World) (args : Args) : Run :=
  match fs w (path args) with
  | None =>
      {| events := [Printed ("Error: Path '" +:+ path args +:+ "' does not exist")];
         exit_code := 0 |}
  | Some _ =>
      let results := run_all_checks w (path args) in
      let started := [Printed "Running security analysis..."; RanChecks (path args)] in
      let doc :=
        match format args with
        | markdown => MarkdownDoc <$> generate_markdown_report results
        | sarif => (λ '(rules, out), SarifDoc rules out) <$> generate_sarif_report results
        | json => Some (JsonDoc results)
        end in
      match doc with
      | None => {| events := started; exit_code := 1 |}
      | Some d =>
          if writable w (output args)
          then {| events :=
                    started ++ [Emitted d (output args)]
                    ++ match output args with
                       | Some file => [Printed ("Report saved to: " +:+ file)]
                       | None => []
                       end;
                  exit_code := 0 |}
          else {| events := started; exit_code := 1 |}
      end
  end.

End Engine.

End Report.

(** ** Views of a scan used to state its properties *)

Module View.

Import Regex Scanner.

Section Engine.

Variable finditer : string → text → list Match.

(** Every match of every rule of a table in a text, in the order the
    scanner visits them. *)
Definition matches_of (patterns : list Rule) (content : text)
  : list (Rule * Match) :=
  flat_map (λ rule, (λ m, (rule, m)) <$> finditer rule.1.1 content) patterns.

(** The findings one table contributes for a file. *)
Definition found (file : RelPath) (content : text) (patterns : list Rule)
    (cat : string) (sev : Severity) (remedy : string) : list Finding :=
  (λ '(rule, m),
     finding_of file (split_nl content) content rule cat sev remedy m)
  <$> matches_of patterns content.

(** The findings of one injection sub-category for a file. *)
Definition injection_found (file : RelPath) (content : text) (sub : string)
    (sev : Severity) : list Finding :=
  found file content (Deps.item [] INJECTION_PATTERNS sub)
        ("Injection (" +:+ sub +:+ ")") sev "Use parameterized queries/safe APIs".

(** The findings of the whole injection block for a file. *)
Definition injection_block (file : RelPath) (content : text) : list Finding :=
  injection_found file content "sql" CRITICAL
  ++ injection_found file content "command" CRITICAL
  ++ injection_found file content "xss" HIGH
  ++ injection_found file content "nosql" HIGH.

(** The findings a text contributes under a category selection. *)
Definition text_findings (file : RelPath) (content : text)
    (checks : option (list string)) : list Finding :=
  (if wants "secrets" checks
   then found file content SECRETS_PATTERNS "Secrets" CRITICAL
          "Move secrets to environment variables or a secrets manager"
   else [])
  ++ (if wants "injection" checks then injection_block file content else [])
  ++ (if wants "auth" checks
      then found file content AUTH_PATTERNS "Authentication" HIGH
             "See references/auth.md for secure patterns"
      else [])
  ++ (if wants "crypto" checks
      then found file content CRYPTO_PATTERNS "Cryptography" HIGH
             "Use modern algorithms (AES-256, SHA-256, bcrypt)"
      else [])
  ++ (if wants "cloud" checks
      then found file content CLOUD_PATTERNS "Cloud/Infrastructure" HIGH
             "See references/infrastructure.md"
      else [])
  ++ (if wants "data" checks
      then found file content DATA_PATTERNS "Data Handling" HIGH
             "Use safe deserialization methods"
      else []).

(** Every match of every rule of every injection sub-category in a
    text, with the name of its sub-category, in table order. *)
Definition injection_matches (content : text) : list (string * Rule * Match) :=
  flat_map (λ '(sub, rules),
              flat_map (λ rule : Rule, (λ m, (sub, rule, m)) <$> finditer rule.1.1 content)
                       rules)
           INJECTION_PATTERNS.

(** The findings a file contributes: none when it cannot be read. *)
Definition file_findings (checks : option (list string))
    (f : RelPath * FileData) : list Finding :=
  match read_text f.2 with
  | Some content => text_findings f.1 content checks
  | None => []
  end.

End Engine.

(** Whether a severity is at or above a minimum, in the order
    CRITICAL, HIGH, MEDIUM, LOW of the specification. *)
Definition at_or_above (min s : Severity) : Prop :=
  match min with
  | CRITICAL => s = CRITICAL
  | HIGH => s = CRITICAL ∨ s = HIGH
  | MEDIUM => s = CRITICAL ∨ s = HIGH ∨ s = MEDIUM
  | LOW => True
  end.

#[global] Instance at_or_above_dec (min s : Severity) : Decision (at_or_above min s).
Proof. destruct min; simpl; apply _. Defined.

(** The number of newline characters of a text before an offset: the
    offsets below [n] at which the text holds a newline. *)
Definition newlines_before (n : nat) (s : text) : nat :=
  length (filter (λ i, s !! i = Some NL) (seq 0 n)).

(** The rule ids of the injection sub-categories of the given names. *)
Definition injection_ids (subs : list string) : list string :=
  flat_map (λ sub, (λ rule : Rule, rule.1.2) <$> Deps.item [] INJECTION_PATTERNS sub)
           subs.

(** A byte string that strict UTF-8 decoding rejects. *)
Definition undecodable (data : list byte) : Prop :=
  Codec.utf8_decode Codec.Strict data = None.

(** Which category labels a file's findings can carry, each with its
    one severity. *)
Definition LABELS : list (string * Severity) :=
  [ ("Secrets", CRITICAL);
    ("Injection (sql)", CRITICAL); ("Injection (command)", CRITICAL);
    ("Injection (xss)", HIGH); ("Injection (nosql)", HIGH);
    ("Authentication", HIGH); ("Cryptography", HIGH);
    ("Cloud/Infrastructure", HIGH); ("Data Handling", HIGH) ].

(** The two ecosystems of the dependency checker, with the key of
    their tables and their package check. *)
Inductive Ecosystem := Python | Npm.

Definition eco_key (e : Ecosystem) : string :=
  match e with Python => "python" | Npm => "npm" end.

Definition denylist (e : Ecosystem) : list string :=
  Deps.item [] Deps.HALLUCINATED_PACKAGES (eco_key e).

Definition check_package (e : Ecosystem)
  : string → option string → string → Deps.Findings → Deps.Findings :=
  match e with
  | Python => Deps._check_python_package
  | Npm => Deps._check_npm_package
  end.

(** Whether a collection of scanner findings holds one of a severity. *)
Definition any_of (sev : Severity) (fnd : list Finding) : bool :=
  bool_decide (Exists (λ f, severity f = sev) fnd).


(** The verdict by the highest severity among the scanner's findings. *)
Definition scan_verdict (fnd : list Finding) : Report.Verdict :=
  if any_of CRITICAL fnd then Report.BLOCKED
  else if any_of HIGH fnd then Report.ACTION_REQUIRED
  else if any_of MEDIUM fnd then Report.REVIEW
  else Report.PASSED.


(** The [results] dict for given outputs of the two checkers. *)
Definition results_of (date p : string) (proj : Report.SubResult Report.ProjectInfo)
    (r : ScanResult) (deps : Deps.Findings) : Report.Results :=
  {| Report.scan_date := date;
     Report.project_path := p;
     Report.project_info := proj;
     Report.security_findings := Report.Value (scan_json r);
     Report.dependency_findings := Report.Value (Deps.deps_json deps) |}.

(** The line all three scripts print for a path that is not there. *)
Definition missing_path_error (p : string) : string :=
  "Error: Path '" +:+ p +:+ "' does not exist".

(** Every rule of every table, in table order. *)
Definition ALL_RULES : list Rule :=
  SECRETS_PATTERNS ++ flat_map snd INJECTION_PATTERNS ++ AUTH_PATTERNS
  ++ CRYPTO_PATTERNS ++ CLOUD_PATTERNS ++ DATA_PATTERNS.

(** The six names the per-file dispatch looks for. *)
Definition DISPATCHED : list string :=
  ["secrets"; "injection"; "auth"; "crypto"; "cloud"; "data"].

End View.

(** ** Sample inputs: small trees and manifests the examples run on *)

Module Sample.

Import Scanner.

Definition source (s : string) : FileData := Bytes (list_byte_of_string s).

(** Four lines: an import, a hard-coded password, a shell call, an
    [innerHTML] assignment. *)
Definition app_py : string :=
  "import os
password = " +:+ DQ +:+ "changeme" +:+ DQ +:+ "
   os.system(cmd)
el.innerHTML = x".

(** A project with one source file, a file that is no candidate, and a
    pruned directory. *)
Definition project : FsNode :=
  FsDir "proj"
    [ FsFile "app.py" (source app_py);
      FsFile "README.md" (source "os.system(");
      FsDir "node_modules" [FsFile "x.js" (source "os.system(")] ].

(** A directory whose only source file starts with a byte that is not
    UTF-8. *)
Definition mangled_bytes : list byte :=
  xff :: list_byte_of_string "el.innerHTML = x".

Definition mangled : FsNode := FsDir "proj" [FsFile "widget.js" (Bytes mangled_bytes)].

(** A directory whose only source file cannot be opened. *)
Definition locked : FsNode := FsDir "proj" [FsFile "widget.js" Unreadable].


(** A finding of a given severity, and one finding of each severity in
    no particular order. *)
Definition of_severity (sev : Severity) : Finding :=
  {| rule_id := "RULE-" +:+ name sev;
     severity := sev;
     category := "Sample";
     description := "sample finding";
     file_path := "app.py";
     line_number := 1;
     code_snippet := [];
     remediation := "none" |}.

Definition one_of_each : list Finding :=
  of_severity <$> [MEDIUM; CRITICAL; LOW; HIGH].

(** The file system with [root] at path ["proj"] and nothing else. *)
Definition fs_with (root : FsNode) (p : string) : option FsNode :=
  if String.eqb p "proj" then Some root else None.

Definition no_manifests : Deps.Manifests :=
  {| Deps.pip_audit := []; Deps.npm_audit := [];
     Deps.requirements := []; Deps.package_jsons := [] |}.

(** A [package.json] declaring one package at one version. *)
Definition package_json (pkg : string) (ver : option string) : Deps.Manifests :=
  {| Deps.pip_audit := []; Deps.npm_audit := [];
     Deps.requirements := [];
     Deps.package_jsons :=
       [ ("package.json",
          Some {| Deps.dependencies := Some (Deps.Object [(pkg, ver)]);
                  Deps.devDependencies := None |}) ] |}.

(** The world with [root] at ["proj"] and manifests [m] found there;
    both scripts run to the end and the report can be written
    anywhere. *)
Definition world (root : FsNode) (m : Deps.Manifests) : Report.World :=
  {| Report.fs := fs_with root;
     Report.manifests := λ _, m;
     Report.detect := λ _, Report.Absent;
     Report.scan_launch := λ _, Report.Completed;
     Report.deps_launch := λ _, Report.Completed;
     Report.writable := λ _, true;
     Report.now := "2024-01-01T00:00:00" |}.


(** The sample project, and a [package.json] that declares axios at
    any version. *)
Definition project_world : Report.World :=
  world project (package_json "axios" (Some "*")).

Definition report_args (p : string) : Report.Args :=
  {| Report.path := p; Report.format := Report.markdown; Report.output := None |}.

Definition deps_args (p : string) : Deps.Args :=
  {| Deps.path := p; Deps.json := true; Deps.fail_on_findings := false |}.

Definition scan_args (p : string) (checks : option (list string))
    (min : option Severity) (fail : bool) : Args :=
  {| path := p; check := checks; full := false; json := true;
     min_severity := min; fail_on_findings := fail |}.

(** All checks, findings at HIGH or above, failing on findings. *)
Definition strict_args : Args := scan_args "proj" None (Some HIGH) true.

(** The same without [--fail-on-findings]. *)
Definition lenient_args : Args := scan_args "proj" None (Some HIGH) false.

(** A path that is not there, and no flag. *)
Definition missing_args : Args := scan_args "nowhere" None None false.

End Sample.

(** ** detect_project.py: the table lookups and the recommendations *)

Module Detect.

(** [p] is a prefix of [s]. *)
Fixpoint starts {A} `{EqDecision A} (p s : list A) : bool :=
  match p, s with
  | [], _ => true
  | a :: p', b :: s' => bool_decide (a = b) && starts p' s'
  | _ :: _, [] => false
  end.

(** [needle in hay] for sequences: [needle] occurs as a contiguous
    piece of [hay]. *)
Fixpoint infix {A} `{EqDecision A} (needle hay : list A) : bool :=
  starts needle hay
  || match hay with
     | _ :: hay' => infix needle hay'
     | [] => false
     end.

(** [needle in hay] for two strings. *)
Definition contains (needle hay : string) : bool :=
  infix (list_ascii_of_string needle) (list_ascii_of_string hay).

(** [indicator.lower() in content.lower()] for a source-level
    indicator and a text read from disk. *)
Definition in_content (indicator : string) (content : text) : bool :=
  infix (txt (lower indicator)) (lower_cp <$> content).

Definition FRAMEWORK_INDICATORS : Deps.dict (list string) :=
  [ ("django", ["settings.py"; "urls.py"; "wsgi.py"; "asgi.py"]);
    ("flask", ["app.py"; "flask"]);
    ("fastapi", ["fastapi"; "uvicorn"]);
    ("streamlit", ["streamlit"]);
    ("react", ["react"; "jsx"; "tsx"; "create-react-app"]);
    ("next.js", ["next.config"; "_app.js"; "_app.tsx"; "pages/"; "app/"]);
    ("vue", ["vue"; ".vue"; "nuxt"]);
    ("express", ["express"; "app.listen"]);
    ("nest.js", ["@nestjs"]);
    ("rails", ["Gemfile"; "config/routes.rb"]);
    ("spring", ["pom.xml"; "application.properties"]) ].

Definition DATABASE_INDICATORS : Deps.dict (list string) :=
  [ ("postgresql", ["psycopg"; "pg"; "postgres"]);
    ("mysql", ["mysql"; "pymysql"]);
    ("mongodb", ["mongoose"; "pymongo"; "mongodb"]);
    ("sqlite", ["sqlite3"; "sqlite"]);
    ("redis", ["redis"; "ioredis"]);
    ("supabase", ["supabase"; "@supabase/supabase-js"]);
    ("firebase", ["firebase"; "firestore"]);
    ("prisma", ["prisma"]) ].

Definition CLOUD_INDICATORS : Deps.dict (list string) :=
  [ ("aws", ["boto3"; "aws-sdk"; "@aws-sdk"]);
    ("gcp", ["google-cloud"; "@google-cloud"]);
    ("azure", ["azure"; "@azure"]);
    ("vercel", ["vercel"; "@vercel"]);
    ("netlify", ["netlify"]);
    ("railway", ["railway"]);
    ("render", ["render"]);
    ("supabase", ["supabase"]);
    ("firebase", ["firebase"]) ].

Definition AI_TOOL_INDICATORS : Deps.dict (list string) :=
  [ ("lovable", [".lovable"; "lovable.json"]);
    ("replit", [".replit"; "replit.nix"]);
    ("cursor", [".cursor"; ".cursorignore"; ".cursorrules"]);
    ("bolt", [".bolt"]);
    ("v0", ["v0.dev"]);
    ("windsurf", [".windsurf"; ".codeium"]) ].

(** The loop the four detectors share: for every entry of the table in
    order, the first indicator that hits appends the key, unless it is
    already there, and ends the inner loop. *)
Definition detect_in (hit : string → bool) (table : Deps.dict (list string))
  : list string :=
  foldl (λ detected '(key, indicators),
           if existsb hit indicators
           then (if str_in key detected then detected else detected ++ [key])
           else detected)
        [] table.

(** [ProjectDetector._detect_frameworks]; [files] holds the names and
    the relative paths of the files (a set: only membership is used). *)
Definition _detect_frameworks (files : list string) (content : text) : list string :=
  let files_lower := lower <$> files in
  detect_in (λ indicator,
               str_in (lower indicator) files_lower || in_content indicator content)
            FRAMEWORK_INDICATORS.

(** [ProjectDetector._detect_databases] *)
Definition _detect_databases (content : text) : list string :=
  detect_in (λ indicator, in_content indicator content) DATABASE_INDICATORS.

(** [ProjectDetector._detect_cloud] *)
Definition _detect_cloud (content : text) : list string :=
  detect_in (λ indicator, in_content indicator content) CLOUD_INDICATORS.

(** [ProjectDetector._detect_ai_tools] *)
Definition _detect_ai_tools (files : list string) : list string :=
  detect_in (λ indicator, existsb (contains indicator) files) AI_TOOL_INDICATORS.

(** Two hexadecimal digits, lower case. *)
Definition hex_digit (n : N) : ascii :=
  ascii_of_N (if (n <? 10)%N then 48 + n else 87 + n).

Definition hex2 (n : N) : string :=
  String (hex_digit (n / 16)) (String (hex_digit (n mod 16)) EmptyString).

(** Whether [repr] keeps a character of the Latin-1 range as it is. *)
Definition printable (n : N) : bool :=
  ((32 <=? n) && (n <? 127) || (161 <=? n) && negb (n =? 173))%N.

(** [repr(s)] for a string of code points below 256: in double quotes
    when it has a single quote and no double one, in single quotes
    otherwise; the quote and the backslash escaped, and what is not
    printable written as an escape. *)
Definition repr_str (s : string) : string :=
  let chars := list_ascii_of_string s in
  let quote : ascii :=
    if bool_decide ("'"%char ∈ chars) && negb (bool_decide ("034"%char ∈ chars))
    then "034"%char else "'"%char in
  let esc (c : ascii) : string :=
    let n := N_of_ascii c in
    if Ascii.eqb c quote || Ascii.eqb c "\"%char then String "\"%char (String c EmptyString)
    else if (n =? 9)%N then "\t"
    else if (n =? 10)%N then "\n"
    else if (n =? 13)%N then "\r"
    else if printable n then String c EmptyString
    else "\x" +:+ hex2 n in
  String quote EmptyString
  +:+ String.concat EmptyString (esc <$> chars)
  +:+ String quote EmptyString.

(** [str(l)] for a list of strings. *)
Definition repr_list (l : list string) : string :=
  "[" +:+ String.concat ", " (repr_str <$> l) +:+ "]".

(** [list(dict.fromkeys(l))]: every element once, at its first
    position. *)
Definition fromkeys (l : list string) : list string :=
  foldl (λ acc x, if str_in x acc then acc else acc ++ [x]) [] l.

Definition WEB_FRAMEWORKS : list string :=
  ["flask"; "django"; "fastapi"; "express"; "next.js"; "react"; "vue"].

(** A list is true when it is not empty. *)
Definition truthy {A} (l : list A) : bool :=
  match l with [] => false | _ :: _ => true end.

(** [ProjectDetector._get_recommendations] *)
Definition _get_recommendations (project_type : string)
    (frameworks databases cloud ai_tools : list string) : list string :=
  let recs := ["secrets"] in
  let recs := if truthy databases then recs ++ ["injection"] else recs in
  let recs :=
    if existsb (λ f, str_in f WEB_FRAMEWORKS) frameworks
    then recs ++ ["xss"; "auth"; "cors"] else recs in
  let recs :=
    if truthy cloud || existsb (λ f, str_in f ["supabase"; "firebase"]) databases
    then recs ++ ["cloud"] else recs in
  let recs :=
    if str_in "django" frameworks || contains "auth" (lower (repr_list databases))
    then recs ++ ["crypto"] else recs in
  let recs :=
    if truthy ai_tools
    then (let recs := recs ++ ["data"] in
          if str_in "lovable" ai_tools then "cloud" :: recs else recs)
    else recs in
  fromkeys recs.

End Detect.

(** ** Further views: the file tree, manifests, report inputs *)

Module Cover.

Import Scanner.

(** [file_at entries p d]: the entries of a directory hold, at the
    relative path [p], a plain file with data [d]. *)
Inductive file_at : list FsNode → RelPath → FileData → Prop :=
| file_here (entries : list FsNode) (f : string) (d : FileData) :
    FsFile f d ∈ entries → file_at entries [f] d
| file_below (entries es : list FsNode) (dn : string) (p : RelPath) (d : FileData) :
    FsDir dn es ∈ entries → file_at es p d → file_at entries (dn :: p) d.

(** What the walk yields below a directory whose path is [prefix]. *)
Definition below (prefix : RelPath) (entries : list FsNode)
  : list (RelPath * FileData) :=
  files_here prefix entries ++ flat_map (walk prefix) entries.

(** The severities a finding of the scanner can carry. *)
Definition SCANNER_SEVERITIES : list Severity := [CRITICAL; HIGH].

(** The advisories catalogued for a lower-cased name in an ecosystem. *)
Definition advisories (e : View.Ecosystem) (lname : string) : list (string * string) :=
  Deps.item [] (Deps.item [] Deps.VULNERABLE_PACKAGES (View.eco_key e)) lname.

(** The remediation texts of the two package checks. *)
Definition hall_remedy (e : View.Ecosystem) : string :=
  match e with
  | View.Python => "Verify package exists on PyPI: pip search or visit pypi.org"
  | View.Npm => "Verify package exists on npm: npm view or visit npmjs.com"
  end.

Definition vuln_remedy (e : View.Ecosystem) (pkg : string) : string :=
  match e with
  | View.Python => "Update " +:+ pkg +:+ " to latest version"
  | View.Npm => "Run: npm update " +:+ pkg
  end.

(** Whether a declared version is one the npm check calls unpinned. *)
Definition unpinned (ver : option string) : bool :=
  match ver with
  | Some v => str_in v ["*"; "latest"; EmptyString]
  | None => false
  end.

(** The findings of the packages of one manifest. *)
Definition manifest_findings (e : View.Ecosystem) (file : string)
    (pkgs : Deps.dict (option string)) : Deps.Findings :=
  flat_map (λ '(pkg, ver), View.check_package e pkg ver file []) pkgs.

(** The findings of all requirements files, in the order found. *)
Definition requirements_findings (m : Deps.Manifests) : Deps.Findings :=
  flat_map (λ '(file, parsed),
              match parsed with
              | Some pkgs => manifest_findings View.Python file pkgs
              | None => []
              end)
           (Deps.requirements m).

(** The entries of a dependency table that are checked: those of an
    object; none when the key is absent or its value is no object. *)
Definition entries (table : option Deps.DepTable) : Deps.dict (option string) :=
  match table with
  | Some (Deps.Object deps) => deps
  | _ => []
  end.

(** The entries of one [package.json] that are checked, in order: its
    dependencies and then its devDependencies; the latter are not
    reached when the value under [dependencies] is no object. *)
Definition checked_entries (content : Deps.PackageJson) : Deps.dict (option string) :=
  match Deps.dependencies content with
  | Some Deps.NotObject => []
  | table => entries table ++ entries (Deps.devDependencies content)
  end.

(** The findings of all [package.json] files, in the order found. *)
Definition package_json_findings (m : Deps.Manifests) : Deps.Findings :=
  flat_map (λ '(file, parsed),
              match parsed with
              | Some content => manifest_findings View.Npm file (checked_entries content)
              | None => []
              end)
           (Deps.package_jsons m).

(** A dependency finding the Markdown report has no icon for. *)
Definition no_icon (f : Deps.DependencyFinding) : Prop :=
  Deps.severity f ∉ Report.DEP_ICONS.

(** The document [main] builds for the format asked for; [None] when
    building it raises. *)
Definition document (finditer : string → text → list Regex.Match)
    (w : Report.World) (args : Report.Args) : option Report.Document :=
  let results := Report.run_all_checks finditer w (Report.path args) in
  match Report.format args with
  | Report.markdown => Report.MarkdownDoc <$> Report.generate_markdown_report results
  | Report.sarif =>
      (λ '(rules, out), Report.SarifDoc rules out)
      <$> Report.generate_sarif_report results
  | Report.json => Some (Report.JsonDoc results)
  end.

(** The Markdown report cannot be built for a path: the scanner or the
    dependency checker returned a non-zero code, or the dependency
    checker ran and an audit tool contributed a finding without
    icon. *)
Definition no_markdown (w : Report.World) (p : string) : Prop :=
  Report.scan_launch w p = Report.Failed
  ∨ Report.deps_launch w p = Report.Failed
  ∨ Report.deps_launch w p = Report.Completed
    ∧ ∃ f, f ∈ Deps.pip_audit (Report.manifests w p)
               ++ Deps.npm_audit (Report.manifests w p)
           ∧ no_icon f.

(** No document can be built for the format asked for: the Markdown
    report cannot, or the SARIF report is asked for and the scanner
    returned a non-zero code. *)
Definition no_document (w : Report.World) (args : Report.Args) : Prop :=
  Report.format args = Report.markdown ∧ no_markdown w (Report.path args)
  ∨ Report.format args = Report.sarif
    ∧ Report.scan_launch w (Report.path args) = Report.Failed.

(** The report cannot be written to its destination. *)
Definition not_written (w : Report.World) (args : Report.Args) : Prop :=
  Report.writable w (Report.output args) = false.

(** The SARIF result of one finding. *)
Definition sarif_result (f : Scanner.FindingJson) : Report.SarifResult :=
  {| Report.res_rule := j_rule_id f;
     Report.res_level := Report.sarif_level (j_severity f);
     Report.res_message := j_description f;
     Report.res_uri := j_file f;
     Report.res_line := j_line f |}.

(** The names a recommendation can be. *)
Definition RECOMMENDABLE : list string :=
  ["secrets"; "injection"; "xss"; "auth"; "cors"; "cloud"; "crypto"; "data"].


(** Every order-preserving selection of a list. *)
Fixpoint sublists {A} (l : list A) : list (list A) :=
  match l with
  | [] => [[]]
  | x :: l' => ((x ::.) <$> sublists l') ++ sublists l'
  end.

End Cover.

(** ** Further sample inputs *)

Module Sample2.

Import Scanner.

(** The finding of the shell call in the sample file. *)
Definition shell_call_finding : Finding :=
  {| rule_id := "INJ-010";
     severity := CRITICAL;
     category := "Injection (command)";
     description := "os.system() is dangerous";
     file_path := "app.py";
     line_number := 3;
     code_snippet := txt "os.system(cmd)";
     remediation := "Use parameterized queries/safe APIs" |}.

(** The command line [args] with another [--severity]. *)
Definition with_severity (args : Args) (min : option Severity) : Args :=
  {| path := path args; check := check args; full := full args;
     json := json args; min_severity := min;
     fail_on_findings := fail_on_findings args |}.

(** A file system whose path ["proj"] is a plain source file. *)
Definition single_file : string → option FsNode :=
  Sample.fs_with (FsFile "app.py" (Sample.source Sample.app_py)).

(** What npm audit contributes for an advisory of low severity. *)
Definition low_audit_finding : Deps.DependencyFinding :=
  {| Deps.package := "minimatch";
     Deps.version := Some "<3.0.5";
     Deps.issue_type := "vulnerable";
     Deps.severity := "LOW";
     Deps.description := "Regular expression denial of service";
     Deps.file_path := "package-lock.json";
     Deps.remediation := "npm audit fix or npm update minimatch" |}.

(** The sample project, with that finding of npm audit and no
    manifest finding. *)
Definition audited_world : Report.World :=
  Sample.world Sample.project
    {| Deps.pip_audit := []; Deps.npm_audit := [low_audit_finding];
       Deps.requirements := []; Deps.package_jsons := [] |}.

Definition report_as (fmt : Report.Format) : Report.Args :=
  {| Report.path := "proj"; Report.format := fmt; Report.output := None |}.

(** The same, written to a file. *)
Definition report_to (fmt : Report.Format) (file : string) : Report.Args :=
  {| Report.path := "proj"; Report.format := fmt; Report.output := Some file |}.

(** The world [w] in which the two scripts end as given and the
    report can be written to standard output only. *)
Definition launched (scan_end deps_end : Report.Launch) (w : Report.World)
  : Report.World :=
  {| Report.fs := Report.fs w;
     Report.manifests := Report.manifests w;
     Report.detect := Report.detect w;
     Report.scan_launch := λ _, scan_end;
     Report.deps_launch := λ _, deps_end;
     Report.writable := λ dest, bool_decide (dest = None);
     Report.now := Report.now w |}.

(** A [package.json] whose [dependencies] is [null] and whose
    [devDependencies] declare axios at any version, and one with the
    two keys the other way round. *)
Definition null_dependencies : Deps.Manifests :=
  {| Deps.pip_audit := []; Deps.npm_audit := [];
     Deps.requirements := [];
     Deps.package_jsons :=
       [ ("package.json",
          Some {| Deps.dependencies := Some Deps.NotObject;
                  Deps.devDependencies := Some (Deps.Object [("axios", Some "*")]) |}) ] |}.

Definition null_dev_dependencies : Deps.Manifests :=
  {| Deps.pip_audit := []; Deps.npm_audit := [];
     Deps.requirements := [];
     Deps.package_jsons :=
       [ ("package.json",
          Some {| Deps.dependencies := Some (Deps.Object [("axios", Some "*")]);
                  Deps.devDependencies := Some Deps.NotObject |}) ] |}.

End Sample2.

(** * Properties *)

Import Regex Scanner View.

(** Membership in a list given by its elements, and the case split on
    such a membership. *)
Ltac in_list := repeat first [apply list_elem_of_here | apply list_elem_of_further].

Ltac list_cases H :=
  repeat (apply elem_of_cons in H; destruct H as [H|H]);
  try (by apply elem_of_nil in H).

(** A goal about closed data, decided by evaluation. *)
Ltac by_evaluation := apply (bool_decide_unpack _); vm_compute; reflexivity.

(** ** Text *)

Lemma split_nl_nonempty (s : text) : split_nl s ≠ [].
Proof.
  destruct s as [|c s]; simpl; [done|].
  destruct (c =? NL)%N; [done|]. by destruct (split_nl s).
Qed.

(** Splitting a text at its newlines and joining the pieces again is
    the identity: [_check_patterns] sees the text [_scan_file] read. *)
Lemma join_split_nl (s : text) : join_nl (split_nl s) = s.
Proof.
  induction s as [|c s IH]; [done|]. simpl.
  destruct (N.eqb_spec c NL) as [->|Hc].
  - pose proof (split_nl_nonempty s) as Hne.
    simpl. destruct (split_nl s) as [|l ls]; [done|]. by rewrite IH.
  - pose proof (split_nl_nonempty s) as Hne.
    destruct (split_nl s) as [|l ls]; [done|].
    destruct ls as [|l' ls]; simpl in *; by rewrite <- IH.
Qed.

Lemma count_nl_app (s t : text) : count_nl (s ++ t) = count_nl s + count_nl t.
Proof. unfold count_nl. by rewrite filter_app, length_app. Qed.

(** No newline precedes an offset within the first line. *)
Lemma count_nl_first_line (s : text) (n : nat) :
  n ≤ length (default [] (head (split_nl s))) → count_nl (take n s) = 0.
Proof.
  revert n. induction s as [|c s IH]; intros n Hn.
  - by destruct n.
  - destruct n as [|n]; [done|]. simpl in Hn. simpl take.
    destruct (N.eqb_spec c NL) as [->|Hc]; simpl in Hn; [lia|].
    pose proof (split_nl_nonempty s) as Hne.
    destruct (split_nl s) as [|l ls] eqn:Hs; [done|]. simpl in *.
    unfold count_nl. rewrite filter_cons. destruct (decide (c = NL)); [done|].
    apply IH. lia.
Qed.

(** A text has one more line than it has newlines. *)
Lemma length_split_nl (s : text) : length (split_nl s) = count_nl s + 1.
Proof.
  induction s as [|c s IH]; [done|]. simpl.
  unfold count_nl in *. rewrite filter_cons.
  destruct (N.eqb_spec c NL) as [->|Hc].
  - rewrite decide_True by done. simpl. by rewrite IH.
  - rewrite decide_False by done.
    pose proof (split_nl_nonempty s). by destruct (split_nl s).
Qed.

(** [str.count] on the text before an offset counts the offsets below
    it that hold a newline. *)
Lemma count_nl_take (n : nat) (s : text) :
  count_nl (take n s) = newlines_before n s.
Proof.
  unfold newlines_before, count_nl. induction n as [|n IH]; [by rewrite take_0|].
  rewrite seq_S, filter_app, length_app, <- IH. simpl.
  destruct (s !! n) as [c|] eqn:Hc.
  - rewrite (take_S_r _ _ _ Hc), filter_app, length_app. f_equal.
    rewrite !filter_cons, !filter_nil, Hc.
    repeat case_decide; simplify_eq; done.
  - rewrite filter_cons, filter_nil, Hc. case_decide; [done|]. simpl.
    apply lookup_ge_None in Hc. rewrite !take_ge by lia. lia.
Qed.

(** A newline before an offset is counted. *)
Lemma newlines_before_positive (n i : nat) (s : text) :
  i < n → s !! i = Some NL → 1 ≤ newlines_before n s.
Proof.
  intros Hi Hnl. unfold newlines_before.
  assert (Hin : i ∈ filter (λ i, s !! i = Some NL) (seq 0 n)).
  { apply list_elem_of_filter. split; [done|]. apply elem_of_seq. lia. }
  destruct (filter _ _); [by apply elem_of_nil in Hin | simpl; lia].
Qed.

(** ** The scanner as a function of the texts it reads *)

Section ScannerFacts.

Variable finditer : string → text → list Match.

Lemma foldl_add {A} (g : A → Finding) (ms : list A) (st : ScanResult) :
  foldl (λ st m, add st (g m)) st ms
  = {| findings := findings st ++ (g <$> ms); files_scanned := files_scanned st |}.
Proof.
  revert st. induction ms as [|m ms IH]; intros st; simpl.
  - rewrite app_nil_r. by destruct st.
  - rewrite IH. simpl. by rewrite <- app_assoc.
Qed.

Lemma found_cons file content rule patterns cat sev remedy :
  found finditer file content (rule :: patterns) cat sev remedy
  = (finding_of file (split_nl content) content rule cat sev remedy
       <$> finditer rule.1.1 content)
    ++ found finditer file content patterns cat sev remedy.
Proof.
  unfold found, matches_of. simpl. rewrite fmap_app. f_equal.
  rewrite <- list_fmap_compose. by apply list_fmap_ext.
Qed.

(** [_check_patterns] appends, for the text it was given, the findings
    of its table and touches nothing else. *)
Lemma check_patterns_found file content patterns cat sev remedy st :
  _check_patterns finditer file (split_nl content) patterns cat sev remedy st
  = {| findings := findings st ++ found finditer file content patterns cat sev remedy;
       files_scanned := files_scanned st |}.
Proof.
  unfold _check_patterns. rewrite join_split_nl.
  revert st. induction patterns as [|rule ps IH]; intros st.
  - simpl. unfold found, matches_of. simpl. rewrite app_nil_r. by destruct st.
  - simpl. rewrite foldl_add, IH. simpl. rewrite found_cons.
    by rewrite <- app_assoc.
Qed.

Lemma check_injection_found file content st :
  check_injection finditer file (split_nl content) st
  = {| findings := findings st ++ injection_block finditer file content;
       files_scanned := files_scanned st |}.
Proof.
  unfold check_injection, INJECTION_PATTERNS. cbn [foldl].
  rewrite !check_patterns_found. cbn [findings files_scanned].
  unfold injection_block, injection_found, INJECTION_PATTERNS.
  cbn [Deps.item String.eqb Ascii.eqb Bool.eqb].
  rewrite <- !app_assoc. reflexivity.
Qed.

Lemma when_found (b : bool) f new st :
  (∀ st, f st = {| findings := findings st ++ new; files_scanned := files_scanned st |}) →
  when b f st
  = {| findings := findings st ++ (if b then new else []);
       files_scanned := files_scanned st |}.
Proof.
  intros Hf. destruct b; simpl; [apply Hf|]. rewrite app_nil_r. by destruct st.
Qed.

(** [_scan_file] appends the findings of the file and touches nothing
    else. *)
Lemma scan_file_found file d checks st :
  _scan_file finditer file d checks st
  = {| findings := findings st ++ file_findings finditer checks (file, d);
       files_scanned := files_scanned st |}.
Proof.
  unfold _scan_file, file_findings. simpl.
  destruct (read_text d) as [content|]; [|rewrite app_nil_r; by destruct st].
  rewrite (when_found _ _ _ st (check_patterns_found _ _ _ _ _ _)).
  rewrite (when_found _ _ _ _ (check_injection_found _ _)).
  rewrite !(when_found _ _ _ _ (check_patterns_found _ _ _ _ _ _)).
  simpl. unfold text_findings. by rewrite <- !app_assoc.
Qed.

Lemma scan_loop files checks st :
  foldl (λ st '(file, d),
           let st := _scan_file finditer file d checks st in
           {| findings := findings st; files_scanned := files_scanned st + 1 |})
        st files
  = {| findings := findings st ++ flat_map (file_findings finditer checks) files;
       files_scanned := files_scanned st + length files |}.
Proof.
  revert st. induction files as [|[file d] files IH]; intros st; simpl.
  - rewrite app_nil_r, Nat.add_0_r. by destruct st.
  - rewrite IH, scan_file_found. simpl. f_equal; [by rewrite <- app_assoc | lia].
Qed.

(** A scan yields the findings of the candidate files, in walk order,
    and counts each candidate once. *)
Lemma scan_found root checks :
  scan finditer root checks
  = {| findings := flat_map (file_findings finditer checks) (_get_files root);
       files_scanned := length (_get_files root) |}.
Proof. unfold scan. by rewrite scan_loop. Qed.

End ScannerFacts.

(** ** Severity filtering *)

(** Among the order-preserving selections of a list whose members all
    satisfy [P], the filter is the largest. *)
Lemma sublist_filter_max {A} (P : A → Prop) `{!∀ x, Decision (P x)} (l fs : list A) :
  l `sublist_of` fs → Forall P l → l `sublist_of` filter P fs.
Proof.
  induction 1 as [|x l fs Hsub IH|x l fs Hsub IH]; intros Hall.
  - constructor.
  - apply Forall_cons in Hall as [Hx Hall].
    rewrite filter_cons, decide_True by done. constructor. by apply IH.
  - rewrite filter_cons. destruct (decide (P x)); [constructor|]; by apply IH.
Qed.

Lemma filter_severity_elem (min : Severity) (fs : list Finding) (f : Finding) :
  f ∈ filter_severity min fs ↔ f ∈ fs ∧ (value min ≤ value (severity f))%Z.
Proof. unfold filter_severity. rewrite list_elem_of_filter. tauto. Qed.

(** The comparison of the enum values is the order of the
    specification. *)
Lemma value_at_or_above (min s : Severity) :
  (value min ≤ value s)%Z ↔ at_or_above min s.
Proof. destruct min, s; simpl; intuition (lia || discriminate). Qed.

Lemma filter_severity_spec (min : Severity) (fs : list Finding) :
  filter_severity min fs = filter (λ f, at_or_above min (severity f)) fs.
Proof. apply list_filter_iff. intros f. apply value_at_or_above. Qed.

(** The result [main] prints is the scan filtered by [--severity]. *)
Lemma main_prints finditer fs args root :
  fs (path args) = Some root →
  let checks := if full args then None else check args in
  let fnd := findings (scan finditer root checks) in
  let shown := match min_severity args with
               | Some min => filter_severity min fnd
               | None => fnd
               end in
  main finditer fs args
  = {| events :=
         [Scanned root checks;
          Printed (print_results
                     {| findings := shown;
                        files_scanned := files_scanned (scan finditer root checks) |}
                     (json args))];
       exit_code := if fail_on_findings args && bool_decide (shown ≠ []) then 1 else 0 |}.
Proof.
  intros Hroot. unfold main. rewrite Hroot. simpl.
  destruct (min_severity args); [done|].
  by destruct (scan finditer root _).
Qed.

(** C3. Filtering by a minimum severity keeps exactly the findings at
    or above it, in their original relative order.  At CRITICAL these
    are the CRITICAL findings, at HIGH the CRITICAL and HIGH ones, at
    MEDIUM all but the LOW ones, at LOW all: the comprehension of
    [main] is the filter by that test; a finding is kept iff it was
    there and passes it; the result is an order-preserving selection of
    the input, and every such selection of findings that pass is
    contained in it.  With [--severity] on an existing path, what
    [main] prints is the scan filtered in this way.  Filtering is
    monotone: what passes at HIGH is an order-preserving selection, and
    a subset, of what passes at MEDIUM. *)
Theorem C3_severity_filter_exact_and_monotone (min : Severity) (fs : list Finding) :
  filter_severity min fs = filter (λ f, at_or_above min (severity f)) fs
  ∧ (∀ f, f ∈ filter_severity min fs ↔ f ∈ fs ∧ at_or_above min (severity f))
  ∧ filter_severity min fs `sublist_of` fs
  ∧ (∀ l, l `sublist_of` fs
          → Forall (λ f, at_or_above min (severity f)) l
          → l `sublist_of` filter_severity min fs)
  ∧ (∀ finditer fsys args root,
       fsys (path args) = Some root →
       min_severity args = Some min →
       let checks := if full args then None else check args in
       let shown :=
         filter (λ f, at_or_above min (severity f))
                (findings (scan finditer root checks)) in
       main finditer fsys args
       = {| events :=
              [Scanned root checks;
               Printed (print_results
                          {| findings := shown;
                             files_scanned := files_scanned (scan finditer root checks) |}
                          (json args))];
            exit_code :=
              if fail_on_findings args && bool_decide (shown ≠ []) then 1 else 0 |})
  ∧ filter_severity HIGH fs `sublist_of` filter_severity MEDIUM fs
  ∧ filter_severity HIGH fs ⊆ filter_severity MEDIUM fs.
Proof.
  assert (Hmono : filter_severity HIGH fs `sublist_of` filter_severity MEDIUM fs).
  { rewrite !filter_severity_spec.
    apply sublist_filter_max; [apply sublist_filter|].
    apply Forall_forall. intros f [Hf _]%list_elem_of_filter. simpl in *. tauto. }
  split_and!.
  - apply filter_severity_spec.
  - intros f. rewrite filter_severity_spec, list_elem_of_filter. tauto.
  - apply sublist_filter.
  - intros l. rewrite filter_severity_spec. apply sublist_filter_max.
  - intros finditer fsys args root Hroot Hmin checks shown.
    rewrite (main_prints finditer fsys args root Hroot), Hmin.
    cbv zeta. by rewrite filter_severity_spec.
  - exact Hmono.
  - by apply sublist_subseteq.
Qed.

(** On one finding of each severity, in the order MEDIUM, CRITICAL,
    LOW, HIGH: what each threshold keeps, in that order. *)
Lemma C3_witness_one_of_each :
  severity <$> filter_severity CRITICAL Sample.one_of_each = [CRITICAL]
  ∧ severity <$> filter_severity HIGH Sample.one_of_each = [CRITICAL; HIGH]
  ∧ severity <$> filter_severity MEDIUM Sample.one_of_each = [MEDIUM; CRITICAL; HIGH]
  ∧ severity <$> filter_severity LOW Sample.one_of_each = [MEDIUM; CRITICAL; LOW; HIGH].
Proof.
  rewrite (proj1 (C3_severity_filter_exact_and_monotone CRITICAL Sample.one_of_each)).
  rewrite (proj1 (C3_severity_filter_exact_and_monotone HIGH Sample.one_of_each)).
  rewrite (proj1 (C3_severity_filter_exact_and_monotone MEDIUM Sample.one_of_each)).
  rewrite (proj1 (C3_severity_filter_exact_and_monotone LOW Sample.one_of_each)).
  repeat split.
Defined.

(** ** Line numbers *)

(** C4. For every match of every rule of a table in a file's text, in
    the order the scanner visits them, [_check_patterns] appends one
    finding; its rule id is that of the rule and its line number is the
    number of newline characters in the text before the match start,
    plus one: the number of lines of the text before the match.  A
    match that starts within the first line is recorded at line 1, a
    match with a newline before its start at line 2 or later. *)
Theorem C4_line_number_counts_newlines
    (finditer : string → text → list Match)
    (file : RelPath) (content : text) (patterns : list Rule)
    (cat : string) (sev : Severity) (remedy : string) (st : ScanResult) :
  ∃ new,
    findings (_check_patterns finditer file (split_nl content) patterns cat sev remedy st)
    = findings st ++ new
    ∧ Forall2
        (λ (rm : Rule * Match) (f : Finding),
           rule_id f = rm.1.1.2
           ∧ line_number f = newlines_before (m_start rm.2) content + 1
           ∧ (∀ before rest,
                content = before ++ rest → length before = m_start rm.2 →
                line_number f = length (split_nl before))
           ∧ (m_start rm.2 ≤ length (default [] (head (split_nl content)))
              → line_number f = 1)
           ∧ (∀ i, i < m_start rm.2 → content !! i = Some NL → 2 ≤ line_number f))
        (matches_of finditer patterns content) new.
Proof.
  exists (found finditer file content patterns cat sev remedy). split.
  - by rewrite check_patterns_found.
  - unfold found. apply Forall2_fmap_r, Forall_Forall2_diag, Forall_forall.
    intros [[[pat rid] descr] m] _. simpl. split_and!.
    + done.
    + by rewrite count_nl_take.
    + intros before rest -> <-. by rewrite take_app_length, length_split_nl.
    + intros Hfirst. by rewrite count_nl_first_line.
    + intros i Hi Hnl. rewrite count_nl_take.
      pose proof (newlines_before_positive _ _ _ Hi Hnl). lia.
Qed.

(** On the sample file, whose second line holds a password, whose
    third a shell call and whose fourth an [innerHTML] assignment, the
    secrets and injection rules record these lines. *)
Lemma C4_witness_sample_file :
  (λ f, (rule_id f, line_number f))
  <$> findings (_check_patterns Regex.finditer ["app.py"] (split_nl (txt Sample.app_py))
                  (SECRETS_PATTERNS ++ flat_map snd INJECTION_PATTERNS)
                  "Sample" HIGH "none" new_result)
  = [("SEC-011", 2); ("SEC-012", 2); ("INJ-010", 3); ("INJ-020", 4)]
  ∧ ∃ new,
      findings (_check_patterns Regex.finditer ["app.py"] (split_nl (txt Sample.app_py))
                  (SECRETS_PATTERNS ++ flat_map snd INJECTION_PATTERNS)
                  "Sample" HIGH "none" new_result)
      = findings new_result ++ new
      ∧ Forall2
          (λ (rm : Rule * Match) (f : Finding),
             rule_id f = rm.1.1.2
             ∧ line_number f = newlines_before (m_start rm.2) (txt Sample.app_py) + 1
             ∧ (∀ before rest,
                  txt Sample.app_py = before ++ rest → length before = m_start rm.2 →
                  line_number f = length (split_nl before))
             ∧ (m_start rm.2 ≤ length (default [] (head (split_nl (txt Sample.app_py))))
                → line_number f = 1)
             ∧ (∀ i, i < m_start rm.2 → txt Sample.app_py !! i = Some NL
                     → 2 ≤ line_number f))
          (matches_of Regex.finditer
             (SECRETS_PATTERNS ++ flat_map snd INJECTION_PATTERNS) (txt Sample.app_py))
          new.
Proof.
  split; [vm_compute; reflexivity|].
  exact (C4_line_number_counts_newlines Regex.finditer ["app.py"] (txt Sample.app_py)
           (SECRETS_PATTERNS ++ flat_map snd INJECTION_PATTERNS)
           "Sample" HIGH "none" new_result).
Defined.

(** ** Category dispatch *)

(** The category, severity and remediation of the findings of a table
    are those the table was run with. *)
Lemma found_attrs finditer file content patterns cat sev remedy :
  Forall (λ f, category f = cat ∧ severity f = sev ∧ remediation f = remedy)
         (found finditer file content patterns cat sev remedy).
Proof.
  unfold found. apply Forall_fmap, Forall_forall.
  by intros [[[pat rid] descr] m] _.
Qed.

Lemma found_labelled finditer file content patterns cat sev remedy :
  Forall (λ f, (category f, severity f) = (cat, sev))
         (found finditer file content patterns cat sev remedy).
Proof.
  eapply Forall_impl; [apply found_attrs|]. by intros f (-> & -> & _).
Qed.

Lemma text_findings_labelled finditer file content checks :
  Forall (λ f, (category f, severity f) ∈ LABELS)
         (text_findings finditer file content checks).
Proof.
  assert (Hin : ∀ patterns cat sev remedy,
             (cat, sev) ∈ LABELS →
             Forall (λ f, (category f, severity f) ∈ LABELS)
                    (found finditer file content patterns cat sev remedy)).
  { intros patterns cat sev remedy Hl.
    eapply Forall_impl; [apply found_labelled|]. by intros f ->. }
  assert (Hnil : Forall (λ f : Finding, (category f, severity f) ∈ LABELS) []) by constructor.
  unfold text_findings, injection_block, injection_found.
  repeat apply Forall_app_2;
    repeat match goal with |- context [wants ?c checks] => destruct (wants c checks) end;
    repeat apply Forall_app_2; try exact Hnil; apply Hin; unfold LABELS; in_list.
Qed.

Lemma elem_of_found finditer file content patterns cat sev remedy f :
  f ∈ found finditer file content patterns cat sev remedy
  ↔ ∃ rule m,
      rule ∈ patterns ∧ m ∈ finditer rule.1.1 content
      ∧ f = finding_of file (split_nl content) content rule cat sev remedy m.
Proof.
  unfold found, matches_of. rewrite list_elem_of_fmap. split.
  - intros ([rule m] & -> & Hin).
    apply list_elem_of_In, in_flat_map in Hin as (rule' & Hr & Hin).
    apply list_elem_of_In, list_elem_of_fmap in Hin as (m' & [= -> ->] & Hm).
    exists rule', m'. split_and!; [by apply list_elem_of_In|done..].
  - intros (rule & m & Hr & Hm & ->). exists (rule, m). split; [done|].
    apply list_elem_of_In, in_flat_map. exists rule.
    split; [by apply list_elem_of_In|].
    apply list_elem_of_In, list_elem_of_fmap. by exists m.
Qed.

(** The findings of one table, field by field, against the matches of
    its rules. *)
Lemma found_fields finditer file content (sub : string) patterns cat sev remedy :
  Forall2 (λ '(sub', rule, m) (f : Finding),
             sub' = sub
             ∧ rule_id f = rule.1.2
             ∧ description f = rule.2
             ∧ category f = cat
             ∧ severity f = sev
             ∧ file_path f = rel_str file
             ∧ line_number f = newlines_before (m_start m) content + 1)
          (flat_map (λ rule : Rule, (λ m, (sub, rule, m)) <$> finditer rule.1.1 content)
                    patterns)
          (found finditer file content patterns cat sev remedy).
Proof.
  induction patterns as [|rule patterns IH]; [constructor|].
  rewrite found_cons. simpl. apply Forall2_app; [|exact IH].
  apply Forall2_fmap, Forall_Forall2_diag, Forall_forall. intros m _.
  destruct rule as [[pat rid] descr]. simpl. by rewrite count_nl_take.
Qed.

(** The matches of the injection rules, sub-category by sub-category. *)
Lemma injection_matches_tables finditer content :
  injection_matches finditer content
  = flat_map (λ rule : Rule, (λ m, ("sql", rule, m)) <$> finditer rule.1.1 content)
             (Deps.item [] INJECTION_PATTERNS "sql")
    ++ flat_map (λ rule : Rule, (λ m, ("command", rule, m)) <$> finditer rule.1.1 content)
                (Deps.item [] INJECTION_PATTERNS "command")
    ++ flat_map (λ rule : Rule, (λ m, ("xss", rule, m)) <$> finditer rule.1.1 content)
                (Deps.item [] INJECTION_PATTERNS "xss")
    ++ flat_map (λ rule : Rule, (λ m, ("nosql", rule, m)) <$> finditer rule.1.1 content)
                (Deps.item [] INJECTION_PATTERNS "nosql").
Proof.
  rewrite <- (app_nil_r (flat_map _ (Deps.item [] INJECTION_PATTERNS "nosql"))).
  reflexivity.
Qed.

(** The severity of the findings of a table, told by their rule id. *)
Lemma found_by_id finditer file content patterns cat sev remedy :
  Forall (λ id, (id ∈ injection_ids ["sql"; "command"] → sev = CRITICAL)
                ∧ (id ∈ injection_ids ["xss"; "nosql"] → sev = HIGH))
         ((λ rule : Rule, rule.1.2) <$> patterns) →
  Forall (λ f, (rule_id f ∈ injection_ids ["sql"; "command"] → severity f = CRITICAL)
               ∧ (rule_id f ∈ injection_ids ["xss"; "nosql"] → severity f = HIGH))
         (found finditer file content patterns cat sev remedy).
Proof.
  intros Hids. apply Forall_forall.
  intros f (rule & m & Hr & Hm & ->)%elem_of_found.
  rewrite Forall_forall in Hids.
  specialize (Hids rule.1.2 (list_elem_of_fmap_2 _ _ _ Hr)).
  by destruct rule as [[pat rid] descr].
Qed.

(** C5. When the injection category is selected, or no restriction is
    given, a readable file gets the findings of all four injection
    sub-categories, sql, command, xss and nosql in turn, as one block of
    its findings: one finding for every match of every rule of the four
    tables, with the rule's id and description, the sub-category in its
    label, the file and the line of the match.  Those of the sql and
    command rules are CRITICAL, those of the xss and nosql rules are
    HIGH; and no other finding of the file carries the id of an
    injection rule with another severity. *)
Theorem C5_injection_subcategories_applied_together
    (finditer : string → text → list Match)
    (file : RelPath) (d : FileData) (content : text)
    (checks : option (list string)) (st : ScanResult) :
  (checks = None ∨ ∃ cs, checks = Some cs ∧ "injection" ∈ cs) →
  read_text d = Some content →
  fst <$> INJECTION_PATTERNS = ["sql"; "command"; "xss"; "nosql"]
  ∧ ∃ before block after,
      findings (_scan_file finditer file d checks st)
      = findings st ++ before ++ block ++ after
      ∧ Forall2
          (λ '(sub, rule, m) (f : Finding),
             rule_id f = rule.1.2
             ∧ description f = rule.2
             ∧ category f = "Injection (" +:+ sub +:+ ")"
             ∧ file_path f = rel_str file
             ∧ line_number f = newlines_before (m_start m) content + 1
             ∧ (sub = "sql" ∨ sub = "command" → severity f = CRITICAL)
             ∧ (sub = "xss" ∨ sub = "nosql" → severity f = HIGH))
          (injection_matches finditer content) block
      ∧ Forall
          (λ f, (rule_id f ∈ injection_ids ["sql"; "command"] → severity f = CRITICAL)
                ∧ (rule_id f ∈ injection_ids ["xss"; "nosql"] → severity f = HIGH))
          (before ++ block ++ after).
Proof.
  intros Hsel Hread.
  assert (Hw : wants "injection" checks = true).
  { destruct Hsel as [->|(cs & -> & Hin)]; [done|].
    unfold wants. destruct cs; [done|]. by apply bool_decide_eq_true. }
  split; [reflexivity|].
  rewrite scan_file_found. unfold file_findings. simpl. rewrite Hread.
  unfold text_findings. rewrite Hw.
  eexists _, (injection_block finditer file content), _.
  split; [reflexivity|]. split.
  - unfold injection_block, injection_found. rewrite injection_matches_tables.
    repeat apply Forall2_app;
      (eapply Forall2_impl; [apply found_fields|]);
      intros [[sub rule] m] f (-> & ? & ? & ? & -> & ? & ?);
      (split_and!; [done..| |]); intros [?|?]; done.
  - repeat apply Forall_app_2;
      repeat match goal with |- context [wants ?c checks] => destruct (wants c checks) end;
      unfold injection_block, injection_found;
      repeat apply Forall_app_2;
      try apply Forall_nil_2; apply found_by_id; by_evaluation.
Qed.

Lemma C5_witness_injection_selected :
  (Some ["injection"] = None
   ∨ ∃ cs, Some ["injection"] = Some cs ∧ "injection" ∈ cs)
  ∧ read_text (Sample.source Sample.app_py) = Some (txt Sample.app_py)
  ∧ fst <$> INJECTION_PATTERNS = ["sql"; "command"; "xss"; "nosql"]
  ∧ ∃ before block after,
      findings (_scan_file Regex.finditer ["app.py"] (Sample.source Sample.app_py)
                  (Some ["injection"]) new_result)
      = findings new_result ++ before ++ block ++ after
      ∧ Forall2
          (λ '(sub, rule, m) (f : Finding),
             rule_id f = rule.1.2
             ∧ description f = rule.2
             ∧ category f = "Injection (" +:+ sub +:+ ")"
             ∧ file_path f = rel_str ["app.py"]
             ∧ line_number f = newlines_before (m_start m) (txt Sample.app_py) + 1
             ∧ (sub = "sql" ∨ sub = "command" → severity f = CRITICAL)
             ∧ (sub = "xss" ∨ sub = "nosql" → severity f = HIGH))
          (injection_matches Regex.finditer (txt Sample.app_py)) block
      ∧ Forall
          (λ f, (rule_id f ∈ injection_ids ["sql"; "command"] → severity f = CRITICAL)
                ∧ (rule_id f ∈ injection_ids ["xss"; "nosql"] → severity f = HIGH))
          (before ++ block ++ after).
Proof.
  assert (Hsel : Some ["injection"] = None
                 ∨ ∃ cs, Some ["injection"] = Some cs ∧ "injection" ∈ cs).
  { right. exists ["injection"]. split; [reflexivity | in_list]. }
  assert (Hread : read_text (Sample.source Sample.app_py) = Some (txt Sample.app_py)).
  { vm_compute. reflexivity. }
  exact (conj Hsel (conj Hread
           (C5_injection_subcategories_applied_together
              Regex.finditer ["app.py"] (Sample.source Sample.app_py)
              (txt Sample.app_py) (Some ["injection"]) new_result Hsel Hread))).
Defined.

(** On the sample file the injection rules match twice: the shell call
    of line 3 under the command sub-category and the [innerHTML]
    assignment of line 4 under the xss sub-category. *)
Example injection_matches_sample :
  (λ '(sub, rule, m), (sub, rule.1.2, m_start m))
  <$> injection_matches Regex.finditer (txt Sample.app_py)
  = [("command", "INJ-010", 35); ("xss", "INJ-020", 53)].
Proof. by vm_compute. Qed.

(** On the sample file the injection block holds the shell call of
    line 3, CRITICAL, and the [innerHTML] assignment of line 4, HIGH. *)
Example injection_block_sample :
  (λ f, (rule_id f, category f, severity f, line_number f))
  <$> injection_block Regex.finditer ["app.py"] (txt Sample.app_py)
  = [ ("INJ-010", "Injection (command)", CRITICAL, 3);
      ("INJ-020", "Injection (xss)", HIGH, 4) ].
Proof. by vm_compute. Qed.

(** The dispatch of [_scan_file] reads a selection only through the six
    names it tests. *)
Lemma scan_file_dispatch finditer file d checks checks' st :
  (∀ c, c ∈ DISPATCHED → wants c checks = wants c checks') →
  _scan_file finditer file d checks st = _scan_file finditer file d checks' st.
Proof.
  intros Hsame. unfold _scan_file.
  destruct (read_text d); [|done].
  rewrite !(Hsame _) by (unfold DISPATCHED; in_list). done.
Qed.

(** C10. ['xss'] is a value [--check] accepts, yet a selection that
    holds only ['xss'] makes [_scan_file] leave the result as it was,
    whatever regex engine, file and text: a scan under it reports no
    finding (and still counts the files).  The dispatch consults the
    selection only through the six names 'secrets', 'injection',
    'auth', 'crypto', 'cloud' and 'data': two selections that agree on
    them give the same result.  On the sample project, whose text
    matches an XSS rule, selecting 'injection' reports that match and
    selecting 'xss' reports nothing. *)
Theorem C10_xss_selection_reports_nothing :
  "xss" ∈ CHECK_CHOICES
  ∧ (∀ finditer file d st, _scan_file finditer file d (Some ["xss"]) st = st)
  ∧ (∀ finditer root,
       scan finditer root (Some ["xss"])
       = {| findings := []; files_scanned := length (_get_files root) |})
  ∧ (∀ finditer file d checks checks' st,
       (∀ c, c ∈ DISPATCHED → wants c checks = wants c checks') →
       _scan_file finditer file d checks st = _scan_file finditer file d checks' st)
  ∧ (rule_id <$> filter (λ f, category f = "Injection (xss)")
                   (findings (scan Regex.finditer Sample.project (Some ["injection"])))
     = ["INJ-020"]
     ∧ findings (scan Regex.finditer Sample.project (Some ["xss"])) = []).
Proof.
  assert (Hfile : ∀ finditer file d st,
             _scan_file finditer file d (Some ["xss"]) st = st).
  { intros finditer file d st. rewrite scan_file_found.
    unfold file_findings, text_findings. simpl.
    destruct (read_text d); rewrite app_nil_r; by destruct st. }
  split_and!.
  - unfold CHECK_CHOICES. in_list.
  - exact Hfile.
  - intros finditer root. rewrite scan_found. f_equal.
    induction (_get_files root) as [|[file d] files IH]; [done|].
    simpl. rewrite IH, app_nil_r.
    specialize (Hfile finditer file d new_result).
    rewrite scan_file_found in Hfile. by injection Hfile.
  - intros. by apply scan_file_dispatch.
  - by vm_compute.
  - by vm_compute.
Qed.

(** ** Exit code of the scanner *)

(** Whether a finding is at or above the selected minimum severity. *)
Lemma reported_nonempty (min : option Severity) (fnd : list Finding) :
  match min with Some m => filter_severity m fnd | None => fnd end ≠ []
  ↔ ∃ f, f ∈ fnd ∧ match min with
                    | Some m => (value m ≤ value (severity f))%Z
                    | None => True
                    end.
Proof.
  destruct min as [m|].
  - split.
    + intros Hne. destruct (filter_severity m fnd) as [|f l] eqn:Hf; [done|].
      exists f. apply filter_severity_elem. rewrite Hf. apply list_elem_of_here.
    + intros (f & Hf & Hm) Hnil.
      assert (Hin : f ∈ filter_severity m fnd) by by apply filter_severity_elem.
      rewrite Hnil in Hin. by apply elem_of_nil in Hin.
  - split.
    + intros Hne. destruct fnd as [|f l]; [done|]. exists f. split; [apply list_elem_of_here|done].
    + intros (f & Hf & _) ->. by apply elem_of_nil in Hf.
Qed.

(** C7, as amended.  When the target path exists, the scanner exits
    with a non-zero code exactly when [--fail-on-findings] was given
    and the scan has a finding at or above the selected minimum
    severity (any finding, when none was selected); in every other
    case, findings or not, it exits 0.  The only codes are 0 and 1. *)
Theorem C7_exit_code_when_path_exists
    (finditer : string → text → list Match)
    (fs : string → option FsNode) (args : Args) (root : FsNode) :
  fs (path args) = Some root →
  let checks := if full args then None else check args in
  let failing :=
    fail_on_findings args = true
    ∧ ∃ f, f ∈ findings (scan finditer root checks)
           ∧ match min_severity args with
             | Some m => (value m ≤ value (severity f))%Z
             | None => True
             end in
  (exit_code (main finditer fs args) ≠ 0%Z ↔ failing)
  ∧ (exit_code (main finditer fs args) = 1%Z ↔ failing)
  ∧ (exit_code (main finditer fs args) = 0%Z ↔ ¬ failing).
Proof.
  intros Hroot checks failing.
  rewrite (main_prints finditer fs args root Hroot). simpl.
  fold checks.
  pose proof (reported_nonempty (min_severity args)
                (findings (scan finditer root checks))) as Hrep.
  set (shown := match min_severity args with
                | Some m => filter_severity m (findings (scan finditer root checks))
                | None => findings (scan finditer root checks)
                end) in *.
  assert (Hfail : failing ↔ fail_on_findings args = true ∧ shown ≠ []).
  { unfold failing. by rewrite Hrep. }
  rewrite !Hfail.
  destruct (fail_on_findings args); simpl.
  - case_bool_decide; intuition (try discriminate; try lia).
  - intuition (try discriminate; try lia).
Qed.

Lemma C7_witness_sample_project :
  Sample.fs_with Sample.project (path Sample.strict_args) = Some Sample.project
  ∧ (exit_code (main Regex.finditer (Sample.fs_with Sample.project) Sample.strict_args) ≠ 0%Z
     ↔ fail_on_findings Sample.strict_args = true
       ∧ ∃ f, f ∈ findings (scan Regex.finditer Sample.project None)
              ∧ (value HIGH ≤ value (severity f))%Z)
  ∧ (exit_code (main Regex.finditer (Sample.fs_with Sample.project) Sample.strict_args) = 1%Z
     ↔ fail_on_findings Sample.strict_args = true
       ∧ ∃ f, f ∈ findings (scan Regex.finditer Sample.project None)
              ∧ (value HIGH ≤ value (severity f))%Z)
  ∧ (exit_code (main Regex.finditer (Sample.fs_with Sample.project) Sample.strict_args) = 0%Z
     ↔ ¬ (fail_on_findings Sample.strict_args = true
          ∧ ∃ f, f ∈ findings (scan Regex.finditer Sample.project None)
                 ∧ (value HIGH ≤ value (severity f))%Z)).
Proof.
  assert (Hroot : Sample.fs_with Sample.project (path Sample.strict_args)
                  = Some Sample.project) by reflexivity.
  exact (conj Hroot
           (C7_exit_code_when_path_exists Regex.finditer
              (Sample.fs_with Sample.project) Sample.strict_args Sample.project Hroot)).
Defined.

(** The sample project has findings: with the flag the scanner exits 1,
    without it 0. *)
Example exit_codes_sample :
  exit_code (main Regex.finditer (Sample.fs_with Sample.project) Sample.strict_args) = 1%Z
  ∧ exit_code (main Regex.finditer (Sample.fs_with Sample.project) Sample.lenient_args) = 0%Z
  ∧ length (findings (scan Regex.finditer Sample.project None)) = 4.
Proof. by vm_compute. Qed.

(** C7 as stated fails: on a path that does not exist the scanner exits
    with code 1 although [--fail-on-findings] was not given. *)
Lemma C7_counterexample_missing_path :
  Sample.fs_with Sample.project (path Sample.missing_args) = None
  ∧ fail_on_findings Sample.missing_args = false
  ∧ exit_code (main Regex.finditer (Sample.fs_with Sample.project) Sample.missing_args) = 1%Z
  ∧ exit_code (main Regex.finditer (Sample.fs_with Sample.project) Sample.missing_args) ≠ 0%Z.
Proof. by vm_compute. Qed.

(** ** Unreadable and undecodable files *)

(** Decoding with [errors='ignore'] never raises. *)
Lemma decode_ignore_total (fuel : nat) (bs : list N) :
  is_Some (Codec.decode_loop fuel Codec.Ignore bs).
Proof.
  revert bs. induction fuel as [|fuel IH]; intros bs; simpl; [by eexists|].
  destruct (Codec.decode_step bs) as [[c n|n|]|]; try by eexists.
  - destruct (IH (drop n bs)) as [t ->]. by eexists.
  - apply IH.
Qed.

Lemma read_text_bytes (data : list byte) :
  ∃ content, Codec.utf8_decode Codec.Ignore data = Some content
             ∧ read_text (Bytes data) = Some (Codec.universal_newlines content).
Proof.
  unfold read_text, Codec.utf8_decode.
  destruct (decode_ignore_total (length (Byte.to_N <$> data)) (Byte.to_N <$> data))
    as [content Hc].
  exists content. by rewrite Hc.
Qed.

(** Where strict decoding succeeds, ignoring errors gives the same
    text. *)
Lemma decode_strict_ignore (fuel : nat) (bs : list N) (content : text) :
  Codec.decode_loop fuel Codec.Strict bs = Some content →
  Codec.decode_loop fuel Codec.Ignore bs = Some content.
Proof.
  revert bs content. induction fuel as [|fuel IH]; intros bs content; simpl; [done|].
  destruct (Codec.decode_step bs) as [[c n|n|]|]; try done.
  destruct (Codec.decode_loop fuel Codec.Strict (drop n bs)) as [t|] eqn:Ht; [|done].
  by rewrite (IH _ _ Ht).
Qed.

(** C9, as amended.  Scanning a directory with exactly one candidate
    file always completes and counts that file once.  If the file
    cannot be read it contributes no finding.  If its bytes can be read
    they are decoded with the invalid sequences dropped, never
    rejected, and the file contributes exactly the findings of the text
    that remains. *)
Theorem C9_single_unreadable_or_undecodable_file
    (finditer : string → text → list Match)
    (root : FsNode) (checks : option (list string))
    (file : RelPath) (d : FileData) :
  _get_files root = [(file, d)] →
  files_scanned (scan finditer root checks) = 1
  ∧ match d with
    | Unreadable => findings (scan finditer root checks) = []
    | Bytes data =>
        ∃ content,
          Codec.utf8_decode Codec.Ignore data = Some content
          ∧ findings (scan finditer root checks)
            = text_findings finditer file (Codec.universal_newlines content) checks
    end.
Proof.
  intros Hfiles. rewrite scan_found, Hfiles. simpl. split; [done|].
  rewrite app_nil_r. unfold file_findings. simpl.
  destruct d as [|data]; [done|].
  destruct (read_text_bytes data) as (content & Hdec & Hread).
  exists content. by rewrite Hread.
Qed.

Lemma C9_witness_unreadable_file :
  _get_files Sample.locked = [(["widget.js"], Unreadable)]
  ∧ files_scanned (scan Regex.finditer Sample.locked None) = 1
  ∧ findings (scan Regex.finditer Sample.locked None) = [].
Proof.
  assert (Hfiles : _get_files Sample.locked = [(["widget.js"], Unreadable)])
    by reflexivity.
  exact (conj Hfiles
           (C9_single_unreadable_or_undecodable_file
              Regex.finditer Sample.locked None ["widget.js"] Unreadable Hfiles)).
Defined.

(** C9 as stated fails for a file that cannot be decoded: the only
    candidate file of the sample directory is not valid UTF-8, the scan
    counts it, and it contributes a finding. *)
Lemma C9_counterexample_undecodable_file_has_finding :
  _get_files Sample.mangled = [(["widget.js"], Bytes Sample.mangled_bytes)]
  ∧ undecodable Sample.mangled_bytes
  ∧ files_scanned (scan Regex.finditer Sample.mangled None) = 1
  ∧ (λ f, (rule_id f, line_number f))
    <$> findings (scan Regex.finditer Sample.mangled None) = [("INJ-020", 1)]
  ∧ findings (scan Regex.finditer Sample.mangled None) ≠ [].
Proof. by vm_compute. Qed.

(** ** Dependency checks *)

Lemma foldl_snoc_each {A B} (g : B → A) (l : list B) (st : list A) :
  foldl (λ st x, st ++ [g x]) st l = st ++ (g <$> l).
Proof.
  revert st. induction l as [|x l IH]; intros st; simpl; [by rewrite app_nil_r|].
  by rewrite IH, <- app_assoc.
Qed.

(** Both package checks only append to the findings collected so far. *)
Lemma check_python_package_appends pkg ver file st :
  Deps._check_python_package pkg ver file st
  = st ++ Deps._check_python_package pkg ver file [].
Proof.
  unfold Deps._check_python_package.
  repeat match goal with |- context [if ?b then _ else _] => destruct b end;
    rewrite ?foldl_snoc_each, ?app_nil_r, <- ?app_assoc; done.
Qed.

Lemma check_npm_package_appends pkg ver file st :
  Deps._check_npm_package pkg ver file st
  = st ++ Deps._check_npm_package pkg ver file [].
Proof.
  unfold Deps._check_npm_package.
  destruct ver as [v|];
  repeat match goal with |- context [if ?b then _ else _] => destruct b end;
    rewrite ?foldl_snoc_each, ?app_nil_r, <- ?app_assoc; done.
Qed.

Lemma check_package_appends e pkg ver file st :
  check_package e pkg ver file st = st ++ check_package e pkg ver file [].
Proof.
  destruct e; [apply check_python_package_appends | apply check_npm_package_appends].
Qed.

(** C2. For a package whose lower-cased name is on the denylist of its
    ecosystem, whatever the version (a string or none), the file and
    the findings so far, the check appends findings of which exactly
    one is CRITICAL and exactly one is of type 'hallucinated': the same
    one, carrying the package and the version as given. *)
Theorem C2_hallucinated_is_name_only
    (e : Ecosystem) (pkg : string) (ver : option string) (file : string)
    (st : Deps.Findings) :
  lower pkg ∈ denylist e →
  ∃ new h,
    check_package e pkg ver file st = st ++ new
    ∧ filter (λ f, Deps.severity f = "CRITICAL") new = [h]
    ∧ filter (λ f, Deps.issue_type f = "hallucinated") new = [h]
    ∧ Deps.package h = pkg
    ∧ Deps.version h = ver
    ∧ Deps.severity h = "CRITICAL"
    ∧ Deps.issue_type h = "hallucinated".
Proof.
  intros Hdeny.
  exists (check_package e pkg ver file []).
  destruct e; simpl.
  - exists (Deps.hallucinated_finding pkg ver file
              "Verify package exists on PyPI: pip search or visit pypi.org").
    split; [apply check_python_package_appends|].
    unfold Deps._check_python_package.
    unfold denylist, Deps.HALLUCINATED_PACKAGES in Hdeny.
    cbn [eco_key Deps.item String.eqb Ascii.eqb Bool.eqb] in Hdeny.
    list_cases Hdeny; rewrite Hdeny; by vm_compute.
  - exists (Deps.hallucinated_finding pkg ver file
              "Verify package exists on npm: npm view or visit npmjs.com").
    split; [apply check_npm_package_appends|].
    unfold Deps._check_npm_package.
    unfold denylist, Deps.HALLUCINATED_PACKAGES in Hdeny.
    cbn [eco_key Deps.item String.eqb Ascii.eqb Bool.eqb] in Hdeny.
    destruct ver as [v|];
      [destruct (str_in v ["*"; "latest"; EmptyString])|];
      list_cases Hdeny; rewrite Hdeny; by vm_compute.
Qed.

Lemma C2_witness_npm_no_version :
  lower "React-Utils" ∈ denylist Npm
  ∧ ∃ new h,
      check_package Npm "React-Utils" None "package.json" [] = [] ++ new
      ∧ filter (λ f, Deps.severity f = "CRITICAL") new = [h]
      ∧ filter (λ f, Deps.issue_type f = "hallucinated") new = [h]
      ∧ Deps.package h = "React-Utils"
      ∧ Deps.version h = None
      ∧ Deps.severity h = "CRITICAL"
      ∧ Deps.issue_type h = "hallucinated".
Proof.
  assert (Hdeny : lower "React-Utils" ∈ denylist Npm).
  { vm_compute. in_list. }
  exact (conj Hdeny
           (C2_hallucinated_is_name_only Npm "React-Utils" None "package.json" [] Hdeny)).
Defined.

(** What a package check appends: the hallucination finding if the
    name is denylisted, then findings that are all HIGH and
    'vulnerable', then findings that are all MEDIUM and 'suspicious'. *)
Lemma check_package_parts e pkg ver file :
  ∃ hall vuln susp,
    check_package e pkg ver file [] = hall ++ vuln ++ susp
    ∧ (lower pkg ∉ denylist e → hall = [])
    ∧ Forall (λ f, Deps.issue_type f = "vulnerable" ∧ Deps.severity f = "HIGH") vuln
    ∧ Forall (λ f, Deps.issue_type f = "suspicious" ∧ Deps.severity f = "MEDIUM") susp.
Proof.
  assert (Hvuln : ∀ remedy (advs : list (string * string)),
             Forall (λ f, Deps.issue_type f = "vulnerable" ∧ Deps.severity f = "HIGH")
                    (Deps.vulnerable_finding pkg ver file remedy <$> advs)).
  { intros remedy advs. apply Forall_fmap, Forall_forall. by intros adv _. }
  assert (Hhall : ∀ (x : Deps.DependencyFinding),
             lower pkg ∉ denylist e →
             (if str_in (lower pkg) (denylist e) then [x] else []) = []).
  { intros x Hnot. unfold str_in. by rewrite (bool_decide_eq_false_2 _ Hnot). }
  destruct e; simpl.
  - unfold Deps._check_python_package.
    exists (if str_in (lower pkg) (denylist Python)
            then [Deps.hallucinated_finding pkg ver file
                    "Verify package exists on PyPI: pip search or visit pypi.org"]
            else []),
           (if Deps.has_key (Deps.item [] Deps.VULNERABLE_PACKAGES "python") (lower pkg)
            then Deps.vulnerable_finding pkg ver file
                   ("Update " +:+ pkg +:+ " to latest version")
                 <$> Deps.item [] (Deps.item [] Deps.VULNERABLE_PACKAGES "python") (lower pkg)
            else []), [].
    split_and!; [|apply Hhall| |constructor].
    + unfold denylist. simpl eco_key.
      destruct (str_in _ _), (Deps.has_key _ _);
        rewrite ?foldl_snoc_each, ?app_nil_r; reflexivity.
    + destruct (Deps.has_key _ _); [apply Hvuln|constructor].
  - unfold Deps._check_npm_package.
    exists (if str_in (lower pkg) (denylist Npm)
            then [Deps.hallucinated_finding pkg ver file
                    "Verify package exists on npm: npm view or visit npmjs.com"]
            else []),
           (if Deps.has_key (Deps.item [] Deps.VULNERABLE_PACKAGES "npm") (lower pkg)
            then Deps.vulnerable_finding pkg ver file ("Run: npm update " +:+ pkg)
                 <$> Deps.item [] (Deps.item [] Deps.VULNERABLE_PACKAGES "npm") (lower pkg)
            else []),
           (match ver with
            | Some v => if str_in v ["*"; "latest"; EmptyString]
                        then [Deps.suspicious_finding pkg v file] else []
            | None => []
            end).
    split_and!; [|apply Hhall| |].
    + unfold denylist. simpl eco_key.
      destruct (str_in (lower pkg) _), (Deps.has_key _ _), ver as [v|];
        try destruct (str_in v _);
        rewrite ?foldl_snoc_each, ?app_nil_r, <- ?app_assoc; reflexivity.
    + destruct (Deps.has_key _ _); [apply Hvuln|constructor].
    + destruct ver as [v|]; [destruct (str_in v _)|]; repeat constructor.
Qed.

(** A name that is not on the denylist gets no finding of type
    'hallucinated' and no CRITICAL finding, whatever the version. *)
Lemma not_denylisted_not_hallucinated e pkg ver file :
  lower pkg ∉ denylist e →
  filter (λ f, Deps.issue_type f = "hallucinated") (check_package e pkg ver file []) = []
  ∧ filter (λ f, Deps.severity f = "CRITICAL") (check_package e pkg ver file []) = [].
Proof.
  intros Hnot.
  destruct (check_package_parts e pkg ver file)
    as (hall & vuln & susp & -> & Hhall & Hvuln & Hsusp).
  rewrite (Hhall Hnot). clear Hhall.
  assert (Hnone : ∀ (P Q : Deps.DependencyFinding → Prop) `{!∀ x, Decision (P x)} l,
             Forall Q l → (∀ f, Q f → ¬ P f) → filter P l = []).
  { intros P Q ? l HQ HPQ. induction HQ as [|x l Hx _ IH]; [done|].
    rewrite filter_cons, decide_False by by apply HPQ. exact IH. }
  rewrite !filter_app, !filter_nil.
  rewrite !(Hnone _ _ _ vuln Hvuln), !(Hnone _ _ _ susp Hsusp); [done|..];
    intros f [H1 H2]; rewrite ?H1, ?H2; discriminate.
Qed.

(** The version plays no part: on the sample denylisted name a
    wildcard version adds the MEDIUM finding of an unpinned dependency
    and leaves the one CRITICAL finding. *)
Example hallucinated_with_wildcard :
  (λ f, (Deps.issue_type f, Deps.severity f))
  <$> Deps._check_npm_package "react-utils" (Some "*") "package.json" []
  = [("hallucinated", "CRITICAL"); ("suspicious", "MEDIUM")].
Proof. by vm_compute. Qed.

(** C6. The manifest entry that maps "axios" to "*" yields exactly two
    findings for the package, whatever the manifest file and the
    findings so far: the HIGH 'vulnerable' one of the advisory
    catalogued for axios, then the MEDIUM 'suspicious' one of the
    unpinned version; none is of type 'hallucinated'.  The whole check
    of a [package.json] that declares only this entry gives these two
    findings. *)
Theorem C6_axios_wildcard_two_findings (file : string) (st : Deps.Findings) :
  let vulnerable :=
    {| Deps.package := "axios"; Deps.version := Some "*";
       Deps.issue_type := "vulnerable"; Deps.severity := "HIGH";
       Deps.description := "axios < 1.6.0: SSRF vulnerability";
       Deps.file_path := file;
       Deps.remediation := "Run: npm update axios" |} in
  let suspicious :=
    {| Deps.package := "axios"; Deps.version := Some "*";
       Deps.issue_type := "suspicious"; Deps.severity := "MEDIUM";
       Deps.description :=
         "Package " +:+ Deps.DQ +:+ "axios" +:+ Deps.DQ
         +:+ " uses unpinned version " +:+ Deps.DQ +:+ "*" +:+ Deps.DQ;
       Deps.file_path := file;
       Deps.remediation :=
         "Pin to specific version: npm install pkg@x.y.z --save-exact" |} in
  Deps._check_npm_package "axios" (Some "*") file st = st ++ [vulnerable; suspicious]
  ∧ filter (λ f, Deps.issue_type f = "hallucinated") [vulnerable; suspicious] = []
  ∧ (λ f, (Deps.package f, Deps.issue_type f, Deps.severity f, Deps.file_path f))
    <$> Deps.check (Sample.package_json "axios" (Some "*"))
    = [ ("axios", "vulnerable", "HIGH", "package.json");
        ("axios", "suspicious", "MEDIUM", "package.json") ].
Proof.
  intros vulnerable suspicious. split_and!.
  - rewrite check_npm_package_appends. f_equal.
  - by vm_compute.
  - by vm_compute.
Qed.

(** ** The deployment-gate verdict *)

(** A severity count of the scanner's JSON is positive exactly when a
    finding of that severity exists. *)
Lemma count_positive (r : ScanResult) (sev : Severity) :
  (0 <? Z.of_nat (length (get_by_severity r sev)))%Z = any_of sev (findings r).
Proof.
  unfold any_of, get_by_severity.
  induction (findings r) as [|f fnd IH].
  - rewrite bool_decide_eq_false_2; [done|]. by intros ?%Exists_nil.
  - rewrite filter_cons. destruct (decide (severity f = sev)) as [Hf|Hf].
    + simpl length. rewrite bool_decide_eq_true_2 by (apply Exists_cons; by left).
      apply Z.ltb_lt. lia.
    + rewrite IH. apply bool_decide_ext. rewrite Exists_cons. tauto.
Qed.


(** For a path that exists, what [run_all_checks] stores for the
    scanner and for the dependency checker, by how each script ended:
    the JSON document of a full scan of the tree, and that of the
    dependency check, when the script ran to the end. *)
Lemma run_all_checks_entries finditer (w : Report.World) (p : string) (root : FsNode) :
  Report.fs w p = Some root →
  Report.security_findings (Report.run_all_checks finditer w p)
  = match Report.scan_launch w p with
    | Report.Completed => Report.Value (scan_json (scan finditer root None))
    | Report.Failed => Report.Absent
    | Report.Raised msg => Report.Errored msg
    end
  ∧ Report.dependency_findings (Report.run_all_checks finditer w p)
    = match Report.deps_launch w p with
      | Report.Completed =>
          Report.Value (Deps.deps_json (Deps.check (Report.manifests w p)))
      | Report.Failed => Report.Absent
      | Report.Raised msg => Report.Errored msg
      end.
Proof.
  intros Hroot. unfold Report.run_all_checks, Report.deps_world.
  unfold main, Deps.main. cbn [path Deps.path]. rewrite Hroot.
  cbn [Report.security_findings Report.dependency_findings]. split.
  - destruct (Report.scan_launch w p); [|done..]. cbn.
    by destruct (scan finditer root None).
  - by destruct (Report.deps_launch w p).
Qed.

(** When both scripts ran to the end, [results] holds their two JSON
    documents. *)
Lemma run_all_checks_outputs finditer (w : Report.World) (p : string) (root : FsNode) :
  Report.fs w p = Some root →
  Report.scan_launch w p = Report.Completed →
  Report.deps_launch w p = Report.Completed →
  Report.run_all_checks finditer w p
  = results_of (Report.now w) p (Report.detect w p)
      (scan finditer root None) (Deps.check (Report.manifests w p)).
Proof.
  intros Hroot Hscan Hdeps.
  destruct (run_all_checks_entries finditer w p root Hroot) as [Hs Hd].
  rewrite Hscan in Hs. rewrite Hdeps in Hd.
  unfold results_of. rewrite <- Hs, <- Hd. reflexivity.
Qed.







(** The sample project has a CRITICAL scanner finding: its report is
    BLOCKED, and says so with the count. *)
Example report_sample_project :
  (λ s, (Report.verdict s, Report.headline s, Report.dep_total s))
  <$> Report.executive_summary
        (Report.run_all_checks Regex.finditer Sample.project_world "proj")
  = Some (Report.BLOCKED,
          "**DEPLOYMENT BLOCKED:** 3 critical vulnerabilities found", 2%Z).
Proof. by vm_compute. Qed.

(** ** A target path that does not exist *)

(** C8, on the code.  With a target path that does not exist the
    scanner and the dependency checker print the error, scan nothing
    and exit with code 1.  The report generator prints the same error
    and runs no check, but it returns instead of exiting: its exit code
    is 0, where a non-zero one is required. *)
Theorem C8_missing_path_runs
    (finditer : string → text → list Match) (w : Report.World)
    (sa : Args) (da : Deps.Args) (ra : Report.Args) :
  Report.fs w (path sa) = None →
  Report.fs w (Deps.path da) = None →
  Report.fs w (Report.path ra) = None →
  main finditer (Report.fs w) sa
  = {| events := [Printed (Line (missing_path_error (path sa)))];
       exit_code := 1 |}
  ∧ Deps.main (Report.deps_world w) da
    = {| Deps.events := [Deps.Printed (Deps.Line (missing_path_error (Deps.path da)))];
         Deps.exit_code := 1 |}
  ∧ Report.main finditer w ra
    = {| Report.events := [Report.Printed (missing_path_error (Report.path ra))];
         Report.exit_code := 0 |}.
Proof.
  intros Hs Hd Hr.
  unfold main, Deps.main, Report.main, Report.deps_world.
  by rewrite Hs, Hd, Hr.
Qed.

Lemma C8_witness_missing_path :
  Report.fs Sample.project_world (path Sample.missing_args) = None
  ∧ Report.fs Sample.project_world (Deps.path (Sample.deps_args "nowhere")) = None
  ∧ Report.fs Sample.project_world (Report.path (Sample.report_args "nowhere")) = None
  ∧ main Regex.finditer (Report.fs Sample.project_world) Sample.missing_args
    = {| events := [Printed (Line (missing_path_error "nowhere"))];
         exit_code := 1 |}
  ∧ Deps.main (Report.deps_world Sample.project_world) (Sample.deps_args "nowhere")
    = {| Deps.events := [Deps.Printed (Deps.Line (missing_path_error "nowhere"))];
         Deps.exit_code := 1 |}
  ∧ Report.main Regex.finditer Sample.project_world (Sample.report_args "nowhere")
    = {| Report.events := [Report.Printed (missing_path_error "nowhere")];
         Report.exit_code := 0 |}.
Proof.
  assert (Hs : Report.fs Sample.project_world (path Sample.missing_args) = None)
    by reflexivity.
  assert (Hd : Report.fs Sample.project_world (Deps.path (Sample.deps_args "nowhere")) = None)
    by reflexivity.
  assert (Hr : Report.fs Sample.project_world (Report.path (Sample.report_args "nowhere")) = None)
    by reflexivity.
  exact (conj Hs (conj Hd (conj Hr
           (C8_missing_path_runs Regex.finditer Sample.project_world
              Sample.missing_args (Sample.deps_args "nowhere")
              (Sample.report_args "nowhere") Hs Hd Hr)))).
Defined.

(** On a path that exists the report generator runs the checks and
    emits the report. *)
Example report_run_sample :
  Report.exit_code
    (Report.main Regex.finditer Sample.project_world (Sample.report_args "proj")) = 0%Z
  ∧ length (Report.events
              (Report.main Regex.finditer Sample.project_world (Sample.report_args "proj")))
    = 3.
Proof. by vm_compute. Qed.

(** ** The sample engine on the rule tables *)

(** Every pattern of the rule tables lies in the fragment [Regex]
    parses: [Regex.finditer] never takes its fallback on them. *)
Lemma rule_tables_compile :
  length ALL_RULES = 62
  ∧ forallb (λ rule : Rule, bool_decide (is_Some (Regex.compile rule.1.1))) ALL_RULES = true.
Proof. by vm_compute. Qed.

(** The findings of the sample file, by rule and line: the password of
    line 2 under two secrets rules, the shell call of line 3, the
    [innerHTML] assignment of line 4. *)
Example line_numbers_sample :
  (λ f, (rule_id f, line_number f))
  <$> findings (scan Regex.finditer Sample.project None)
  = [("SEC-011", 2); ("SEC-012", 2); ("INJ-010", 3); ("INJ-020", 4)].
Proof. by vm_compute. Qed.

(** The snippet of a finding is its line, stripped: the shell call of
    the sample file is indented, its snippet is not. *)
Example snippet_sample :
  code_snippet
  <$> filter (λ f, rule_id f = "INJ-010")
             (findings (scan Regex.finditer Sample.project None))
  = [txt "os.system(cmd)"].
Proof. by vm_compute. Qed.

(** A run restricted to ['xss'] on an existing path prints a result
    with no finding and exits 0, with or without the flag. *)
Lemma main_xss_only finditer fs args root :
  fs (path args) = Some root →
  full args = false →
  check args = Some ["xss"] →
  main finditer fs args
  = {| events :=
         [Scanned root (Some ["xss"]);
          Printed (print_results
                     {| findings := []; files_scanned := length (_get_files root) |}
                     (json args))];
       exit_code := 0 |}.
Proof.
  intros Hroot Hfull Hcheck.
  rewrite (main_prints finditer fs args root Hroot). rewrite Hfull, Hcheck.
  rewrite scan_found. simpl.
  assert (Hnone : flat_map (file_findings finditer (Some ["xss"])) (_get_files root) = []).
  { induction (_get_files root) as [|[file d] files IH]; [done|].
    simpl. rewrite IH, app_nil_r. unfold file_findings. simpl.
    by destruct (read_text d). }
  rewrite Hnone.
  destruct (min_severity args); simpl; by rewrite andb_false_r.
Qed.

(** * Further properties of the code *)

Import Cover.

(** ** Which files a scan reads *)

(** Induction over a file tree, with the hypothesis for every entry of
    a directory. *)
Lemma FsNode_nested_ind (P : FsNode → Prop) :
  (∀ f d, P (FsFile f d)) →
  (∀ dn es, Forall P es → P (FsDir dn es)) →
  ∀ n, P n.
Proof.
  intros Hfile Hdir. fix IH 1. intros [f d|dn es]; [apply Hfile|].
  apply Hdir. induction es as [|n es IHes]; constructor; [apply IH | exact IHes].
Qed.

Lemma file_at_nonempty entries p d : file_at entries p d → p ≠ [].
Proof. by destruct 1. Qed.

Lemma elem_of_files_here prefix entries p d :
  (p, d) ∈ files_here prefix entries
  ↔ ∃ f, p = prefix ++ [f] ∧ FsFile f d ∈ entries ∧ is_candidate f = true.
Proof.
  unfold files_here. rewrite list_elem_of_omap. split.
  - intros ([f d'|dn es] & Hin & Hsome); [|done].
    destruct (is_candidate f) eqn:Hc; [|done].
    injection Hsome as <- <-. by exists f.
  - intros (f & -> & Hin & Hc). exists (FsFile f d). by rewrite Hc.
Qed.

Lemma walk_dir prefix dn es :
  walk prefix (FsDir dn es)
  = if str_in dn SKIP_DIRS then [] else below (prefix ++ [dn]) es.
Proof. reflexivity. Qed.

(** What the walk yields below a directory, by paths: a candidate file
    of a directory reached without crossing a pruned name. *)
Lemma elem_of_below prefix entries p d :
  (p, d) ∈ below prefix entries
  ↔ ∃ dirs f,
      p = prefix ++ dirs ++ [f]
      ∧ file_at entries (dirs ++ [f]) d
      ∧ is_candidate f = true
      ∧ Forall (λ c, c ∉ SKIP_DIRS) dirs.
Proof.
  split.
  - revert prefix p d.
    assert (Hall : Forall (λ n, ∀ prefix p d,
                     (p, d) ∈ walk prefix n →
                     ∃ dn es dirs f,
                       n = FsDir dn es ∧ (dn ∉ SKIP_DIRS)
                       ∧ p = prefix ++ (dn :: dirs) ++ [f]
                       ∧ file_at es (dirs ++ [f]) d
                       ∧ is_candidate f = true
                       ∧ Forall (λ c, c ∉ SKIP_DIRS) dirs) entries).
    { apply Forall_forall. intros n _. induction n as [f d|dn es IH] using FsNode_nested_ind.
      - intros prefix p d' Hin. by apply elem_of_nil in Hin.
      - intros prefix p d Hin. rewrite walk_dir in Hin.
        unfold str_in in Hin. case_bool_decide as Hskip; [by apply elem_of_nil in Hin|].
        exists dn, es. unfold below in Hin. apply elem_of_app in Hin as [Hin|Hin].
        + apply elem_of_files_here in Hin as (f & -> & Hf & Hc).
          exists [], f. rewrite <- app_assoc. split_and!; try done.
          by constructor.
        + apply list_elem_of_In, in_flat_map in Hin as (n & Hn & Hin).
          apply list_elem_of_In in Hn, Hin.
          rewrite Forall_forall in IH.
          destruct (IH n Hn _ _ _ Hin)
            as (dn' & es' & dirs & f & -> & Hns & -> & Hat & Hc & Hdirs).
          exists (dn' :: dirs), f. rewrite <- app_assoc. split_and!; try done.
          * by apply (file_below es es' dn').
          * by constructor. }
    intros prefix p d Hin. unfold below in Hin.
    apply elem_of_app in Hin as [Hin|Hin].
    + apply elem_of_files_here in Hin as (f & -> & Hf & Hc).
      exists [], f. split_and!; try done; by constructor.
    + apply list_elem_of_In, in_flat_map in Hin as (n & Hn & Hin).
      apply list_elem_of_In in Hn, Hin.
      rewrite Forall_forall in Hall.
      destruct (Hall n Hn _ _ _ Hin)
        as (dn & es & dirs & f & -> & Hns & -> & Hat & Hc & Hdirs).
      exists (dn :: dirs), f. split_and!; try done.
      * by apply (file_below entries es dn).
      * by constructor.
  - intros (dirs & f & -> & Hat & Hc & Hdirs).
    remember (dirs ++ [f]) as q eqn:Hq.
    revert prefix dirs Hq Hdirs.
    induction Hat as [entries f' d Hf|entries es dn p d Hdn Hat IH];
      intros prefix dirs Hq Hdirs.
    + destruct dirs as [|c dirs]; simpl in Hq.
      * injection Hq as ->. unfold below. apply elem_of_app. left.
        apply elem_of_files_here. by exists f.
      * injection Hq as _ Hq. by destruct dirs.
    + destruct dirs as [|c dirs]; simpl in Hq.
      * injection Hq as _ ->. by apply file_at_nonempty in Hat.
      * injection Hq as <- ->. apply Forall_cons in Hdirs as [Hc' Hdirs].
        unfold below. apply elem_of_app. right.
        apply list_elem_of_In, in_flat_map. exists (FsDir dn es).
        split; [by apply list_elem_of_In|]. apply list_elem_of_In.
        rewrite walk_dir. unfold str_in. rewrite bool_decide_eq_false_2 by done.
        specialize (IH (prefix ++ [dn]) dirs eq_refl Hdirs).
        by rewrite <- app_assoc in IH.
Qed.

(** X1. The files a scan reads below a directory are exactly the plain
    files with a candidate name that are reached without entering a
    directory named in [SKIP_DIRS], at any depth; the name of the root
    itself is not tested.  A root that is a plain file yields nothing. *)
Theorem X1_get_files_exact (rname : string) (entries : list FsNode)
    (p : RelPath) (d : FileData) :
  ((p, d) ∈ _get_files (FsDir rname entries)
   ↔ ∃ dirs f,
       p = dirs ++ [f]
       ∧ file_at entries p d
       ∧ is_candidate f = true
       ∧ Forall (λ c, c ∉ SKIP_DIRS) dirs)
  ∧ _get_files (FsFile rname d) = [].
Proof.
  split; [|done].
  change (_get_files (FsDir rname entries)) with (below [] entries).
  rewrite elem_of_below. split.
  - intros (dirs & f & -> & Hat & Hc & Hdirs). by exists dirs, f.
  - intros (dirs & f & -> & Hat & Hc & Hdirs). by exists dirs, f.
Qed.

(** On the sample project the file under [node_modules] and the file
    without a candidate name are left out. *)
Example get_files_sample :
  fst <$> _get_files Sample.project = [["app.py"]].
Proof. by vm_compute. Qed.

(** ** Where a finding comes from *)

Lemma injection_tables :
  flat_map snd INJECTION_PATTERNS
  = Deps.item [] INJECTION_PATTERNS "sql" ++ Deps.item [] INJECTION_PATTERNS "command"
    ++ Deps.item [] INJECTION_PATTERNS "xss" ++ Deps.item [] INJECTION_PATTERNS "nosql".
Proof. by vm_compute. Qed.

(** A finding of a text is built from a rule of the tables and a match
    of its pattern in that text. *)
Lemma elem_of_text_findings finditer file content checks f :
  f ∈ text_findings finditer file content checks →
  ∃ rule m cat sev remedy,
    rule ∈ ALL_RULES ∧ m ∈ finditer rule.1.1 content
    ∧ f = finding_of file (split_nl content) content rule cat sev remedy m.
Proof.
  assert (Hone : ∀ patterns cat sev remedy,
             patterns ⊆ ALL_RULES →
             f ∈ found finditer file content patterns cat sev remedy →
             ∃ rule m cat sev remedy,
               rule ∈ ALL_RULES ∧ m ∈ finditer rule.1.1 content
               ∧ f = finding_of file (split_nl content) content rule cat sev remedy m).
  { intros patterns cat sev remedy Hsub (rule & m & Hr & Hm & ->)%elem_of_found.
    exists rule, m, cat, sev, remedy. split_and!; [by apply Hsub|done..]. }
  assert (Hsub : ∀ patterns, (∀ r, r ∈ patterns →
                   r ∈ SECRETS_PATTERNS ∨ r ∈ flat_map snd INJECTION_PATTERNS
                   ∨ r ∈ AUTH_PATTERNS ∨ r ∈ CRYPTO_PATTERNS ∨ r ∈ CLOUD_PATTERNS
                   ∨ r ∈ DATA_PATTERNS) → patterns ⊆ ALL_RULES).
  { intros patterns H r Hr. unfold ALL_RULES. rewrite !elem_of_app. by apply H. }
  unfold text_findings, injection_block, injection_found.
  rewrite !elem_of_app.
  intros Hin.
  repeat match type of Hin with
         | _ ∨ _ => destruct Hin as [Hin|Hin]
         | _ ∈ _ ++ _ => apply elem_of_app in Hin
         | _ ∈ (if ?b then _ else _) => destruct b; [|by apply elem_of_nil in Hin]
         end;
    (eapply Hone; [|exact Hin]); apply Hsub; intros r Hr;
    rewrite ?injection_tables, ?elem_of_app; tauto.
Qed.

Lemma count_nl_take_le (n : nat) (s : text) : count_nl (take n s) ≤ count_nl s.
Proof.
  rewrite <- (take_drop n s) at 2. rewrite count_nl_app. lia.
Qed.

(** The line of a match exists: the guard of the snippet in
    [_check_patterns] always holds. *)
Lemma finding_of_line file content rule cat sev remedy m :
  let f := finding_of file (split_nl content) content rule cat sev remedy m in
  ∃ line,
    1 ≤ line_number f ≤ length (split_nl content)
    ∧ split_nl content !! (line_number f - 1) = Some line
    ∧ code_snippet f = take 100 (strip line).
Proof.
  destruct rule as [[pat rid] descr]. simpl.
  pose proof (count_nl_take_le (m_start m) content) as Hle.
  pose proof (length_split_nl content) as Hlen.
  destruct (lookup_lt_is_Some_2 (split_nl content)
              (count_nl (take (m_start m) content) + 1 - 1)) as [line Hline]; [lia|].
  exists line. split_and!; [lia..|done|].
  rewrite decide_True by lia. by rewrite Hline.
Qed.

(** X2. Every finding of a scan comes from a candidate file of the walk
    that could be read, and from a match of a rule of the tables in the
    text of that file: its path is the file's relative path, its rule
    id and description are the rule's, its line number is between 1 and
    the number of lines of the text, and its snippet is that line,
    stripped and cut to 100 characters. *)
Theorem X2_finding_provenance
    (finditer : string → text → list Match)
    (root : FsNode) (checks : option (list string)) (f : Finding) :
  f ∈ findings (scan finditer root checks) →
  ∃ p d content rule m line,
    (p, d) ∈ _get_files root
    ∧ read_text d = Some content
    ∧ rule ∈ ALL_RULES
    ∧ m ∈ finditer rule.1.1 content
    ∧ file_path f = rel_str p
    ∧ rule_id f = rule.1.2
    ∧ description f = rule.2
    ∧ line_number f = count_nl (take (m_start m) content) + 1
    ∧ 1 ≤ line_number f ≤ length (split_nl content)
    ∧ split_nl content !! (line_number f - 1) = Some line
    ∧ code_snippet f = take 100 (strip line)
    ∧ length (code_snippet f) ≤ 100.
Proof.
  rewrite scan_found. simpl. intros Hin.
  apply list_elem_of_In, in_flat_map in Hin as ([p d] & Hpd & Hin).
  apply list_elem_of_In in Hpd, Hin.
  unfold file_findings in Hin. simpl in Hin.
  destruct (read_text d) as [content|] eqn:Hread; [|by apply elem_of_nil in Hin].
  apply elem_of_text_findings in Hin as (rule & m & cat & sev & remedy & Hr & Hm & ->).
  destruct (finding_of_line p content rule cat sev remedy m) as (line & Hrange & Hline & Hsnip).
  exists p, d, content, rule, m, line.
  destruct Hrange as [Hlo Hhi].
  split_and!; try done; try (by destruct rule as [[pat rid] descr]).
  all: rewrite Hsnip, length_take; lia.
Qed.

Lemma X2_witness_shell_call :
  Sample2.shell_call_finding ∈ findings (scan Regex.finditer Sample.project None)
  ∧ ∃ p d content rule m line,
      (p, d) ∈ _get_files Sample.project
      ∧ read_text d = Some content
      ∧ rule ∈ ALL_RULES
      ∧ m ∈ Regex.finditer rule.1.1 content
      ∧ file_path Sample2.shell_call_finding = rel_str p
      ∧ rule_id Sample2.shell_call_finding = rule.1.2
      ∧ description Sample2.shell_call_finding = rule.2
      ∧ line_number Sample2.shell_call_finding = count_nl (take (m_start m) content) + 1
      ∧ 1 ≤ line_number Sample2.shell_call_finding ≤ length (split_nl content)
      ∧ split_nl content !! (line_number Sample2.shell_call_finding - 1) = Some line
      ∧ code_snippet Sample2.shell_call_finding = take 100 (strip line)
      ∧ length (code_snippet Sample2.shell_call_finding) ≤ 100.
Proof.
  assert (Hin : Sample2.shell_call_finding
                ∈ findings (scan Regex.finditer Sample.project None)).
  { vm_compute. in_list. }
  exact (conj Hin
           (X2_finding_provenance Regex.finditer Sample.project None
              Sample2.shell_call_finding Hin)).
Defined.

(** ** Counts and severities *)

Lemma severity_cases (s : Severity) :
  s = CRITICAL ∨ s = HIGH ∨ s = MEDIUM ∨ s = LOW.
Proof. destruct s; tauto. Qed.

Lemma length_by_severity (fnd : list Finding) :
  length (filter (λ f, severity f = CRITICAL) fnd)
  + length (filter (λ f, severity f = HIGH) fnd)
  + length (filter (λ f, severity f = MEDIUM) fnd)
  + length (filter (λ f, severity f = LOW) fnd)
  = length fnd.
Proof.
  induction fnd as [|f fnd IH]; [done|].
  rewrite !filter_cons. destruct (severity f);
    repeat (rewrite decide_True by done || rewrite decide_False by done);
    simpl; lia.
Qed.

(** X3. In the JSON output of the scanner the four counts by severity
    add up to [total_findings], which is the number of entries of
    [findings]; [has_critical] holds exactly when the critical count is
    positive. *)
Theorem X3_json_counts_add_up (r : ScanResult) :
  (j_critical (scan_json r) + j_high (scan_json r)
   + j_medium (scan_json r) + j_low (scan_json r))%Z
  = j_total_findings (scan_json r)
  ∧ j_total_findings (scan_json r) = Z.of_nat (length (j_findings (scan_json r)))
  ∧ (has_critical r = true ↔ (0 < j_critical (scan_json r))%Z).
Proof.
  unfold scan_json, get_by_severity, has_critical. simpl. split_and!.
  - pose proof (length_by_severity (findings r)). lia.
  - by rewrite length_fmap.
  - rewrite bool_decide_eq_true. unfold get_by_severity. lia.
Qed.

(** Every finding of a text is CRITICAL or HIGH. *)
Lemma text_findings_severe finditer file content checks :
  Forall (λ f, severity f ∈ SCANNER_SEVERITIES)
         (text_findings finditer file content checks).
Proof.
  eapply Forall_impl; [apply text_findings_labelled|].
  intros f Hf. unfold LABELS in Hf. unfold SCANNER_SEVERITIES.
  list_cases Hf; injection Hf as _ ->; in_list.
Qed.

Lemma scan_severe finditer root checks :
  Forall (λ f, severity f ∈ SCANNER_SEVERITIES) (findings (scan finditer root checks)).
Proof.
  rewrite scan_found. simpl.
  induction (_get_files root) as [|[p d] files IH]; [constructor|].
  simpl. apply Forall_app_2; [|exact IH].
  unfold file_findings. simpl.
  destruct (read_text d); [apply text_findings_severe | constructor].
Qed.

Lemma filter_severity_all (min : Severity) (fnd : list Finding) :
  Forall (λ f, (value min ≤ value (severity f))%Z) fnd →
  filter_severity min fnd = fnd.
Proof.
  intros Hall. unfold filter_severity.
  induction Hall as [|f fnd Hf _ IH]; [done|].
  by rewrite filter_cons, decide_True, IH.
Qed.

(** X4. The scanner only ever reports CRITICAL and HIGH findings, so
    [--severity high], [--severity medium] and [--severity low] change
    nothing: the run (what is printed and the exit code) is the one
    without [--severity].  Only [--severity critical] filters. *)
Theorem X4_only_critical_threshold_filters
    (finditer : string → text → list Match)
    (fs : string → option FsNode) (args : Args) (min : Severity) :
  min ≠ CRITICAL →
  main finditer fs (Sample2.with_severity args (Some min))
  = main finditer fs (Sample2.with_severity args None).
Proof.
  intros Hmin. unfold main. simpl.
  destruct (fs (path args)) as [root|]; [|done].
  set (checks := if full args then None else check args).
  assert (Hkeep : filter_severity min (findings (scan finditer root checks))
                  = findings (scan finditer root checks)).
  { apply filter_severity_all. eapply Forall_impl; [apply scan_severe|].
    intros f Hf. unfold SCANNER_SEVERITIES in Hf.
    list_cases Hf; rewrite Hf; destruct min; simpl; done || lia. }
  rewrite Hkeep. by destruct (scan finditer root checks).
Qed.

Lemma X4_witness_medium :
  MEDIUM ≠ CRITICAL
  ∧ main Regex.finditer (Sample.fs_with Sample.project)
      (Sample2.with_severity Sample.strict_args (Some MEDIUM))
    = main Regex.finditer (Sample.fs_with Sample.project)
        (Sample2.with_severity Sample.strict_args None).
Proof.
  assert (Hmin : MEDIUM ≠ CRITICAL) by discriminate.
  exact (conj Hmin
           (X4_only_critical_threshold_filters Regex.finditer
              (Sample.fs_with Sample.project) Sample.strict_args MEDIUM Hmin)).
Defined.

(** [--severity critical] does filter: on the sample project it drops
    the HIGH finding. *)
Example critical_threshold_sample :
  length (findings (scan Regex.finditer Sample.project None)) = 4
  ∧ length (filter_severity CRITICAL (findings (scan Regex.finditer Sample.project None))) = 3.
Proof. by vm_compute. Qed.

(** ** Category selection *)

Lemma text_findings_sublist finditer file content checks :
  text_findings finditer file content checks
  `sublist_of` text_findings finditer file content None.
Proof.
  unfold text_findings. simpl.
  repeat apply sublist_app;
    match goal with
    | |- (if ?b then _ else _) `sublist_of` _ => destruct b; [done | apply sublist_nil_l]
    end.
Qed.

Lemma flat_map_sublist {A B} (f g : A → list B) (l : list A) :
  (∀ x, f x `sublist_of` g x) → flat_map f l `sublist_of` flat_map g l.
Proof.
  intros Hfg. induction l as [|x l IH]; [done|]. simpl. by apply sublist_app.
Qed.

(** X5. A category selection only removes findings: the findings of a
    scan under any selection are, in the same relative order, among
    those of the unrestricted scan, and the same files are counted.  A
    selection that names all six categories is no restriction. *)
Theorem X5_selection_only_removes
    (finditer : string → text → list Match)
    (root : FsNode) (checks : option (list string)) :
  findings (scan finditer root checks) `sublist_of` findings (scan finditer root None)
  ∧ files_scanned (scan finditer root checks) = files_scanned (scan finditer root None)
  ∧ ((∀ c, c ∈ DISPATCHED → wants c checks = true) →
     scan finditer root checks = scan finditer root None).
Proof.
  rewrite !scan_found. simpl. split_and!; [|done|].
  - apply flat_map_sublist. intros [p d]. unfold file_findings. simpl.
    destruct (read_text d); [apply text_findings_sublist | done].
  - intros Hall. f_equal.
    apply flat_map_ext. intros [p d]. unfold file_findings, text_findings. simpl.
    destruct (read_text d); [|done].
    by rewrite !Hall by (unfold DISPATCHED; in_list).
Qed.

(** On the sample project, selecting the secrets keeps the two findings
    of line 2 out of the four of the full scan. *)
Example selection_sample :
  rule_id <$> findings (scan Regex.finditer Sample.project (Some ["secrets"]))
  = ["SEC-011"; "SEC-012"]
  ∧ scan Regex.finditer Sample.project (Some DISPATCHED)
    = scan Regex.finditer Sample.project None.
Proof. by vm_compute. Qed.

(** ** A target that is a plain file *)

(** X6. When the target path exists but is a plain file, not a
    directory, nothing is scanned, whatever the file holds: the result
    printed has no finding and counts no file, and the exit code is 0
    even with [--fail-on-findings]. *)
Theorem X6_plain_file_target_scans_nothing
    (finditer : string → text → list Match)
    (fs : string → option FsNode) (args : Args) (fname : string) (d : FileData) :
  fs (path args) = Some (FsFile fname d) →
  main finditer fs args
  = {| events :=
         [Scanned (FsFile fname d) (if full args then None else check args);
          Printed (print_results {| findings := []; files_scanned := 0 |} (json args))];
       exit_code := 0 |}.
Proof.
  intros Hroot. rewrite (main_prints finditer fs args _ Hroot).
  rewrite scan_found. simpl.
  destruct (min_severity args); simpl; by rewrite andb_false_r.
Qed.

Lemma X6_witness_source_file :
  Sample2.single_file (path Sample.strict_args)
  = Some (FsFile "app.py" (Sample.source Sample.app_py))
  ∧ main Regex.finditer Sample2.single_file Sample.strict_args
    = {| events :=
           [Scanned (FsFile "app.py" (Sample.source Sample.app_py))
              (if full Sample.strict_args then None else check Sample.strict_args);
            Printed (print_results {| findings := []; files_scanned := 0 |}
                       (json Sample.strict_args))];
         exit_code := 0 |}.
Proof.
  assert (Hroot : Sample2.single_file (path Sample.strict_args)
                  = Some (FsFile "app.py" (Sample.source Sample.app_py)))
    by reflexivity.
  exact (conj Hroot
           (X6_plain_file_target_scans_nothing Regex.finditer Sample2.single_file
              Sample.strict_args "app.py" (Sample.source Sample.app_py) Hroot)).
Defined.

(** ** The dependency checker as a function of its manifests *)

(** What a package check appends to an empty collection: the
    hallucination finding if the lower-cased name is denylisted, one
    finding per advisory catalogued for it, and for npm the finding of
    an unpinned version. *)
Lemma check_package_exact e pkg ver file :
  check_package e pkg ver file []
  = (if str_in (lower pkg) (denylist e)
     then [Deps.hallucinated_finding pkg ver file (hall_remedy e)] else [])
    ++ (Deps.vulnerable_finding pkg ver file (vuln_remedy e pkg)
        <$> advisories e (lower pkg))
    ++ match e, ver with
       | Npm, Some v => if unpinned ver then [Deps.suspicious_finding pkg v file] else []
       | _, _ => []
       end.
Proof.
  assert (Hnokey : ∀ (d : Deps.dict (list (string * string))) key,
             Deps.has_key d key = false → Deps.item [] d key = []).
  { intros d key. unfold Deps.has_key, str_in. rewrite bool_decide_eq_false.
    induction d as [|[k v] d IH]; [done|]. simpl. intros Hnot.
    apply not_elem_of_cons in Hnot as [Hne Hnot].
    destruct (String.eqb_spec k key) as [->|_]; [done|]. by apply IH. }
  destruct e; simpl; unfold denylist, advisories; simpl eco_key.
  - unfold Deps._check_python_package.
    destruct (str_in (lower pkg) _), (Deps.has_key _ _) eqn:Hk;
      rewrite ?foldl_snoc_each, ?(Hnokey _ _ Hk), ?app_nil_r; reflexivity.
  - unfold Deps._check_npm_package, unpinned.
    destruct (str_in (lower pkg) _), (Deps.has_key _ _) eqn:Hk, ver as [v|];
      try destruct (str_in v _);
      rewrite ?foldl_snoc_each, ?(Hnokey _ _ Hk), ?app_nil_r, <- ?app_assoc; reflexivity.
Qed.

Lemma filter_vulnerable_findings (P : Deps.DependencyFinding → Prop)
    `{!∀ x, Decision (P x)} pkg ver file remedy (advs : list (string * string)) :
  (∀ adv, P (Deps.vulnerable_finding pkg ver file remedy adv)) →
  filter P (Deps.vulnerable_finding pkg ver file remedy <$> advs)
  = Deps.vulnerable_finding pkg ver file remedy <$> advs.
Proof.
  intros HP. induction advs as [|adv advs IH]; [done|].
  rewrite fmap_cons, filter_cons, decide_True by done. by rewrite IH.
Qed.

Lemma filter_no_vulnerable_findings (P : Deps.DependencyFinding → Prop)
    `{!∀ x, Decision (P x)} pkg ver file remedy (advs : list (string * string)) :
  (∀ adv, ¬ P (Deps.vulnerable_finding pkg ver file remedy adv)) →
  filter P (Deps.vulnerable_finding pkg ver file remedy <$> advs) = [].
Proof.
  intros HP. induction advs as [|adv advs IH]; [done|].
  rewrite fmap_cons, filter_cons, decide_False by done. exact IH.
Qed.

(** X7. The lookup of known vulnerabilities goes by the lower-cased
    name alone.  Whatever version is declared, also none or one outside
    the catalogued range, the check reports one HIGH 'vulnerable'
    finding per advisory catalogued for the name, each naming the range
    label and the advisory, and carrying the version as declared. *)
Theorem X7_vulnerable_lookup_ignores_version
    (e : Ecosystem) (pkg : string) (ver : option string) (file : string) :
  filter (λ f, Deps.issue_type f = "vulnerable") (check_package e pkg ver file [])
  = (λ adv, {| Deps.package := pkg;
               Deps.version := ver;
               Deps.issue_type := "vulnerable";
               Deps.severity := "HIGH";
               Deps.description := pkg +:+ " " +:+ adv.1 +:+ ": " +:+ adv.2;
               Deps.file_path := file;
               Deps.remediation := vuln_remedy e pkg |})
    <$> advisories e (lower pkg).
Proof.
  rewrite check_package_exact, !filter_app.
  rewrite (filter_vulnerable_findings (λ f, Deps.issue_type f = "vulnerable")) by done.
  assert (Hhall : ∀ l, filter (λ f, Deps.issue_type f = "vulnerable")
                    (if str_in (lower pkg) (denylist e)
                     then [Deps.hallucinated_finding pkg ver file (hall_remedy e)]
                     else []) ++ l = l).
  { intros l. by destruct (str_in _ _). }
  rewrite Hhall.
  destruct e, ver as [v|]; try destruct (unpinned _); by rewrite ?app_nil_r.
Qed.

(** A pinned version above the catalogued range is reported all the
    same, under any spelling of the name. *)
Example vulnerable_sample :
  (λ f, (Deps.version f, Deps.severity f, Deps.description f))
  <$> Deps._check_npm_package "Axios" (Some "99.0.0") "package.json" []
  = [(Some "99.0.0", "HIGH", "Axios < 1.6.0: SSRF vulnerability")].
Proof. by vm_compute. Qed.

(** X8. The unpinned-version heuristic exists for npm only.  The npm
    check reports one MEDIUM 'suspicious' finding exactly when the
    declared version is the string "*", "latest" or the empty string;
    a missing version is not reported.  The Python check never reports
    a 'suspicious' finding, whatever the version. *)
Theorem X8_unpinned_versions_npm_only
    (pkg : string) (ver : option string) (file : string) :
  filter (λ f, Deps.issue_type f = "suspicious")
         (Deps._check_npm_package pkg ver file [])
  = match ver with
    | Some v =>
        if bool_decide (v = "*" ∨ v = "latest" ∨ v = EmptyString)
        then [ {| Deps.package := pkg;
                  Deps.version := Some v;
                  Deps.issue_type := "suspicious";
                  Deps.severity := "MEDIUM";
                  Deps.description :=
                    "Package " +:+ Deps.DQ +:+ pkg +:+ Deps.DQ
                    +:+ " uses unpinned version " +:+ Deps.DQ +:+ v +:+ Deps.DQ;
                  Deps.file_path := file;
                  Deps.remediation :=
                    "Pin to specific version: npm install pkg@x.y.z --save-exact" |} ]
        else []
    | None => []
    end
  ∧ filter (λ f, Deps.issue_type f = "suspicious")
           (Deps._check_python_package pkg ver file []) = [].
Proof.
  assert (Hhall : ∀ e, filter (λ f, Deps.issue_type f = "suspicious")
                    (if str_in (lower pkg) (denylist e)
                     then [Deps.hallucinated_finding pkg ver file (hall_remedy e)]
                     else []) = []).
  { intros e. by destruct (str_in _ _). }
  split.
  - change (Deps._check_npm_package pkg ver file [])
      with (check_package Npm pkg ver file []).
    rewrite check_package_exact, !filter_app, Hhall.
    rewrite (filter_no_vulnerable_findings (λ f, Deps.issue_type f = "suspicious")) by done.
    simpl.
    destruct ver as [v|]; [|done]. unfold unpinned, str_in.
    assert (Hiff : v ∈ ["*"; "latest"; EmptyString]
                   ↔ v = "*" ∨ v = "latest" ∨ v = EmptyString).
    { rewrite !elem_of_cons, elem_of_nil. tauto. }
    rewrite (bool_decide_ext _ _ Hiff). by case_bool_decide.
  - change (Deps._check_python_package pkg ver file [])
      with (check_package Python pkg ver file []).
    rewrite check_package_exact, !filter_app, Hhall.
    rewrite (filter_no_vulnerable_findings (λ f, Deps.issue_type f = "suspicious")) by done.
    by destruct ver.
Qed.

Lemma manifest_loop e file (pkgs : Deps.dict (option string)) (st : Deps.Findings) :
  foldl (λ st '(pkg, ver), check_package e pkg ver file st) st pkgs
  = st ++ manifest_findings e file pkgs.
Proof.
  revert st. induction pkgs as [|[pkg ver] pkgs IH]; intros st; simpl.
  - by rewrite app_nil_r.
  - rewrite IH, check_package_appends. by rewrite <- app_assoc.
Qed.

Lemma check_requirements_files_appends m st :
  Deps._check_requirements_files m st = st ++ requirements_findings m.
Proof.
  unfold Deps._check_requirements_files, requirements_findings.
  revert st. induction (Deps.requirements m) as [|[file parsed] l IH]; intros st; simpl.
  - by rewrite app_nil_r.
  - rewrite IH. destruct parsed as [pkgs|]; [|done].
    rewrite (manifest_loop Python). by rewrite <- app_assoc.
Qed.

Lemma manifest_findings_app e file (pkgs pkgs' : Deps.dict (option string)) :
  manifest_findings e file (pkgs ++ pkgs')
  = manifest_findings e file pkgs ++ manifest_findings e file pkgs'.
Proof. unfold manifest_findings. apply flat_map_app. Qed.

(** The loop over the two dependency keys of one manifest appends the
    findings of the entries that are checked. *)
Lemma check_tables_appends file (content : Deps.PackageJson) (st : Deps.Findings) :
  Deps.check_tables file [Deps.dependencies content; Deps.devDependencies content] st
  = st ++ manifest_findings Npm file (checked_entries content).
Proof.
  unfold checked_entries.
  destruct (Deps.dependencies content) as [[deps|]|],
           (Deps.devDependencies content) as [[dev|]|]; simpl;
    rewrite ?manifest_findings_app, ?(manifest_loop Npm), ?app_nil_r, <- ?app_assoc;
    reflexivity.
Qed.

Lemma check_package_json_appends m st :
  Deps._check_package_json m st = st ++ package_json_findings m.
Proof.
  unfold Deps._check_package_json, package_json_findings.
  revert st. induction (Deps.package_jsons m) as [|[file parsed] l IH]; intros st;
    cbn [foldl flat_map].
  - by rewrite app_nil_r.
  - rewrite IH. destruct parsed as [content|]; [|done].
    by rewrite check_tables_appends, <- app_assoc.
Qed.

(** X9. The dependency check returns, in this order and without
    removing duplicates: the findings of pip-audit, those of npm audit,
    those of the requirements files, those of the [package.json] files.
    Each declared package is checked on its own, audit findings pass
    through unchanged, and a manifest that could not be read or parsed
    contributes nothing without stopping the others.  Of a
    [package.json] the dependencies are checked and then the
    devDependencies, each when the key is present and holds an object;
    when [dependencies] holds something else, nothing of that manifest
    is checked, its devDependencies included; when only
    [devDependencies] holds something else, the dependencies are
    checked all the same. *)
Theorem X9_check_is_concatenation (m : Deps.Manifests) :
  Deps.check m
  = Deps.pip_audit m ++ Deps.npm_audit m
    ++ flat_map (λ '(file, parsed),
                   match parsed with
                   | Some pkgs =>
                       flat_map (λ '(pkg, ver),
                                   Deps._check_python_package pkg ver file []) pkgs
                   | None => []
                   end)
                (Deps.requirements m)
    ++ flat_map (λ '(file, parsed),
                   let checked (deps : Deps.dict (option string)) :=
                     flat_map (λ '(pkg, ver), Deps._check_npm_package pkg ver file [])
                              deps in
                   match parsed with
                   | Some content =>
                       let dev :=
                         match Deps.devDependencies content with
                         | Some (Deps.Object deps) => checked deps
                         | Some Deps.NotObject => []
                         | None => []
                         end in
                       match Deps.dependencies content with
                       | Some (Deps.Object deps) => checked deps ++ dev
                       | Some Deps.NotObject => []
                       | None => dev
                       end
                   | None => []
                   end)
                (Deps.package_jsons m).
Proof.
  unfold Deps.check, Deps._check_python_deps, Deps._check_npm_deps.
  rewrite check_package_json_appends, check_requirements_files_appends.
  simpl. rewrite <- !app_assoc. do 3 f_equal.
  unfold package_json_findings. apply flat_map_ext. intros [file [content|]]; [|done].
  unfold checked_entries.
  destruct (Deps.dependencies content) as [[deps|]|],
           (Deps.devDependencies content) as [[dev|]|]; simpl;
    rewrite ?manifest_findings_app, ?app_nil_r; reflexivity.
Qed.

(** A [package.json] whose [dependencies] is [null] gets no finding,
    although its devDependencies declare a package with an advisory
    and an unpinned version; with the two keys the other way round the
    package is reported. *)
Example null_table_sample :
  Deps.check Sample2.null_dependencies = []
  ∧ Deps.issue_type <$> Deps.check Sample2.null_dev_dependencies
    = ["vulnerable"; "suspicious"].
Proof. by vm_compute. Qed.

(** A package declared in both tables of a [package.json] is reported
    twice. *)
Example check_twice_sample :
  Deps.issue_type
  <$> Deps.check
        {| Deps.pip_audit := []; Deps.npm_audit := [];
           Deps.requirements := [("requirements.txt", None)];
           Deps.package_jsons :=
             [("package.json",
               Some {| Deps.dependencies :=
                         Some (Deps.Object [("react-utils", Some "1.0.0")]);
                       Deps.devDependencies :=
                         Some (Deps.Object [("react-utils", Some "1.0.0")]) |})] |}
  = ["hallucinated"; "hallucinated"].
Proof. by vm_compute. Qed.

(** X10. What kinds of findings a package gets depends only on its
    lower-cased name and, for npm, on whether the version is one of the
    unpinned spellings: two spellings of a name that differ in letter
    case get findings of the same types and severities, in the same
    order. *)
Theorem X10_name_case_is_ignored
    (e : Ecosystem) (pkg pkg' : string) (ver : option string) (file : string) :
  lower pkg = lower pkg' →
  (λ f, (Deps.issue_type f, Deps.severity f, Deps.version f, Deps.file_path f))
  <$> check_package e pkg ver file []
  = (λ f, (Deps.issue_type f, Deps.severity f, Deps.version f, Deps.file_path f))
    <$> check_package e pkg' ver file [].
Proof.
  intros Hlow. rewrite !check_package_exact, !fmap_app, <- !list_fmap_compose, Hlow.
  f_equal; [by destruct (str_in _ _)|]. f_equal.
  destruct e, ver as [v|]; try destruct (unpinned _); done.
Qed.

Lemma X10_witness_flask :
  lower "Flask" = lower "FLASK"
  ∧ (λ f, (Deps.issue_type f, Deps.severity f, Deps.version f, Deps.file_path f))
    <$> check_package Python "Flask" (Some "2.0.0") "requirements.txt" []
    = (λ f, (Deps.issue_type f, Deps.severity f, Deps.version f, Deps.file_path f))
      <$> check_package Python "FLASK" (Some "2.0.0") "requirements.txt" [].
Proof.
  assert (Hlow : lower "Flask" = lower "FLASK") by reflexivity.
  exact (conj Hlow
           (X10_name_case_is_ignored Python "Flask" "FLASK" (Some "2.0.0")
              "requirements.txt" Hlow)).
Defined.

(** The requirements entry [flask==2.0.0] gets the one advisory
    catalogued for flask and nothing else. *)
Example flask_sample :
  (λ f, (Deps.package f, Deps.issue_type f, Deps.severity f, Deps.description f))
  <$> Deps._check_python_package "flask" (Some "2.0.0") "requirements.txt" []
  = [("flask", "vulnerable", "HIGH", "flask < 2.3.2: Security updates")].
Proof. by vm_compute. Qed.

(** ** Exit code of the dependency checker *)


(** With the flag, one unpinned version is enough to fail the run. *)
Example deps_exit_sample :
  Deps.exit_code
    (Deps.main (λ _, Some (Sample.package_json "left-pad" (Some "latest")))
       {| Deps.path := "proj"; Deps.json := false; Deps.fail_on_findings := true |})
  = 1%Z
  ∧ Deps.severity
    <$> Deps.check (Sample.package_json "left-pad" (Some "latest")) = ["MEDIUM"].
Proof. by vm_compute. Qed.

(** ** When report generation raises *)

Lemma forallb_icons (fs : list Deps.DepFindingJson) :
  forallb (λ f, str_in (Deps.j_severity f) Report.DEP_ICONS) fs = false
  ↔ ∃ f, f ∈ fs ∧ Deps.j_severity f ∉ Report.DEP_ICONS.
Proof.
  induction fs as [|f fs IH]; simpl.
  - split; [done|]. intros (f & Hf & _). by apply elem_of_nil in Hf.
  - rewrite andb_false_iff, IH. unfold str_in. rewrite bool_decide_eq_false. split.
    + intros [Hf|(g & Hg & Hs)]; [exists f | exists g];
        (split; [|done]); [apply list_elem_of_here | by apply list_elem_of_further].
    + intros (g & Hg & Hs). apply elem_of_cons in Hg as [->|Hg]; [by left|].
      right. by exists g.
Qed.

(** X12. Generating the Markdown report raises in exactly three cases:
    the security scan gave no output (its entry of [results] is
    [None]), the dependency check gave none, or some dependency finding
    has a severity other than CRITICAL, HIGH and MEDIUM, for which the
    report has no icon.  An entry that only carries an error does not
    make it raise. *)
Theorem X12_markdown_report_raises (results : Report.Results) :
  Report.generate_markdown_report results = None
  ↔ Report.security_findings results = Report.Absent
    ∨ Report.dependency_findings results = Report.Absent
    ∨ ∃ j f, Report.dependency_findings results = Report.Value j
             ∧ f ∈ Deps.j_findings j
             ∧ Deps.j_severity f ∉ Report.DEP_ICONS.
Proof.
  unfold Report.generate_markdown_report, Report.executive_summary.
  destruct (Report.security_findings results) as [|msg|j] eqn:Hsec; simpl.
  - split; [by left|done].
  - destruct (Report.dependency_findings results) as [|msg'|j'] eqn:Hdep; simpl.
    + split; [by right; left|done].
    + split; [done|]. intros [?|[?|(j & f & ? & _)]]; done.
    + destruct (forallb _ _) eqn:Hall.
      * split; [done|]. intros [?|[?|(j & f & [= <-] & Hf & Hs)]]; try done.
        assert (forallb (λ f, str_in (Deps.j_severity f) Report.DEP_ICONS)
                        (Deps.j_findings j') = false) as Hno
          by (apply forallb_icons; by exists f).
        congruence.
      * split; [|done]. intros _. right; right.
        apply forallb_icons in Hall as (f & Hf & Hs). by exists j', f.
  - destruct (Report.dependency_findings results) as [|msg'|j'] eqn:Hdep; simpl.
    + split; [by right; left|done].
    + split; [done|]. intros [?|[?|(j0 & f & ? & _)]]; done.
    + destruct (forallb _ _) eqn:Hall.
      * split; [done|]. intros [?|[?|(j0 & f & [= <-] & Hf & Hs)]]; try done.
        assert (forallb (λ f, str_in (Deps.j_severity f) Report.DEP_ICONS)
                        (Deps.j_findings j') = false) as Hno
          by (apply forallb_icons; by exists f).
        congruence.
      * split; [|done]. intros _. right; right.
        apply forallb_icons in Hall as (f & Hf & Hs). by exists j', f.
Qed.

(** The package checks only use severities the report has an icon
    for. *)
Lemma check_package_icons e pkg ver file :
  Forall (λ f, Deps.severity f ∈ Report.DEP_ICONS) (check_package e pkg ver file []).
Proof.
  rewrite check_package_exact. unfold Report.DEP_ICONS.
  repeat apply Forall_app_2.
  - destruct (str_in _ _); repeat constructor.
  - apply Forall_fmap, Forall_forall. intros adv _. simpl. in_list.
  - destruct e, ver as [v|]; try destruct (unpinned _); repeat constructor.
Qed.

Lemma manifest_findings_icons e file pkgs :
  Forall (λ f, Deps.severity f ∈ Report.DEP_ICONS) (manifest_findings e file pkgs).
Proof.
  unfold manifest_findings. induction pkgs as [|[pkg ver] pkgs IH]; [constructor|].
  simpl. apply Forall_app_2; [apply check_package_icons | exact IH].
Qed.

Lemma requirements_findings_icons m :
  Forall (λ f, Deps.severity f ∈ Report.DEP_ICONS) (requirements_findings m).
Proof.
  unfold requirements_findings.
  induction (Deps.requirements m) as [|[file parsed] l IH]; [constructor|].
  simpl. apply Forall_app_2; [|exact IH].
  destruct parsed; [apply manifest_findings_icons | constructor].
Qed.

Lemma package_json_findings_icons m :
  Forall (λ f, Deps.severity f ∈ Report.DEP_ICONS) (package_json_findings m).
Proof.
  unfold package_json_findings.
  induction (Deps.package_jsons m) as [|[file parsed] l IH]; [constructor|].
  simpl. apply Forall_app_2; [|exact IH].
  destruct parsed; [apply manifest_findings_icons | constructor].
Qed.

Lemma check_sources (m : Deps.Manifests) :
  Deps.check m
  = (Deps.pip_audit m ++ Deps.npm_audit m)
    ++ requirements_findings m ++ package_json_findings m.
Proof.
  unfold Deps.check, Deps._check_python_deps, Deps._check_npm_deps.
  rewrite check_package_json_appends, check_requirements_files_appends.
  simpl. by rewrite <- !app_assoc.
Qed.

(** A finding of the check without an icon is a finding of one of the
    audit tools. *)
Lemma no_icon_from_audit (m : Deps.Manifests) :
  (∃ f, f ∈ Deps.j_findings (Deps.deps_json (Deps.check m))
        ∧ Deps.j_severity f ∉ Report.DEP_ICONS)
  ↔ ∃ f, f ∈ Deps.pip_audit m ++ Deps.npm_audit m ∧ no_icon f.
Proof.
  unfold Deps.deps_json, no_icon. simpl. rewrite check_sources. split.
  - intros (j & Hj & Hs). apply list_elem_of_fmap in Hj as (f & -> & Hf).
    exists f. split; [|done]. simpl in Hs.
    apply elem_of_app in Hf as [Hf|Hf]; [done|]. exfalso. apply Hs.
    pose proof (requirements_findings_icons m) as Hr.
    pose proof (package_json_findings_icons m) as Hp.
    rewrite Forall_forall in Hr, Hp.
    apply elem_of_app in Hf as [Hf|Hf]; [by apply Hr | by apply Hp].
  - intros (f & Hf & Hs). exists (Deps.finding_json f). split; [|done].
    apply list_elem_of_fmap. exists f. split; [done|]. apply elem_of_app. by left.
Qed.

(** [main] on a path that exists, by the document it builds. *)
Lemma main_document finditer (w : Report.World) (args : Report.Args) (root : FsNode) :
  Report.fs w (Report.path args) = Some root →
  Report.main finditer w args
  = let started := [Report.Printed "Running security analysis...";
                    Report.RanChecks (Report.path args)] in
    match document finditer w args with
    | None => {| Report.events := started; Report.exit_code := 1 |}
    | Some d =>
        if Report.writable w (Report.output args)
        then {| Report.events :=
                  started ++ [Report.Emitted d (Report.output args)]
                  ++ match Report.output args with
                     | Some file => [Report.Printed ("Report saved to: " +:+ file)]
                     | None => []
                     end;
                Report.exit_code := 0 |}
        else {| Report.events := started; Report.exit_code := 1 |}
    end.
Proof. intros Hroot. unfold Report.main, document. by rewrite Hroot. Qed.

Lemma markdown_none (results : Report.Results) :
  Report.generate_markdown_report results = None
  ↔ Report.security_findings results = Report.Absent
    ∨ Report.dependency_findings results = Report.Absent
    ∨ ∃ j, Report.dependency_findings results = Report.Value j
           ∧ forallb (λ f, str_in (Deps.j_severity f) Report.DEP_ICONS)
                     (Deps.j_findings j) = false.
Proof.
  unfold Report.generate_markdown_report, Report.executive_summary.
  destruct (Report.security_findings results) as [|msg|j];
    destruct (Report.dependency_findings results) as [|msg'|j']; simpl;
    try destruct (forallb _ _) eqn:Hall;
    split; try done; try tauto;
    try (intros [?|[?|(j0 & ? & ?)]]; congruence);
    intros _; right; right; by exists j'.
Qed.

Lemma sarif_none (results : Report.Results) :
  Report.generate_sarif_report results = None
  ↔ Report.security_findings results = Report.Absent.
Proof.
  unfold Report.generate_sarif_report.
  destruct (Report.security_findings results) as [|msg|j]; simpl;
    try destruct (foldl _ _ _) as [[seen rules] out]; done.
Qed.

(** When the Markdown report of a path that exists raises. *)
Lemma markdown_none_on_path finditer (w : Report.World) (p : string) (root : FsNode) :
  Report.fs w p = Some root →
  Report.generate_markdown_report (Report.run_all_checks finditer w p) = None
  ↔ no_markdown w p.
Proof.
  intros Hroot.
  destruct (run_all_checks_entries finditer w p root Hroot) as [Hs Hd].
  rewrite markdown_none, Hs, Hd. unfold no_markdown.
  pose proof (no_icon_from_audit (Report.manifests w p)) as Haudit.
  pose proof (forallb_icons (Deps.j_findings
                (Deps.deps_json (Deps.check (Report.manifests w p))))) as Hicons.
  destruct (Report.scan_launch w p), (Report.deps_launch w p);
    split; try tauto;
    try (intros [?|[?|(j & ? & ?)]]; (done || tauto));
    try (intros [?|[?|(? & ?)]]; (done || tauto)).
  - intros [?|[?|(j & [= <-] & Hall)]]; try done.
    right; right. split; [done|]. by apply Haudit, Hicons.
  - intros [?|[?|(_ & Hex)]]; try done.
    right; right. eexists. split; [done|]. by apply Hicons, Haudit.
  - intros [?|[?|(j & [= <-] & Hall)]]; try done.
    right; right. split; [done|]. by apply Haudit, Hicons.
  - intros [?|[?|(_ & Hex)]]; try done.
    right; right. eexists. split; [done|]. by apply Hicons, Haudit.
Qed.

(** When the SARIF report of a path that exists raises. *)
Lemma sarif_none_on_path finditer (w : Report.World) (p : string) (root : FsNode) :
  Report.fs w p = Some root →
  Report.generate_sarif_report (Report.run_all_checks finditer w p) = None
  ↔ Report.scan_launch w p = Report.Failed.
Proof.
  intros Hroot.
  destruct (run_all_checks_entries finditer w p root Hroot) as [Hs _].
  rewrite sarif_none, Hs. by destruct (Report.scan_launch w p).
Qed.

Lemma document_none finditer (w : Report.World) (args : Report.Args) (root : FsNode) :
  Report.fs w (Report.path args) = Some root →
  document finditer w args = None ↔ no_document w args.
Proof.
  intros Hroot. unfold document, no_document.
  pose proof (markdown_none_on_path finditer w _ root Hroot) as Hmd.
  pose proof (sarif_none_on_path finditer w _ root Hroot) as Hsarif.
  destruct (Report.format args).
  - rewrite fmap_None, Hmd. intuition discriminate.
  - intuition discriminate.
  - rewrite fmap_None, Hsarif. intuition discriminate.
Qed.

(** X13. On a target path that exists, the report generator ends with
    exit code 1 exactly when no document can be built or the report
    cannot be written to its destination, and with exit code 0
    otherwise; it emits the report exactly when it ends with 0.  No
    document can be built when the format is Markdown and the scanner
    or the dependency checker returned a non-zero code (a path that
    starts with ['-']), or an audit tool contributed a finding whose
    severity is not CRITICAL, HIGH or MEDIUM (npm audit also reports
    others); and when the format is SARIF and the scanner returned a
    non-zero code.  The JSON document can always be built: for that
    format only the writing can fail. *)
Theorem X13_report_exit_code
    (finditer : string → text → list Match) (w : Report.World)
    (args : Report.Args) (root : FsNode) :
  Report.fs w (Report.path args) = Some root →
  let run := Report.main finditer w args in
  (Report.exit_code run = 1%Z ↔ no_document w args ∨ not_written w args)
  ∧ (Report.exit_code run = 0%Z ↔ ¬ (no_document w args ∨ not_written w args))
  ∧ (Report.exit_code run = 0%Z
     ↔ ∃ doc, Report.Emitted doc (Report.output args) ∈ Report.events run)
  ∧ (Report.format args = Report.json →
     Report.exit_code run = 1%Z ↔ not_written w args).
Proof.
  intros Hroot run.
  match goal with
  | |- ?A ∧ ?B ∧ ?C ∧ _ => cut (A ∧ B ∧ C)
  end.
  { intros (H1 & H2 & H3). split_and!; try done.
    intros Hfmt. rewrite H1. unfold no_document. rewrite Hfmt.
    intuition discriminate. }
  unfold run. rewrite (main_document _ _ _ _ Hroot).
  pose proof (document_none finditer w args root Hroot) as Hnone.
  assert (Hno : ¬ ∃ doc, Report.Emitted doc (Report.output args)
                         ∈ [Report.Printed "Running security analysis...";
                            Report.RanChecks (Report.path args)]).
  { intros (doc & Hin). by list_cases Hin. }
  unfold not_written. cbv zeta.
  destruct (document finditer w args) as [d|].
  - assert (Hdoc : ¬ no_document w args) by (intros H; by apply Hnone in H).
    destruct (Report.writable w (Report.output args)); simpl; split_and!.
    + split; [done|]. by intros [?|?].
    + split; [|done]. by intros _ [?|?].
    + split; [|done]. intros _. exists d. in_list.
    + split; [|done]. intros _. by right.
    + split; [done|]. intros Hnot. destruct Hnot. by right.
    + split; [done|]. intros Hex. by destruct Hno.
  - assert (Hdoc : no_document w args) by by apply Hnone.
    simpl. split_and!.
    + split; [|done]. intros _. by left.
    + split; [done|]. intros Hnot. destruct Hnot. by left.
    + split; [done|]. intros Hex. by destruct Hno.
Qed.

Lemma X13_witness_low_audit_finding :
  Report.fs Sample2.audited_world (Report.path (Sample2.report_as Report.markdown))
  = Some Sample.project
  ∧ (Report.exit_code
       (Report.main Regex.finditer Sample2.audited_world
          (Sample2.report_as Report.markdown)) = 1%Z
     ↔ no_document Sample2.audited_world (Sample2.report_as Report.markdown)
       ∨ not_written Sample2.audited_world (Sample2.report_as Report.markdown))
  ∧ (Report.exit_code
       (Report.main Regex.finditer Sample2.audited_world
          (Sample2.report_as Report.markdown)) = 0%Z
     ↔ ¬ (no_document Sample2.audited_world (Sample2.report_as Report.markdown)
          ∨ not_written Sample2.audited_world (Sample2.report_as Report.markdown)))
  ∧ (Report.exit_code
       (Report.main Regex.finditer Sample2.audited_world
          (Sample2.report_as Report.markdown)) = 0%Z
     ↔ ∃ doc, Report.Emitted doc (Report.output (Sample2.report_as Report.markdown))
              ∈ Report.events
                  (Report.main Regex.finditer Sample2.audited_world
                     (Sample2.report_as Report.markdown)))
  ∧ (Report.format (Sample2.report_as Report.markdown) = Report.json →
     Report.exit_code
       (Report.main Regex.finditer Sample2.audited_world
          (Sample2.report_as Report.markdown)) = 1%Z
     ↔ not_written Sample2.audited_world (Sample2.report_as Report.markdown)).
Proof.
  assert (Hroot : Report.fs Sample2.audited_world
                    (Report.path (Sample2.report_as Report.markdown))
                  = Some Sample.project) by reflexivity.
  exact (conj Hroot
           (X13_report_exit_code Regex.finditer Sample2.audited_world
              (Sample2.report_as Report.markdown) Sample.project Hroot)).
Defined.

(** With the finding of low severity from npm audit, the Markdown
    report fails and the two other formats do not. *)
Example report_formats_sample :
  Report.exit_code
    (Report.main Regex.finditer Sample2.audited_world (Sample2.report_as Report.markdown))
  = 1%Z
  ∧ Report.exit_code
      (Report.main Regex.finditer Sample2.audited_world (Sample2.report_as Report.json))
    = 0%Z
  ∧ Report.exit_code
      (Report.main Regex.finditer Sample2.audited_world (Sample2.report_as Report.sarif))
    = 0%Z.
Proof. by vm_compute. Qed.

(** When the scanner returns a non-zero code the Markdown and the SARIF
    report fail and the JSON document is emitted; when the output file
    cannot be written the run fails although the report was built. *)
Example report_failures_sample :
  let rejected :=
    Sample2.launched Report.Failed Report.Completed Sample.project_world in
  let read_only :=
    Sample2.launched Report.Completed Report.Completed Sample.project_world in
  Report.exit_code (Report.main Regex.finditer rejected (Sample2.report_as Report.markdown))
  = 1%Z
  ∧ Report.exit_code (Report.main Regex.finditer rejected (Sample2.report_as Report.sarif))
    = 1%Z
  ∧ Report.exit_code (Report.main Regex.finditer rejected (Sample2.report_as Report.json))
    = 0%Z
  ∧ Report.exit_code
      (Report.main Regex.finditer read_only (Sample2.report_as Report.markdown))
    = 0%Z
  ∧ Report.exit_code
      (Report.main Regex.finditer read_only (Sample2.report_to Report.markdown "out.md"))
    = 1%Z.
Proof. by vm_compute. Qed.

(** ** The SARIF document *)

(** The state of the loop of [generate_sarif_report] after a list of
    findings: the rules are those seen, each once, and every finding
    has its result. *)
Lemma sarif_loop (fs : list FindingJson) (seen : list string)
    (rules : list Report.SarifRule) (out : list Report.SarifResult) :
  seen = Report.sr_id <$> rules →
  NoDup seen →
  ∃ seen' rules',
    foldl (λ (acc : list string * list Report.SarifRule * list Report.SarifResult)
             (f : FindingJson),
             let '(seen, rules, out) := acc in
             let id := j_rule_id f in
             let lvl := Report.sarif_level (j_severity f) in
             let res := {| Report.res_rule := id; Report.res_level := lvl;
                           Report.res_message := j_description f;
                           Report.res_uri := j_file f; Report.res_line := j_line f |} in
             if str_in id seen then (seen, rules, out ++ [res])
             else (seen ++ [id],
                   rules ++ [{| Report.sr_id := id; Report.sr_name := j_description f;
                                Report.sr_level := lvl |}],
                   out ++ [res]))
          (seen, rules, out) fs
    = (seen', rules', out ++ (sarif_result <$> fs))
    ∧ seen' = Report.sr_id <$> rules'
    ∧ NoDup seen'
    ∧ (∀ id, id ∈ seen' ↔ id ∈ seen ∨ id ∈ j_rule_id <$> fs)
    ∧ (∀ r, r ∈ rules' →
         r ∈ rules
         ∨ ∃ f, f ∈ fs ∧ Report.sr_id r = j_rule_id f
                ∧ Report.sr_name r = j_description f
                ∧ Report.sr_level r = Report.sarif_level (j_severity f)).
Proof.
  revert seen rules out. induction fs as [|f fs IH]; intros seen rules out Hseen Hnd.
  - exists seen, rules. simpl. rewrite app_nil_r. split_and!; try done.
    + intros id. rewrite elem_of_nil. tauto.
    + intros r Hr. by left.
  - cbn [foldl]. destruct (str_in (j_rule_id f) seen) eqn:Hstr;
      unfold str_in in Hstr;
      [apply bool_decide_eq_true in Hstr as Hin | apply bool_decide_eq_false in Hstr as Hin].
    + destruct (IH seen rules
                  (out ++ [{| Report.res_rule := j_rule_id f;
                              Report.res_level := Report.sarif_level (j_severity f);
                              Report.res_message := j_description f;
                              Report.res_uri := j_file f;
                              Report.res_line := j_line f |}]) Hseen Hnd)
        as (seen' & rules' & Hfold & Hs & Hn & Hids & Hrules).
      exists seen', rules'. rewrite <- app_assoc in Hfold.
      split_and!; [exact Hfold|done|done| |].
      * intros id. rewrite Hids, fmap_cons, elem_of_cons. split; [tauto|].
        intros [?|[->|?]]; tauto.
      * intros r Hr. destruct (Hrules r Hr) as [?|(g & Hg & ?)]; [by left|].
        right. exists g. split; [by apply list_elem_of_further|done].
    + destruct (IH (seen ++ [j_rule_id f])
                  (rules ++ [{| Report.sr_id := j_rule_id f;
                                Report.sr_name := j_description f;
                                Report.sr_level := Report.sarif_level (j_severity f) |}])
                  (out ++ [{| Report.res_rule := j_rule_id f;
                              Report.res_level := Report.sarif_level (j_severity f);
                              Report.res_message := j_description f;
                              Report.res_uri := j_file f;
                              Report.res_line := j_line f |}]))
        as (seen' & rules' & Hfold & Hs & Hn & Hids & Hrules).
      { by rewrite fmap_app, Hseen. }
      { apply NoDup_app. split_and!; [done| |apply NoDup_singleton].
        intros x Hx Hx'. apply list_elem_of_singleton in Hx'. by subst x. }
      exists seen', rules'. rewrite <- app_assoc in Hfold.
      split_and!; [exact Hfold|done|done| |].
      * intros id. rewrite Hids, fmap_cons, elem_of_cons, elem_of_app,
          list_elem_of_singleton. tauto.
      * intros r Hr. destruct (Hrules r Hr) as [Hr'|(g & Hg & ?)].
        -- apply elem_of_app in Hr' as [?|Hr']; [by left|].
           apply list_elem_of_singleton in Hr'. subst r.
           right. exists f. split; [apply list_elem_of_here|done].
        -- right. exists g. split; [by apply list_elem_of_further|done].
Qed.

Lemma sarif_of_value (results : Report.Results) (j : ScanJson) :
  Report.security_findings results = Report.Value j →
  ∃ rules,
    Report.generate_sarif_report results = Some (rules, sarif_result <$> j_findings j)
    ∧ NoDup (Report.sr_id <$> rules)
    ∧ (∀ id, id ∈ Report.sr_id <$> rules ↔ id ∈ j_rule_id <$> j_findings j)
    ∧ (∀ r, r ∈ rules →
         ∃ f, f ∈ j_findings j ∧ Report.sr_id r = j_rule_id f
              ∧ Report.sr_name r = j_description f
              ∧ Report.sr_level r = Report.sarif_level (j_severity f)).
Proof.
  intros Hsec. unfold Report.generate_sarif_report. rewrite Hsec. simpl.
  destruct (sarif_loop (j_findings j) [] [] [] eq_refl (NoDup_nil_2))
    as (seen' & rules' & Hfold & Hs & Hn & Hids & Hrules).
  simpl in Hfold.
  destruct (foldl _ _ _) as [[seen0 rules0] out0].
  injection Hfold as -> -> ->.
  exists rules'. split_and!.
  - done.
  - by rewrite <- Hs.
  - intros id. rewrite <- Hs, Hids, elem_of_nil. tauto.
  - intros r Hr. destruct (Hrules r Hr) as [Hnil|?]; [by apply elem_of_nil in Hnil|done].
Qed.

(** X14. From the JSON output of a scan the SARIF report has one
    result per finding, in order, with the finding's rule id,
    description, file and line, at level "error" for CRITICAL and HIGH
    and "warning" otherwise.  Its rules carry exactly the rule ids that
    occur among the findings, each id once, with the description and
    level of a finding of that rule, so that every result refers to a
    declared rule. *)
Theorem X14_sarif_rules_and_results (results : Report.Results) (j : ScanJson) :
  Report.security_findings results = Report.Value j →
  ∃ rules out,
    Report.generate_sarif_report results = Some (rules, out)
    ∧ out = (λ f, {| Report.res_rule := j_rule_id f;
                     Report.res_level :=
                       if bool_decide (j_severity f = "CRITICAL" ∨ j_severity f = "HIGH")
                       then "error" else "warning";
                     Report.res_message := j_description f;
                     Report.res_uri := j_file f;
                     Report.res_line := j_line f |}) <$> j_findings j
    ∧ NoDup (Report.sr_id <$> rules)
    ∧ (∀ id, id ∈ Report.sr_id <$> rules ↔ id ∈ j_rule_id <$> j_findings j)
    ∧ (∀ r, r ∈ out → Report.res_rule r ∈ Report.sr_id <$> rules)
    ∧ (∀ r, r ∈ rules →
         ∃ f, f ∈ j_findings j ∧ Report.sr_id r = j_rule_id f
              ∧ Report.sr_name r = j_description f
              ∧ Report.sr_level r = Report.sarif_level (j_severity f)).
Proof.
  intros Hsec.
  destruct (sarif_of_value results j Hsec) as (rules & Hgen & Hn & Hids & Hrules).
  exists rules, (sarif_result <$> j_findings j).
  assert (Hlevel : ∀ sev, Report.sarif_level sev
                          = if bool_decide (sev = "CRITICAL" ∨ sev = "HIGH")
                            then "error" else "warning").
  { intros sev. unfold Report.sarif_level, str_in.
    apply (f_equal (λ b : bool, if b then "error" else "warning")).
    apply bool_decide_ext. rewrite !elem_of_cons, elem_of_nil. tauto. }
  split_and!; try done.
  - apply list_fmap_ext. intros i f _. unfold sarif_result. by rewrite Hlevel.
  - intros r (f & -> & Hf)%list_elem_of_fmap. simpl.
    apply Hids. by apply list_elem_of_fmap_2.
Qed.

Lemma X14_witness_sample_project :
  Report.security_findings
    (Report.run_all_checks Regex.finditer Sample.project_world "proj")
  = Report.Value (scan_json (scan Regex.finditer Sample.project None))
  ∧ ∃ rules out,
      Report.generate_sarif_report
        (Report.run_all_checks Regex.finditer Sample.project_world "proj")
      = Some (rules, out)
      ∧ out = (λ f, {| Report.res_rule := j_rule_id f;
                       Report.res_level :=
                         if bool_decide (j_severity f = "CRITICAL" ∨ j_severity f = "HIGH")
                         then "error" else "warning";
                       Report.res_message := j_description f;
                       Report.res_uri := j_file f;
                       Report.res_line := j_line f |})
              <$> j_findings (scan_json (scan Regex.finditer Sample.project None))
      ∧ NoDup (Report.sr_id <$> rules)
      ∧ (∀ id, id ∈ Report.sr_id <$> rules
               ↔ id ∈ j_rule_id
                      <$> j_findings (scan_json (scan Regex.finditer Sample.project None)))
      ∧ (∀ r, r ∈ out → Report.res_rule r ∈ Report.sr_id <$> rules)
      ∧ (∀ r, r ∈ rules →
           ∃ f, f ∈ j_findings (scan_json (scan Regex.finditer Sample.project None))
                ∧ Report.sr_id r = j_rule_id f
                ∧ Report.sr_name r = j_description f
                ∧ Report.sr_level r = Report.sarif_level (j_severity f)).
Proof.
  assert (Hsec : Report.security_findings
                   (Report.run_all_checks Regex.finditer Sample.project_world "proj")
                 = Report.Value (scan_json (scan Regex.finditer Sample.project None))).
  { vm_compute. reflexivity. }
  exact (conj Hsec
           (X14_sarif_rules_and_results
              (Report.run_all_checks Regex.finditer Sample.project_world "proj")
              (scan_json (scan Regex.finditer Sample.project None)) Hsec)).
Defined.

(** A rule that matches twice is declared once: two shell calls give
    two results and one rule. *)
Example sarif_sample :
  (λ ro : list Report.SarifRule * list Report.SarifResult,
     (Report.sr_id <$> ro.1, Report.res_rule <$> ro.2))
  <$> Report.generate_sarif_report
        (results_of "now" "proj" Report.Absent
           (scan Regex.finditer
              (FsDir "proj" [FsFile "run.py" (Sample.source "os.system(a)
os.system(b)")]) None) [])
  = Some (["INJ-010"], ["INJ-010"; "INJ-010"]).
Proof. by vm_compute. Qed.

(** ** The scanner's severities in the report *)

Lemma any_of_false fnd sev :
  Forall (λ f, severity f ∈ SCANNER_SEVERITIES) fnd →
  sev ∉ SCANNER_SEVERITIES →
  any_of sev fnd = false.
Proof.
  intros Hall Hsev. unfold any_of. apply bool_decide_eq_false.
  rewrite Exists_exists. intros (f & Hf & Hs).
  rewrite Forall_forall in Hall. specialize (Hall f Hf). by rewrite Hs in Hall.
Qed.

Lemma count_zero (r : ScanResult) (sev : Severity) :
  any_of sev (findings r) = false →
  Z.of_nat (length (get_by_severity r sev)) = 0%Z.
Proof.
  intros Hnone. rewrite <- count_positive in Hnone.
  apply Z.ltb_ge in Hnone. lia.
Qed.

(** The summary of a Markdown report that was built is the executive
    summary of the results. *)
Lemma markdown_summary (results : Report.Results) (md : Report.Markdown) :
  Report.generate_markdown_report results = Some md →
  Report.executive_summary results = Some (Report.summary md).
Proof.
  unfold Report.generate_markdown_report.
  destruct (Report.executive_summary results) as [s|]; [|done]. simpl.
  destruct (forallb _ _); [|done]. by intros [= <-].
Qed.

(** The executive summary when the security entry holds the JSON of a
    scan: the counts and the verdict are the scan's. *)
Lemma executive_summary_of_scan (results : Report.Results) (r : ScanResult)
    (s : Report.Summary) :
  Report.security_findings results = Report.Value (scan_json r) →
  Report.executive_summary results = Some s →
  Report.verdict s = scan_verdict (findings r)
  ∧ Report.medium s = Z.of_nat (length (get_by_severity r MEDIUM))
  ∧ Report.low s = Z.of_nat (length (get_by_severity r LOW)).
Proof.
  intros Hsec. unfold Report.executive_summary. rewrite Hsec. simpl.
  destruct (Report.get (Report.dependency_findings results) _ _); [|done].
  simpl. intros [= <-]. simpl. unfold scan_verdict. by rewrite !count_positive.
Qed.

(** The executive summary when the security entry only carries an
    error: every count is 0 and the verdict is PASSED. *)
Lemma executive_summary_of_error (results : Report.Results) (msg : string)
    (s : Report.Summary) :
  Report.security_findings results = Report.Errored msg →
  Report.executive_summary results = Some s →
  Report.verdict s = Report.PASSED ∧ Report.medium s = 0%Z ∧ Report.low s = 0%Z.
Proof.
  intros Hsec. unfold Report.executive_summary. rewrite Hsec. simpl.
  destruct (Report.get (Report.dependency_findings results) _ _); [|done].
  simpl. by intros [= <-].
Qed.

(** X15. A report on an existing path never has the verdict REVIEW:
    whenever the Markdown report is built its medium and low counts are
    0, the scanner having no MEDIUM or LOW rule.  When the scanner ran
    to the end the verdict is PASSED exactly when the full scan of the
    tree has no finding at all; when starting it raised (a timeout) the
    verdict is PASSED whatever the tree holds.  Whenever the SARIF
    report is built, every result and every rule is at level "error".
    The Markdown report is not built exactly when the scanner or the
    dependency checker returned a non-zero code or an audit tool
    contributed a finding without icon; the SARIF report exactly when
    the scanner returned a non-zero code. *)
Theorem X15_report_never_review
    (finditer : string → text → list Match) (w : Report.World)
    (p : string) (root : FsNode) :
  Report.fs w p = Some root →
  let results := Report.run_all_checks finditer w p in
  (∀ md, Report.generate_markdown_report results = Some md →
     Report.verdict (Report.summary md) ≠ Report.REVIEW
     ∧ Report.medium (Report.summary md) = 0%Z
     ∧ Report.low (Report.summary md) = 0%Z
     ∧ match Report.scan_launch w p with
       | Report.Completed =>
           Report.verdict (Report.summary md) = Report.PASSED
           ↔ findings (scan finditer root None) = []
       | Report.Raised _ => Report.verdict (Report.summary md) = Report.PASSED
       | Report.Failed => False
       end)
  ∧ (∀ rules out, Report.generate_sarif_report results = Some (rules, out) →
     Forall (λ r, Report.res_level r = "error") out
     ∧ Forall (λ r, Report.sr_level r = "error") rules)
  ∧ (Report.generate_markdown_report results = None ↔ no_markdown w p)
  ∧ (Report.generate_sarif_report results = None
     ↔ Report.scan_launch w p = Report.Failed).
Proof.
  intros Hroot results. unfold results.
  destruct (run_all_checks_entries finditer w p root Hroot) as [Hs _].
  pose proof (scan_severe finditer root None) as Hsev.
  set (r := scan finditer root None) in *.
  assert (Hmed : any_of MEDIUM (findings r) = false).
  { apply any_of_false; [done|]. unfold SCANNER_SEVERITIES. intros H. by list_cases H. }
  assert (Hlow : any_of LOW (findings r) = false).
  { apply any_of_false; [done|]. unfold SCANNER_SEVERITIES. intros H. by list_cases H. }
  assert (Hlevel : ∀ f, f ∈ findings r →
             Report.sarif_level (j_severity (finding_json f)) = "error").
  { intros f Hf. rewrite Forall_forall in Hsev. specialize (Hsev f Hf).
    unfold SCANNER_SEVERITIES in Hsev. simpl. by list_cases Hsev; rewrite Hsev. }
  split_and!.
  - intros md Hmd%markdown_summary.
    destruct (Report.scan_launch w p) as [| |msg].
    + destruct (executive_summary_of_scan _ r _ Hs Hmd) as (-> & -> & ->).
      unfold scan_verdict. rewrite Hmed. split_and!.
      * by destruct (any_of CRITICAL (findings r)), (any_of HIGH (findings r)).
      * by apply count_zero.
      * by apply count_zero.
      * split.
        -- intros Hpassed. destruct (findings r) as [|f fnd] eqn:Hf; [done|].
           apply Forall_cons in Hsev as [Hf1 _]. unfold SCANNER_SEVERITIES in Hf1.
           assert (any_of CRITICAL (f :: fnd) = true ∨ any_of HIGH (f :: fnd) = true)
             as Hany.
           { list_cases Hf1; [left|right]; apply bool_decide_eq_true, Exists_cons;
               by left. }
           destruct Hany as [Ha|Ha]; rewrite Ha in Hpassed;
             by destruct (any_of CRITICAL (f :: fnd)).
        -- intros Hnil. rewrite Hnil. by vm_compute.
    + unfold Report.executive_summary in Hmd. by rewrite Hs in Hmd.
    + destruct (executive_summary_of_error _ msg _ Hs Hmd) as (Hv & -> & ->).
      by rewrite Hv.
  - intros rules out Hgen.
    destruct (Report.scan_launch w p) as [| |msg].
    + destruct (sarif_of_value _ _ Hs) as (rules' & Hgen' & _ & _ & Hrules).
      rewrite Hgen in Hgen'. injection Hgen' as -> ->. split.
      * apply Forall_fmap, Forall_fmap, Forall_forall. intros f Hf. simpl.
        by apply Hlevel.
      * apply Forall_forall. intros ru Hru.
        destruct (Hrules ru Hru) as (g & Hg & _ & _ & ->).
        apply list_elem_of_fmap in Hg as (f & -> & Hf). by apply Hlevel.
    + apply sarif_none in Hs. congruence.
    + unfold Report.generate_sarif_report in Hgen. rewrite Hs in Hgen.
      simpl in Hgen. injection Hgen as <- <-. by split.
  - by apply markdown_none_on_path with root.
  - by apply sarif_none_on_path with root.
Qed.

Lemma X15_witness_sample_project :
  Report.fs Sample.project_world "proj" = Some Sample.project
  ∧ (∀ md,
       Report.generate_markdown_report
         (Report.run_all_checks Regex.finditer Sample.project_world "proj") = Some md →
       Report.verdict (Report.summary md) ≠ Report.REVIEW
       ∧ Report.medium (Report.summary md) = 0%Z
       ∧ Report.low (Report.summary md) = 0%Z
       ∧ match Report.scan_launch Sample.project_world "proj" with
         | Report.Completed =>
             Report.verdict (Report.summary md) = Report.PASSED
             ↔ findings (scan Regex.finditer Sample.project None) = []
         | Report.Raised _ => Report.verdict (Report.summary md) = Report.PASSED
         | Report.Failed => False
         end)
  ∧ (∀ rules out,
       Report.generate_sarif_report
         (Report.run_all_checks Regex.finditer Sample.project_world "proj")
       = Some (rules, out) →
       Forall (λ r, Report.res_level r = "error") out
       ∧ Forall (λ r, Report.sr_level r = "error") rules)
  ∧ (Report.generate_markdown_report
       (Report.run_all_checks Regex.finditer Sample.project_world "proj") = None
     ↔ no_markdown Sample.project_world "proj")
  ∧ (Report.generate_sarif_report
       (Report.run_all_checks Regex.finditer Sample.project_world "proj") = None
     ↔ Report.scan_launch Sample.project_world "proj" = Report.Failed).
Proof.
  assert (Hroot : Report.fs Sample.project_world "proj" = Some Sample.project)
    by reflexivity.
  exact (conj Hroot
           (X15_report_never_review Regex.finditer Sample.project_world "proj"
              Sample.project Hroot)).
Defined.

(** The sample project has CRITICAL findings; when starting the scanner
    on it times out, its report says PASSED. *)
Example timeout_sample :
  (Report.verdict ∘ Report.summary)
  <$> Report.generate_markdown_report
        (Report.run_all_checks Regex.finditer
           (Sample2.launched (Report.Raised "timed out") Report.Completed
              Sample.project_world) "proj")
  = Some Report.PASSED
  ∧ (Report.verdict ∘ Report.summary)
    <$> Report.generate_markdown_report
          (Report.run_all_checks Regex.finditer Sample.project_world "proj")
    = Some Report.BLOCKED.
Proof. by vm_compute. Qed.

(** ** Project detection: table lookups and recommendations *)

Lemma detect_in_keys (hit : string → bool) (table : Deps.dict (list string)) :
  NoDup (fst <$> table) →
  Detect.detect_in hit table
  = fst <$> filter (λ entry, existsb hit entry.2 = true) table.
Proof.
  unfold Detect.detect_in. intros Hnd.
  assert (Hgen : ∀ acc,
             (∀ k, k ∈ acc → k ∉ fst <$> table) →
             foldl (λ detected '(key, indicators),
                      if existsb hit indicators
                      then (if str_in key detected then detected else detected ++ [key])
                      else detected) acc table
             = acc ++ (fst <$> filter (λ entry, existsb hit entry.2 = true) table)).
  { induction table as [|[key inds] table IH]; intros acc Hacc.
    - simpl. by rewrite app_nil_r.
    - apply NoDup_cons in Hnd as [Hkey Hnd]. cbn [foldl].
      rewrite filter_cons. simpl.
      destruct (existsb hit inds) eqn:Hhit.
      + rewrite decide_True by done.
        unfold str_in. rewrite bool_decide_eq_false_2.
        * rewrite IH; [by rewrite <- app_assoc|done|].
          intros k Hk%elem_of_app. destruct Hk as [Hk|Hk%list_elem_of_singleton].
          -- specialize (Hacc k Hk). by apply not_elem_of_cons in Hacc as [_ ?].
          -- by subst k.
        * intros Hin. apply (Hacc key Hin). apply list_elem_of_here.
      + rewrite decide_False by (by intros ?). apply IH; [done|].
        intros k Hk. specialize (Hacc k Hk). by apply not_elem_of_cons in Hacc as [_ ?]. }
  rewrite Hgen; [done|]. intros k Hk. by apply elem_of_nil in Hk.
Qed.



(** Indicators are looked for anywhere in the lower-cased text: the
    sample text names two databases. *)
Example detect_databases_sample :
  Detect._detect_databases (txt "pymongo==4.0 Redis") = ["mongodb"; "redis"].
Proof. by vm_compute. Qed.

(** X17. The recommended checks always hold 'secrets', hold no name
    twice and only names out of eight.  The list starts with 'secrets',
    except when the AI tool 'lovable' was detected: then 'cloud' is
    moved to the front. *)
Theorem X17_recommendations_shape
    (project_type : string) (frameworks databases cloud ai_tools : list string) :
  let recs :=
    Detect._get_recommendations project_type frameworks databases cloud ai_tools in
  "secrets" ∈ recs
  ∧ NoDup recs
  ∧ Forall (λ c, c ∈ RECOMMENDABLE) recs
  ∧ head recs = Some (if bool_decide ("lovable" ∈ ai_tools) then "cloud" else "secrets").
Proof.
  unfold Detect._get_recommendations.
  destruct ai_tools as [|tool ai_tools].
  - rewrite bool_decide_eq_false_2 by (by intros ?%elem_of_nil).
    cbn [Detect.truthy].
    repeat match goal with
           | |- context [if ?b then _ else _] => destruct b
           end;
      (split_and!; [by_evaluation | by_evaluation | by_evaluation | reflexivity]).
  - cbn [Detect.truthy].
    change (bool_decide ("lovable" ∈ tool :: ai_tools))
      with (str_in "lovable" (tool :: ai_tools)).
    destruct (str_in "lovable" (tool :: ai_tools));
    repeat match goal with
           | |- context [if ?b then _ else _] => destruct b
           end;
      (split_and!; [by_evaluation | by_evaluation | by_evaluation | reflexivity]).
Qed.

(** With a database, a web framework and the 'lovable' indicator:
    'cloud' comes first and is not repeated. *)
Example recommendations_sample :
  Detect._get_recommendations "node.js" ["react"] ["supabase"] [] ["lovable"]
  = ["cloud"; "secrets"; "injection"; "xss"; "auth"; "cors"; "data"].
Proof. by vm_compute. Qed.

(** X18. When a web framework was detected, the recommended checks
    hold 'xss' and 'cors'.  Neither is a category the scanner
    dispatches on, and 'cors' is not even a value its [--check] option
    accepts: the recommendations cannot be passed on as they are.
    Every other recommendation is a value [--check] accepts. *)
Theorem X18_recommendations_and_check_choices
    (project_type : string) (frameworks databases cloud ai_tools : list string) :
  (∃ f, f ∈ frameworks ∧ f ∈ Detect.WEB_FRAMEWORKS) →
  let recs :=
    Detect._get_recommendations project_type frameworks databases cloud ai_tools in
  "xss" ∈ recs ∧ "cors" ∈ recs
  ∧ ("cors" ∉ CHECK_CHOICES)
  ∧ ("xss" ∉ DISPATCHED) ∧ ("cors" ∉ DISPATCHED)
  ∧ Forall (λ c, c ∈ CHECK_CHOICES ∨ c = "cors") recs.
Proof.
  intros (f & Hf & Hweb).
  assert (Hany : existsb (λ f, str_in f Detect.WEB_FRAMEWORKS) frameworks = true).
  { apply existsb_exists. exists f. split; [by apply list_elem_of_In|].
    by apply bool_decide_eq_true. }
  unfold Detect._get_recommendations. rewrite Hany.
  assert (Hdec : ∀ l : list string,
             Forall (λ c, bool_decide (c ∈ CHECK_CHOICES) || bool_decide (c = "cors") = true) l →
             Forall (λ c, c ∈ CHECK_CHOICES ∨ c = "cors") l).
  { intros l Hl. eapply Forall_impl; [exact Hl|].
    intros c [H|H]%orb_true_iff; apply bool_decide_eq_true in H; tauto. }
  repeat match goal with
         | |- context [if ?b then _ else _] => destruct b
         end;
    (split_and!; [by_evaluation..|apply Hdec; by_evaluation]).
Qed.

Lemma X18_witness_react :
  (∃ f, f ∈ ["react"] ∧ f ∈ Detect.WEB_FRAMEWORKS)
  ∧ "xss" ∈ Detect._get_recommendations "node.js" ["react"] [] [] []
  ∧ "cors" ∈ Detect._get_recommendations "node.js" ["react"] [] [] []
  ∧ ("cors" ∉ CHECK_CHOICES)
  ∧ ("xss" ∉ DISPATCHED) ∧ ("cors" ∉ DISPATCHED)
  ∧ Forall (λ c, c ∈ CHECK_CHOICES ∨ c = "cors")
           (Detect._get_recommendations "node.js" ["react"] [] [] []).
Proof.
  assert (Hweb : ∃ f, f ∈ ["react"] ∧ f ∈ Detect.WEB_FRAMEWORKS).
  { exists "react". split; [in_list | unfold Detect.WEB_FRAMEWORKS; in_list]. }
  exact (conj Hweb
           (X18_recommendations_and_check_choices "node.js" ["react"] [] [] [] Hweb)).
Defined.

Lemma sublist_in_sublists {A} (l k : list A) :
  l `sublist_of` k → l ∈ sublists k.
Proof.
  induction 1 as [|x l k _ IH|x l k _ IH]; simpl.
  - apply list_elem_of_here.
  - apply elem_of_app. left. by apply list_elem_of_fmap_2.
  - apply elem_of_app. by right.
Qed.

(** No selection of the database names has 'auth' in its printed
    form. *)
Lemma no_auth_in_databases :
  Forall (λ dbs, Detect.contains "auth" (lower (Detect.repr_list dbs)) = false)
         (sublists (fst <$> Detect.DATABASE_INDICATORS)).
Proof. by_evaluation. Qed.

(** X19. For the databases that detection returns, the test for 'auth'
    in the printed list of databases never holds, whatever the project
    text: 'crypto' is recommended exactly when the framework 'django'
    was detected. *)
Theorem X19_crypto_recommended_for_django_only
    (content : text) (project_type : string) (frameworks cloud ai_tools : list string) :
  "crypto" ∈ Detect._get_recommendations project_type frameworks
               (Detect._detect_databases content) cloud ai_tools
  ↔ "django" ∈ frameworks.
Proof.
  assert (Hsub : Detect._detect_databases content
                 `sublist_of` (fst <$> Detect.DATABASE_INDICATORS)).
  { assert (Hnd : NoDup (fst <$> Detect.DATABASE_INDICATORS)) by by_evaluation.
    unfold Detect._detect_databases. rewrite (detect_in_keys _ _ Hnd).
    apply fmap_sublist, sublist_filter. }
  pose proof no_auth_in_databases as Hno. rewrite Forall_forall in Hno.
  specialize (Hno _ (sublist_in_sublists _ _ Hsub)).
  unfold Detect._get_recommendations. rewrite Hno, orb_false_r.
  destruct (decide ("django" ∈ frameworks)) as [Hdj|Hdj].
  - assert (Hd : str_in "django" frameworks = true) by (by apply bool_decide_eq_true_2).
    rewrite Hd. split; [done|]. intros _.
    repeat match goal with
           | |- context [if ?b then _ else _] => destruct b
           end; by_evaluation.
  - assert (Hd : str_in "django" frameworks = false) by (by apply bool_decide_eq_false_2).
    rewrite Hd. split; [|done]. intros Hin. exfalso. revert Hin.
    repeat match goal with
           | |- context [if ?b then _ else _] => destruct b
           end; by_evaluation.
Qed.
